(** * WhatsApp approval server: request lifecycle

    A shallow embedding of [approval_server.py]: the [ApprovalRequest] table,
    the tool entry point [permissions__approve] with its polling wait loop,
    and the inbound handler [twilio_webhook] with its reply parser, followed
    by the properties of the request lifecycle.

    Conventions of the embedding.
    - Python [str] is [string], the UTF-8 bytes of the text. The helpers of
      [Module Py] follow the Python methods on it, character by character
      where the method does: [upper], [strip], [len] and slicing know the
      characters of several bytes.
    - A naive [datetime] is an integer count of microseconds ([Z]); a
      [timedelta] is a difference of two of them.
    - The SQLite table is a finite map from the primary key [id] to the row.
      String comparison in a [WHERE] clause is SQLite's default (binary,
      case-sensitive), which is equality of [string].
    - Everything the process reads from outside (the clock, [uuid4], the
      Twilio client, the table as other requests left it) is an explicit
      argument. *)

From Stdlib Require Import ZArith Ascii String Lia.
From stdpp Require Import base gmap strings list.

Local Open Scope Z_scope.

(** ** Python text helpers *)

Module Py.

Definition nl : string := String "010"%char "".

(** A [str] is kept as its UTF-8 bytes. A byte below 128 is a character of
    its own; a byte from 192 on opens a character of two, three or four
    bytes, the others being continuation bytes (128 to 191). *)
Definition is_ascii (c : ascii) : bool := Nat.ltb (nat_of_ascii c) 128.

Definition is_continuation (c : ascii) : bool :=
  let n := nat_of_ascii c in Nat.leb 128 n && Nat.ltb n 192.

(** The number of continuation bytes the byte announces. *)
Definition continuation_bytes (c : ascii) : nat :=
  let n := nat_of_ascii c in
  if Nat.ltb n 192 then 0
  else if Nat.ltb n 224 then 1
  else if Nat.ltb n 240 then 2
  else 3.

(** [len(s)]: the number of characters. *)
Fixpoint len (s : string) : nat :=
  match s with
  | "" => 0
  | String c s' => if is_continuation c then len s' else S (len s')
  end.

(** [s[:n]]: the first [n] characters, each with all its bytes. *)
Fixpoint take (n : nat) (s : string) : string :=
  match s with
  | "" => ""
  | String c s' =>
      if is_continuation c then String c (take n s')
      else match n with
           | O => ""
           | S k => String c (take k s')
           end
  end.

(** [str.isspace] on one ASCII character. *)
Definition is_space (c : ascii) : bool :=
  match c with
  | "009" | "010" | "011" | "012" | "013"
  | "028" | "029" | "030" | "031" | " " => true
  | _ => false
  end%char.

(** [str.isspace] on the characters of two bytes: U+0085 and U+00A0. *)
Definition is_space2 (a b : ascii) : bool :=
  Ascii.eqb a "194" && (Ascii.eqb b "133" || Ascii.eqb b "160").

(** [str.isspace] on the characters of three bytes: U+1680, U+2000 to
    U+200A, U+2028, U+2029, U+202F, U+205F and U+3000. *)
Definition is_space3 (a b c : ascii) : bool :=
  let n := nat_of_ascii c in
  (Ascii.eqb a "225" && Ascii.eqb b "154" && Nat.eqb n 128)
  || (Ascii.eqb a "226" && Ascii.eqb b "128"
      && ((Nat.leb 128 n && Nat.leb n 138)
          || Nat.eqb n 168 || Nat.eqb n 169 || Nat.eqb n 175))
  || (Ascii.eqb a "226" && Ascii.eqb b "129" && Nat.eqb n 159)
  || (Ascii.eqb a "227" && Ascii.eqb b "128" && Nat.eqb n 128).

(** The string is one white-space character. *)
Definition is_space_char (t : string) : bool :=
  match t with
  | String a "" => is_space a
  | String a (String b "") => is_space2 a b
  | String a (String b (String c "")) => is_space3 a b c
  | _ => false
  end.

Definition is_lower (c : ascii) : bool :=
  let n := nat_of_ascii c in Nat.leb 97 n && Nat.leb n 122.

(** [str.upper] on one ASCII character. *)
Definition char_upper (c : ascii) : ascii :=
  if is_lower c then ascii_of_nat (nat_of_ascii c - 32) else c.

(** [str.upper] on the characters beyond ASCII: each character that
    [upper()] changes, with what it becomes (Unicode 14). *)
Definition upper_table_1 : list (string * string) :=
  [("µ", "Μ"); ("ß", "SS"); ("à", "À"); ("á", "Á"); ("â", "Â");
   ("ã", "Ã"); ("ä", "Ä"); ("å", "Å"); ("æ", "Æ"); ("ç", "Ç");
   ("è", "È"); ("é", "É"); ("ê", "Ê"); ("ë", "Ë"); ("ì", "Ì");
   ("í", "Í"); ("î", "Î"); ("ï", "Ï"); ("ð", "Ð"); ("ñ", "Ñ");
   ("ò", "Ò"); ("ó", "Ó"); ("ô", "Ô"); ("õ", "Õ"); ("ö", "Ö");
   ("ø", "Ø"); ("ù", "Ù"); ("ú", "Ú"); ("û", "Û"); ("ü", "Ü");
   ("ý", "Ý"); ("þ", "Þ"); ("ÿ", "Ÿ"); ("ā", "Ā"); ("ă", "Ă");
   ("ą", "Ą"); ("ć", "Ć"); ("ĉ", "Ĉ"); ("ċ", "Ċ"); ("č", "Č");
   ("ď", "Ď"); ("đ", "Đ"); ("ē", "Ē"); ("ĕ", "Ĕ"); ("ė", "Ė");
   ("ę", "Ę"); ("ě", "Ě"); ("ĝ", "Ĝ"); ("ğ", "Ğ"); ("ġ", "Ġ");
   ("ģ", "Ģ"); ("ĥ", "Ĥ"); ("ħ", "Ħ"); ("ĩ", "Ĩ"); ("ī", "Ī");
   ("ĭ", "Ĭ"); ("į", "Į"); ("ı", "I"); ("ĳ", "Ĳ"); ("ĵ", "Ĵ");
   ("ķ", "Ķ"); ("ĺ", "Ĺ"); ("ļ", "Ļ"); ("ľ", "Ľ"); ("ŀ", "Ŀ");
   ("ł", "Ł"); ("ń", "Ń"); ("ņ", "Ņ"); ("ň", "Ň"); ("ŉ", "ʼN");
   ("ŋ", "Ŋ"); ("ō", "Ō"); ("ŏ", "Ŏ"); ("ő", "Ő"); ("œ", "Œ");
   ("ŕ", "Ŕ"); ("ŗ", "Ŗ"); ("ř", "Ř"); ("ś", "Ś"); ("ŝ", "Ŝ");
   ("ş", "Ş"); ("š", "Š"); ("ţ", "Ţ"); ("ť", "Ť"); ("ŧ", "Ŧ");
   ("ũ", "Ũ"); ("ū", "Ū"); ("ŭ", "Ŭ"); ("ů", "Ů"); ("ű", "Ű");
   ("ų", "Ų"); ("ŵ", "Ŵ"); ("ŷ", "Ŷ"); ("ź", "Ź"); ("ż", "Ż");
   ("ž", "Ž"); ("ſ", "S"); ("ƀ", "Ƀ"); ("ƃ", "Ƃ"); ("ƅ", "Ƅ");
   ("ƈ", "Ƈ"); ("ƌ", "Ƌ"); ("ƒ", "Ƒ"); ("ƕ", "Ƕ"); ("ƙ", "Ƙ");
   ("ƚ", "Ƚ"); ("ƞ", "Ƞ"); ("ơ", "Ơ"); ("ƣ", "Ƣ"); ("ƥ", "Ƥ");
   ("ƨ", "Ƨ"); ("ƭ", "Ƭ"); ("ư", "Ư"); ("ƴ", "Ƴ"); ("ƶ", "Ƶ");
   ("ƹ", "Ƹ"); ("ƽ", "Ƽ"); ("ƿ", "Ƿ"); ("ǅ", "Ǆ"); ("ǆ", "Ǆ");
   ("ǈ", "Ǉ"); ("ǉ", "Ǉ"); ("ǋ", "Ǌ"); ("ǌ", "Ǌ"); ("ǎ", "Ǎ");
   ("ǐ", "Ǐ"); ("ǒ", "Ǒ"); ("ǔ", "Ǔ"); ("ǖ", "Ǖ"); ("ǘ", "Ǘ");
   ("ǚ", "Ǚ"); ("ǜ", "Ǜ"); ("ǝ", "Ǝ"); ("ǟ", "Ǟ"); ("ǡ", "Ǡ");
   ("ǣ", "Ǣ"); ("ǥ", "Ǥ"); ("ǧ", "Ǧ"); ("ǩ", "Ǩ"); ("ǫ", "Ǫ");
   ("ǭ", "Ǭ"); ("ǯ", "Ǯ"); ("ǰ", "J̌"); ("ǲ", "Ǳ"); ("ǳ", "Ǳ");
   ("ǵ", "Ǵ"); ("ǹ", "Ǹ"); ("ǻ", "Ǻ"); ("ǽ", "Ǽ"); ("ǿ", "Ǿ")].

Definition upper_table_2 : list (string * string) :=
  [("ȁ", "Ȁ"); ("ȃ", "Ȃ"); ("ȅ", "Ȅ"); ("ȇ", "Ȇ"); ("ȉ", "Ȉ");
   ("ȋ", "Ȋ"); ("ȍ", "Ȍ"); ("ȏ", "Ȏ"); ("ȑ", "Ȑ"); ("ȓ", "Ȓ");
   ("ȕ", "Ȕ"); ("ȗ", "Ȗ"); ("ș", "Ș"); ("ț", "Ț"); ("ȝ", "Ȝ");
   ("ȟ", "Ȟ"); ("ȣ", "Ȣ"); ("ȥ", "Ȥ"); ("ȧ", "Ȧ"); ("ȩ", "Ȩ");
   ("ȫ", "Ȫ"); ("ȭ", "Ȭ"); ("ȯ", "Ȯ"); ("ȱ", "Ȱ"); ("ȳ", "Ȳ");
   ("ȼ", "Ȼ"); ("ȿ", "Ȿ"); ("ɀ", "Ɀ"); ("ɂ", "Ɂ"); ("ɇ", "Ɇ");
   ("ɉ", "Ɉ"); ("ɋ", "Ɋ"); ("ɍ", "Ɍ"); ("ɏ", "Ɏ"); ("ɐ", "Ɐ");
   ("ɑ", "Ɑ"); ("ɒ", "Ɒ"); ("ɓ", "Ɓ"); ("ɔ", "Ɔ"); ("ɖ", "Ɖ");
   ("ɗ", "Ɗ"); ("ə", "Ə"); ("ɛ", "Ɛ"); ("ɜ", "Ɜ"); ("ɠ", "Ɠ");
   ("ɡ", "Ɡ"); ("ɣ", "Ɣ"); ("ɥ", "Ɥ"); ("ɦ", "Ɦ"); ("ɨ", "Ɨ");
   ("ɩ", "Ɩ"); ("ɪ", "Ɪ"); ("ɫ", "Ɫ"); ("ɬ", "Ɬ"); ("ɯ", "Ɯ");
   ("ɱ", "Ɱ"); ("ɲ", "Ɲ"); ("ɵ", "Ɵ"); ("ɽ", "Ɽ"); ("ʀ", "Ʀ");
   ("ʂ", "Ʂ"); ("ʃ", "Ʃ"); ("ʇ", "Ʇ"); ("ʈ", "Ʈ"); ("ʉ", "Ʉ");
   ("ʊ", "Ʊ"); ("ʋ", "Ʋ"); ("ʌ", "Ʌ"); ("ʒ", "Ʒ"); ("ʝ", "Ʝ");
   ("ʞ", "Ʞ"); ("ͅ", "Ι"); ("ͱ", "Ͱ"); ("ͳ", "Ͳ"); ("ͷ", "Ͷ");
   ("ͻ", "Ͻ"); ("ͼ", "Ͼ"); ("ͽ", "Ͽ"); ("ΐ", "Ϊ́"); ("ά", "Ά");
   ("έ", "Έ"); ("ή", "Ή"); ("ί", "Ί"); ("ΰ", "Ϋ́"); ("α", "Α");
   ("β", "Β"); ("γ", "Γ"); ("δ", "Δ"); ("ε", "Ε"); ("ζ", "Ζ");
   ("η", "Η"); ("θ", "Θ"); ("ι", "Ι"); ("κ", "Κ"); ("λ", "Λ");
   ("μ", "Μ"); ("ν", "Ν"); ("ξ", "Ξ"); ("ο", "Ο"); ("π", "Π");
   ("ρ", "Ρ"); ("ς", "Σ"); ("σ", "Σ"); ("τ", "Τ"); ("υ", "Υ");
   ("φ", "Φ"); ("χ", "Χ"); ("ψ", "Ψ"); ("ω", "Ω"); ("ϊ", "Ϊ");
   ("ϋ", "Ϋ"); ("ό", "Ό"); ("ύ", "Ύ"); ("ώ", "Ώ"); ("ϐ", "Β");
   ("ϑ", "Θ"); ("ϕ", "Φ"); ("ϖ", "Π"); ("ϗ", "Ϗ"); ("ϙ", "Ϙ");
   ("ϛ", "Ϛ"); ("ϝ", "Ϝ"); ("ϟ", "Ϟ"); ("ϡ", "Ϡ"); ("ϣ", "Ϣ");
   ("ϥ", "Ϥ"); ("ϧ", "Ϧ"); ("ϩ", "Ϩ"); ("ϫ", "Ϫ"); ("ϭ", "Ϭ");
   ("ϯ", "Ϯ"); ("ϰ", "Κ"); ("ϱ", "Ρ"); ("ϲ", "Ϲ"); ("ϳ", "Ϳ");
   ("ϵ", "Ε"); ("ϸ", "Ϸ"); ("ϻ", "Ϻ"); ("а", "А"); ("б", "Б");
   ("в", "В"); ("г", "Г"); ("д", "Д"); ("е", "Е"); ("ж", "Ж");
   ("з", "З"); ("и", "И"); ("й", "Й"); ("к", "К"); ("л", "Л")].

Definition upper_table_3 : list (string * string) :=
  [("м", "М"); ("н", "Н"); ("о", "О"); ("п", "П"); ("р", "Р");
   ("с", "С"); ("т", "Т"); ("у", "У"); ("ф", "Ф"); ("х", "Х");
   ("ц", "Ц"); ("ч", "Ч"); ("ш", "Ш"); ("щ", "Щ"); ("ъ", "Ъ");
   ("ы", "Ы"); ("ь", "Ь"); ("э", "Э"); ("ю", "Ю"); ("я", "Я");
   ("ѐ", "Ѐ"); ("ё", "Ё"); ("ђ", "Ђ"); ("ѓ", "Ѓ"); ("є", "Є");
   ("ѕ", "Ѕ"); ("і", "І"); ("ї", "Ї"); ("ј", "Ј"); ("љ", "Љ");
   ("њ", "Њ"); ("ћ", "Ћ"); ("ќ", "Ќ"); ("ѝ", "Ѝ"); ("ў", "Ў");
   ("џ", "Џ"); ("ѡ", "Ѡ"); ("ѣ", "Ѣ"); ("ѥ", "Ѥ"); ("ѧ", "Ѧ");
   ("ѩ", "Ѩ"); ("ѫ", "Ѫ"); ("ѭ", "Ѭ"); ("ѯ", "Ѯ"); ("ѱ", "Ѱ");
   ("ѳ", "Ѳ"); ("ѵ", "Ѵ"); ("ѷ", "Ѷ"); ("ѹ", "Ѹ"); ("ѻ", "Ѻ");
   ("ѽ", "Ѽ"); ("ѿ", "Ѿ"); ("ҁ", "Ҁ"); ("ҋ", "Ҋ"); ("ҍ", "Ҍ");
   ("ҏ", "Ҏ"); ("ґ", "Ґ"); ("ғ", "Ғ"); ("ҕ", "Ҕ"); ("җ", "Җ");
   ("ҙ", "Ҙ"); ("қ", "Қ"); ("ҝ", "Ҝ"); ("ҟ", "Ҟ"); ("ҡ", "Ҡ");
   ("ң", "Ң"); ("ҥ", "Ҥ"); ("ҧ", "Ҧ"); ("ҩ", "Ҩ"); ("ҫ", "Ҫ");
   ("ҭ", "Ҭ"); ("ү", "Ү"); ("ұ", "Ұ"); ("ҳ", "Ҳ"); ("ҵ", "Ҵ");
   ("ҷ", "Ҷ"); ("ҹ", "Ҹ"); ("һ", "Һ"); ("ҽ", "Ҽ"); ("ҿ", "Ҿ");
   ("ӂ", "Ӂ"); ("ӄ", "Ӄ"); ("ӆ", "Ӆ"); ("ӈ", "Ӈ"); ("ӊ", "Ӊ");
   ("ӌ", "Ӌ"); ("ӎ", "Ӎ"); ("ӏ", "Ӏ"); ("ӑ", "Ӑ"); ("ӓ", "Ӓ");
   ("ӕ", "Ӕ"); ("ӗ", "Ӗ"); ("ә", "Ә"); ("ӛ", "Ӛ"); ("ӝ", "Ӝ");
   ("ӟ", "Ӟ"); ("ӡ", "Ӡ"); ("ӣ", "Ӣ"); ("ӥ", "Ӥ"); ("ӧ", "Ӧ");
   ("ө", "Ө"); ("ӫ", "Ӫ"); ("ӭ", "Ӭ"); ("ӯ", "Ӯ"); ("ӱ", "Ӱ");
   ("ӳ", "Ӳ"); ("ӵ", "Ӵ"); ("ӷ", "Ӷ"); ("ӹ", "Ӹ"); ("ӻ", "Ӻ");
   ("ӽ", "Ӽ"); ("ӿ", "Ӿ"); ("ԁ", "Ԁ"); ("ԃ", "Ԃ"); ("ԅ", "Ԅ");
   ("ԇ", "Ԇ"); ("ԉ", "Ԉ"); ("ԋ", "Ԋ"); ("ԍ", "Ԍ"); ("ԏ", "Ԏ");
   ("ԑ", "Ԑ"); ("ԓ", "Ԓ"); ("ԕ", "Ԕ"); ("ԗ", "Ԗ"); ("ԙ", "Ԙ");
   ("ԛ", "Ԛ"); ("ԝ", "Ԝ"); ("ԟ", "Ԟ"); ("ԡ", "Ԡ"); ("ԣ", "Ԣ");
   ("ԥ", "Ԥ"); ("ԧ", "Ԧ"); ("ԩ", "Ԩ"); ("ԫ", "Ԫ"); ("ԭ", "Ԭ");
   ("ԯ", "Ԯ"); ("ա", "Ա"); ("բ", "Բ"); ("գ", "Գ"); ("դ", "Դ");
   ("ե", "Ե"); ("զ", "Զ"); ("է", "Է"); ("ը", "Ը"); ("թ", "Թ");
   ("ժ", "Ժ"); ("ի", "Ի"); ("լ", "Լ"); ("խ", "Խ"); ("ծ", "Ծ")].

Definition upper_table_4 : list (string * string) :=
  [("կ", "Կ"); ("հ", "Հ"); ("ձ", "Ձ"); ("ղ", "Ղ"); ("ճ", "Ճ");
   ("մ", "Մ"); ("յ", "Յ"); ("ն", "Ն"); ("շ", "Շ"); ("ո", "Ո");
   ("չ", "Չ"); ("պ", "Պ"); ("ջ", "Ջ"); ("ռ", "Ռ"); ("ս", "Ս");
   ("վ", "Վ"); ("տ", "Տ"); ("ր", "Ր"); ("ց", "Ց"); ("ւ", "Ւ");
   ("փ", "Փ"); ("ք", "Ք"); ("օ", "Օ"); ("ֆ", "Ֆ"); ("և", "ԵՒ");
   ("ა", "Ა"); ("ბ", "Ბ"); ("გ", "Გ"); ("დ", "Დ"); ("ე", "Ე");
   ("ვ", "Ვ"); ("ზ", "Ზ"); ("თ", "Თ"); ("ი", "Ი"); ("კ", "Კ");
   ("ლ", "Ლ"); ("მ", "Მ"); ("ნ", "Ნ"); ("ო", "Ო"); ("პ", "Პ");
   ("ჟ", "Ჟ"); ("რ", "Რ"); ("ს", "Ს"); ("ტ", "Ტ"); ("უ", "Უ");
   ("ფ", "Ფ"); ("ქ", "Ქ"); ("ღ", "Ღ"); ("ყ", "Ყ"); ("შ", "Შ");
   ("ჩ", "Ჩ"); ("ც", "Ც"); ("ძ", "Ძ"); ("წ", "Წ"); ("ჭ", "Ჭ");
   ("ხ", "Ხ"); ("ჯ", "Ჯ"); ("ჰ", "Ჰ"); ("ჱ", "Ჱ"); ("ჲ", "Ჲ");
   ("ჳ", "Ჳ"); ("ჴ", "Ჴ"); ("ჵ", "Ჵ"); ("ჶ", "Ჶ"); ("ჷ", "Ჷ");
   ("ჸ", "Ჸ"); ("ჹ", "Ჹ"); ("ჺ", "Ჺ"); ("ჽ", "Ჽ"); ("ჾ", "Ჾ");
   ("ჿ", "Ჿ"); ("ᏸ", "Ᏸ"); ("ᏹ", "Ᏹ"); ("ᏺ", "Ᏺ"); ("ᏻ", "Ᏻ");
   ("ᏼ", "Ᏼ"); ("ᏽ", "Ᏽ"); ("ᲀ", "В"); ("ᲁ", "Д"); ("ᲂ", "О");
   ("ᲃ", "С"); ("ᲄ", "Т"); ("ᲅ", "Т"); ("ᲆ", "Ъ"); ("ᲇ", "Ѣ");
   ("ᲈ", "Ꙋ"); ("ᵹ", "Ᵹ"); ("ᵽ", "Ᵽ"); ("ᶎ", "Ᶎ"); ("ḁ", "Ḁ");
   ("ḃ", "Ḃ"); ("ḅ", "Ḅ"); ("ḇ", "Ḇ"); ("ḉ", "Ḉ"); ("ḋ", "Ḋ");
   ("ḍ", "Ḍ"); ("ḏ", "Ḏ"); ("ḑ", "Ḑ"); ("ḓ", "Ḓ"); ("ḕ", "Ḕ");
   ("ḗ", "Ḗ"); ("ḙ", "Ḙ"); ("ḛ", "Ḛ"); ("ḝ", "Ḝ"); ("ḟ", "Ḟ");
   ("ḡ", "Ḡ"); ("ḣ", "Ḣ"); ("ḥ", "Ḥ"); ("ḧ", "Ḧ"); ("ḩ", "Ḩ");
   ("ḫ", "Ḫ"); ("ḭ", "Ḭ"); ("ḯ", "Ḯ"); ("ḱ", "Ḱ"); ("ḳ", "Ḳ");
   ("ḵ", "Ḵ"); ("ḷ", "Ḷ"); ("ḹ", "Ḹ"); ("ḻ", "Ḻ"); ("ḽ", "Ḽ");
   ("ḿ", "Ḿ"); ("ṁ", "Ṁ"); ("ṃ", "Ṃ"); ("ṅ", "Ṅ"); ("ṇ", "Ṇ");
   ("ṉ", "Ṉ"); ("ṋ", "Ṋ"); ("ṍ", "Ṍ"); ("ṏ", "Ṏ"); ("ṑ", "Ṑ");
   ("ṓ", "Ṓ"); ("ṕ", "Ṕ"); ("ṗ", "Ṗ"); ("ṙ", "Ṙ"); ("ṛ", "Ṛ");
   ("ṝ", "Ṝ"); ("ṟ", "Ṟ"); ("ṡ", "Ṡ"); ("ṣ", "Ṣ"); ("ṥ", "Ṥ");
   ("ṧ", "Ṧ"); ("ṩ", "Ṩ"); ("ṫ", "Ṫ"); ("ṭ", "Ṭ"); ("ṯ", "Ṯ");
   ("ṱ", "Ṱ"); ("ṳ", "Ṳ"); ("ṵ", "Ṵ"); ("ṷ", "Ṷ"); ("ṹ", "Ṹ")].

Definition upper_table_5 : list (string * string) :=
  [("ṻ", "Ṻ"); ("ṽ", "Ṽ"); ("ṿ", "Ṿ"); ("ẁ", "Ẁ"); ("ẃ", "Ẃ");
   ("ẅ", "Ẅ"); ("ẇ", "Ẇ"); ("ẉ", "Ẉ"); ("ẋ", "Ẋ"); ("ẍ", "Ẍ");
   ("ẏ", "Ẏ"); ("ẑ", "Ẑ"); ("ẓ", "Ẓ"); ("ẕ", "Ẕ"); ("ẖ", "H̱");
   ("ẗ", "T̈"); ("ẘ", "W̊"); ("ẙ", "Y̊"); ("ẚ", "Aʾ"); ("ẛ", "Ṡ");
   ("ạ", "Ạ"); ("ả", "Ả"); ("ấ", "Ấ"); ("ầ", "Ầ"); ("ẩ", "Ẩ");
   ("ẫ", "Ẫ"); ("ậ", "Ậ"); ("ắ", "Ắ"); ("ằ", "Ằ"); ("ẳ", "Ẳ");
   ("ẵ", "Ẵ"); ("ặ", "Ặ"); ("ẹ", "Ẹ"); ("ẻ", "Ẻ"); ("ẽ", "Ẽ");
   ("ế", "Ế"); ("ề", "Ề"); ("ể", "Ể"); ("ễ", "Ễ"); ("ệ", "Ệ");
   ("ỉ", "Ỉ"); ("ị", "Ị"); ("ọ", "Ọ"); ("ỏ", "Ỏ"); ("ố", "Ố");
   ("ồ", "Ồ"); ("ổ", "Ổ"); ("ỗ", "Ỗ"); ("ộ", "Ộ"); ("ớ", "Ớ");
   ("ờ", "Ờ"); ("ở", "Ở"); ("ỡ", "Ỡ"); ("ợ", "Ợ"); ("ụ", "Ụ");
   ("ủ", "Ủ"); ("ứ", "Ứ"); ("ừ", "Ừ"); ("ử", "Ử"); ("ữ", "Ữ");
   ("ự", "Ự"); ("ỳ", "Ỳ"); ("ỵ", "Ỵ"); ("ỷ", "Ỷ"); ("ỹ", "Ỹ");
   ("ỻ", "Ỻ"); ("ỽ", "Ỽ"); ("ỿ", "Ỿ"); ("ἀ", "Ἀ"); ("ἁ", "Ἁ");
   ("ἂ", "Ἂ"); ("ἃ", "Ἃ"); ("ἄ", "Ἄ"); ("ἅ", "Ἅ"); ("ἆ", "Ἆ");
   ("ἇ", "Ἇ"); ("ἐ", "Ἐ"); ("ἑ", "Ἑ"); ("ἒ", "Ἒ"); ("ἓ", "Ἓ");
   ("ἔ", "Ἔ"); ("ἕ", "Ἕ"); ("ἠ", "Ἠ"); ("ἡ", "Ἡ"); ("ἢ", "Ἢ");
   ("ἣ", "Ἣ"); ("ἤ", "Ἤ"); ("ἥ", "Ἥ"); ("ἦ", "Ἦ"); ("ἧ", "Ἧ");
   ("ἰ", "Ἰ"); ("ἱ", "Ἱ"); ("ἲ", "Ἲ"); ("ἳ", "Ἳ"); ("ἴ", "Ἴ");
   ("ἵ", "Ἵ"); ("ἶ", "Ἶ"); ("ἷ", "Ἷ"); ("ὀ", "Ὀ"); ("ὁ", "Ὁ");
   ("ὂ", "Ὂ"); ("ὃ", "Ὃ"); ("ὄ", "Ὄ"); ("ὅ", "Ὅ"); ("ὐ", "Υ̓");
   ("ὑ", "Ὑ"); ("ὒ", "Υ̓̀"); ("ὓ", "Ὓ"); ("ὔ", "Υ̓́"); ("ὕ", "Ὕ");
   ("ὖ", "Υ̓͂"); ("ὗ", "Ὗ"); ("ὠ", "Ὠ"); ("ὡ", "Ὡ"); ("ὢ", "Ὢ");
   ("ὣ", "Ὣ"); ("ὤ", "Ὤ"); ("ὥ", "Ὥ"); ("ὦ", "Ὦ"); ("ὧ", "Ὧ");
   ("ὰ", "Ὰ"); ("ά", "Ά"); ("ὲ", "Ὲ"); ("έ", "Έ"); ("ὴ", "Ὴ");
   ("ή", "Ή"); ("ὶ", "Ὶ"); ("ί", "Ί"); ("ὸ", "Ὸ"); ("ό", "Ό");
   ("ὺ", "Ὺ"); ("ύ", "Ύ"); ("ὼ", "Ὼ"); ("ώ", "Ώ"); ("ᾀ", "ἈΙ");
   ("ᾁ", "ἉΙ"); ("ᾂ", "ἊΙ"); ("ᾃ", "ἋΙ"); ("ᾄ", "ἌΙ"); ("ᾅ", "ἍΙ");
   ("ᾆ", "ἎΙ"); ("ᾇ", "ἏΙ"); ("ᾈ", "ἈΙ"); ("ᾉ", "ἉΙ"); ("ᾊ", "ἊΙ");
   ("ᾋ", "ἋΙ"); ("ᾌ", "ἌΙ"); ("ᾍ", "ἍΙ"); ("ᾎ", "ἎΙ"); ("ᾏ", "ἏΙ")].

Definition upper_table_6 : list (string * string) :=
  [("ᾐ", "ἨΙ"); ("ᾑ", "ἩΙ"); ("ᾒ", "ἪΙ"); ("ᾓ", "ἫΙ"); ("ᾔ", "ἬΙ");
   ("ᾕ", "ἭΙ"); ("ᾖ", "ἮΙ"); ("ᾗ", "ἯΙ"); ("ᾘ", "ἨΙ"); ("ᾙ", "ἩΙ");
   ("ᾚ", "ἪΙ"); ("ᾛ", "ἫΙ"); ("ᾜ", "ἬΙ"); ("ᾝ", "ἭΙ"); ("ᾞ", "ἮΙ");
   ("ᾟ", "ἯΙ"); ("ᾠ", "ὨΙ"); ("ᾡ", "ὩΙ"); ("ᾢ", "ὪΙ"); ("ᾣ", "ὫΙ");
   ("ᾤ", "ὬΙ"); ("ᾥ", "ὭΙ"); ("ᾦ", "ὮΙ"); ("ᾧ", "ὯΙ"); ("ᾨ", "ὨΙ");
   ("ᾩ", "ὩΙ"); ("ᾪ", "ὪΙ"); ("ᾫ", "ὫΙ"); ("ᾬ", "ὬΙ"); ("ᾭ", "ὭΙ");
   ("ᾮ", "ὮΙ"); ("ᾯ", "ὯΙ"); ("ᾰ", "Ᾰ"); ("ᾱ", "Ᾱ"); ("ᾲ", "ᾺΙ");
   ("ᾳ", "ΑΙ"); ("ᾴ", "ΆΙ"); ("ᾶ", "Α͂"); ("ᾷ", "Α͂Ι"); ("ᾼ", "ΑΙ");
   ("ι", "Ι"); ("ῂ", "ῊΙ"); ("ῃ", "ΗΙ"); ("ῄ", "ΉΙ"); ("ῆ", "Η͂");
   ("ῇ", "Η͂Ι"); ("ῌ", "ΗΙ"); ("ῐ", "Ῐ"); ("ῑ", "Ῑ"); ("ῒ", "Ϊ̀");
   ("ΐ", "Ϊ́"); ("ῖ", "Ι͂"); ("ῗ", "Ϊ͂"); ("ῠ", "Ῠ"); ("ῡ", "Ῡ");
   ("ῢ", "Ϋ̀"); ("ΰ", "Ϋ́"); ("ῤ", "Ρ̓"); ("ῥ", "Ῥ"); ("ῦ", "Υ͂");
   ("ῧ", "Ϋ͂"); ("ῲ", "ῺΙ"); ("ῳ", "ΩΙ"); ("ῴ", "ΏΙ"); ("ῶ", "Ω͂");
   ("ῷ", "Ω͂Ι"); ("ῼ", "ΩΙ"); ("ⅎ", "Ⅎ"); ("ⅰ", "Ⅰ"); ("ⅱ", "Ⅱ");
   ("ⅲ", "Ⅲ"); ("ⅳ", "Ⅳ"); ("ⅴ", "Ⅴ"); ("ⅵ", "Ⅵ"); ("ⅶ", "Ⅶ");
   ("ⅷ", "Ⅷ"); ("ⅸ", "Ⅸ"); ("ⅹ", "Ⅹ"); ("ⅺ", "Ⅺ"); ("ⅻ", "Ⅻ");
   ("ⅼ", "Ⅼ"); ("ⅽ", "Ⅽ"); ("ⅾ", "Ⅾ"); ("ⅿ", "Ⅿ"); ("ↄ", "Ↄ");
   ("ⓐ", "Ⓐ"); ("ⓑ", "Ⓑ"); ("ⓒ", "Ⓒ"); ("ⓓ", "Ⓓ"); ("ⓔ", "Ⓔ");
   ("ⓕ", "Ⓕ"); ("ⓖ", "Ⓖ"); ("ⓗ", "Ⓗ"); ("ⓘ", "Ⓘ"); ("ⓙ", "Ⓙ");
   ("ⓚ", "Ⓚ"); ("ⓛ", "Ⓛ"); ("ⓜ", "Ⓜ"); ("ⓝ", "Ⓝ"); ("ⓞ", "Ⓞ");
   ("ⓟ", "Ⓟ"); ("ⓠ", "Ⓠ"); ("ⓡ", "Ⓡ"); ("ⓢ", "Ⓢ"); ("ⓣ", "Ⓣ");
   ("ⓤ", "Ⓤ"); ("ⓥ", "Ⓥ"); ("ⓦ", "Ⓦ"); ("ⓧ", "Ⓧ"); ("ⓨ", "Ⓨ");
   ("ⓩ", "Ⓩ"); ("ⰰ", "Ⰰ"); ("ⰱ", "Ⰱ"); ("ⰲ", "Ⰲ"); ("ⰳ", "Ⰳ");
   ("ⰴ", "Ⰴ"); ("ⰵ", "Ⰵ"); ("ⰶ", "Ⰶ"); ("ⰷ", "Ⰷ"); ("ⰸ", "Ⰸ");
   ("ⰹ", "Ⰹ"); ("ⰺ", "Ⰺ"); ("ⰻ", "Ⰻ"); ("ⰼ", "Ⰼ"); ("ⰽ", "Ⰽ");
   ("ⰾ", "Ⰾ"); ("ⰿ", "Ⰿ"); ("ⱀ", "Ⱀ"); ("ⱁ", "Ⱁ"); ("ⱂ", "Ⱂ");
   ("ⱃ", "Ⱃ"); ("ⱄ", "Ⱄ"); ("ⱅ", "Ⱅ"); ("ⱆ", "Ⱆ"); ("ⱇ", "Ⱇ");
   ("ⱈ", "Ⱈ"); ("ⱉ", "Ⱉ"); ("ⱊ", "Ⱊ"); ("ⱋ", "Ⱋ"); ("ⱌ", "Ⱌ");
   ("ⱍ", "Ⱍ"); ("ⱎ", "Ⱎ"); ("ⱏ", "Ⱏ"); ("ⱐ", "Ⱐ"); ("ⱑ", "Ⱑ");
   ("ⱒ", "Ⱒ"); ("ⱓ", "Ⱓ"); ("ⱔ", "Ⱔ"); ("ⱕ", "Ⱕ"); ("ⱖ", "Ⱖ")].

Definition upper_table_7 : list (string * string) :=
  [("ⱗ", "Ⱗ"); ("ⱘ", "Ⱘ"); ("ⱙ", "Ⱙ"); ("ⱚ", "Ⱚ"); ("ⱛ", "Ⱛ");
   ("ⱜ", "Ⱜ"); ("ⱝ", "Ⱝ"); ("ⱞ", "Ⱞ"); ("ⱟ", "Ⱟ"); ("ⱡ", "Ⱡ");
   ("ⱥ", "Ⱥ"); ("ⱦ", "Ⱦ"); ("ⱨ", "Ⱨ"); ("ⱪ", "Ⱪ"); ("ⱬ", "Ⱬ");
   ("ⱳ", "Ⱳ"); ("ⱶ", "Ⱶ"); ("ⲁ", "Ⲁ"); ("ⲃ", "Ⲃ"); ("ⲅ", "Ⲅ");
   ("ⲇ", "Ⲇ"); ("ⲉ", "Ⲉ"); ("ⲋ", "Ⲋ"); ("ⲍ", "Ⲍ"); ("ⲏ", "Ⲏ");
   ("ⲑ", "Ⲑ"); ("ⲓ", "Ⲓ"); ("ⲕ", "Ⲕ"); ("ⲗ", "Ⲗ"); ("ⲙ", "Ⲙ");
   ("ⲛ", "Ⲛ"); ("ⲝ", "Ⲝ"); ("ⲟ", "Ⲟ"); ("ⲡ", "Ⲡ"); ("ⲣ", "Ⲣ");
   ("ⲥ", "Ⲥ"); ("ⲧ", "Ⲧ"); ("ⲩ", "Ⲩ"); ("ⲫ", "Ⲫ"); ("ⲭ", "Ⲭ");
   ("ⲯ", "Ⲯ"); ("ⲱ", "Ⲱ"); ("ⲳ", "Ⲳ"); ("ⲵ", "Ⲵ"); ("ⲷ", "Ⲷ");
   ("ⲹ", "Ⲹ"); ("ⲻ", "Ⲻ"); ("ⲽ", "Ⲽ"); ("ⲿ", "Ⲿ"); ("ⳁ", "Ⳁ");
   ("ⳃ", "Ⳃ"); ("ⳅ", "Ⳅ"); ("ⳇ", "Ⳇ"); ("ⳉ", "Ⳉ"); ("ⳋ", "Ⳋ");
   ("ⳍ", "Ⳍ"); ("ⳏ", "Ⳏ"); ("ⳑ", "Ⳑ"); ("ⳓ", "Ⳓ"); ("ⳕ", "Ⳕ");
   ("ⳗ", "Ⳗ"); ("ⳙ", "Ⳙ"); ("ⳛ", "Ⳛ"); ("ⳝ", "Ⳝ"); ("ⳟ", "Ⳟ");
   ("ⳡ", "Ⳡ"); ("ⳣ", "Ⳣ"); ("ⳬ", "Ⳬ"); ("ⳮ", "Ⳮ"); ("ⳳ", "Ⳳ");
   ("ⴀ", "Ⴀ"); ("ⴁ", "Ⴁ"); ("ⴂ", "Ⴂ"); ("ⴃ", "Ⴃ"); ("ⴄ", "Ⴄ");
   ("ⴅ", "Ⴅ"); ("ⴆ", "Ⴆ"); ("ⴇ", "Ⴇ"); ("ⴈ", "Ⴈ"); ("ⴉ", "Ⴉ");
   ("ⴊ", "Ⴊ"); ("ⴋ", "Ⴋ"); ("ⴌ", "Ⴌ"); ("ⴍ", "Ⴍ"); ("ⴎ", "Ⴎ");
   ("ⴏ", "Ⴏ"); ("ⴐ", "Ⴐ"); ("ⴑ", "Ⴑ"); ("ⴒ", "Ⴒ"); ("ⴓ", "Ⴓ");
   ("ⴔ", "Ⴔ"); ("ⴕ", "Ⴕ"); ("ⴖ", "Ⴖ"); ("ⴗ", "Ⴗ"); ("ⴘ", "Ⴘ");
   ("ⴙ", "Ⴙ"); ("ⴚ", "Ⴚ"); ("ⴛ", "Ⴛ"); ("ⴜ", "Ⴜ"); ("ⴝ", "Ⴝ");
   ("ⴞ", "Ⴞ"); ("ⴟ", "Ⴟ"); ("ⴠ", "Ⴠ"); ("ⴡ", "Ⴡ"); ("ⴢ", "Ⴢ");
   ("ⴣ", "Ⴣ"); ("ⴤ", "Ⴤ"); ("ⴥ", "Ⴥ"); ("ⴧ", "Ⴧ"); ("ⴭ", "Ⴭ");
   ("ꙁ", "Ꙁ"); ("ꙃ", "Ꙃ"); ("ꙅ", "Ꙅ"); ("ꙇ", "Ꙇ"); ("ꙉ", "Ꙉ");
   ("ꙋ", "Ꙋ"); ("ꙍ", "Ꙍ"); ("ꙏ", "Ꙏ"); ("ꙑ", "Ꙑ"); ("ꙓ", "Ꙓ");
   ("ꙕ", "Ꙕ"); ("ꙗ", "Ꙗ"); ("ꙙ", "Ꙙ"); ("ꙛ", "Ꙛ"); ("ꙝ", "Ꙝ");
   ("ꙟ", "Ꙟ"); ("ꙡ", "Ꙡ"); ("ꙣ", "Ꙣ"); ("ꙥ", "Ꙥ"); ("ꙧ", "Ꙧ");
   ("ꙩ", "Ꙩ"); ("ꙫ", "Ꙫ"); ("ꙭ", "Ꙭ"); ("ꚁ", "Ꚁ"); ("ꚃ", "Ꚃ");
   ("ꚅ", "Ꚅ"); ("ꚇ", "Ꚇ"); ("ꚉ", "Ꚉ"); ("ꚋ", "Ꚋ"); ("ꚍ", "Ꚍ");
   ("ꚏ", "Ꚏ"); ("ꚑ", "Ꚑ"); ("ꚓ", "Ꚓ"); ("ꚕ", "Ꚕ"); ("ꚗ", "Ꚗ");
   ("ꚙ", "Ꚙ"); ("ꚛ", "Ꚛ"); ("ꜣ", "Ꜣ"); ("ꜥ", "Ꜥ"); ("ꜧ", "Ꜧ")].

Definition upper_table_8 : list (string * string) :=
  [("ꜩ", "Ꜩ"); ("ꜫ", "Ꜫ"); ("ꜭ", "Ꜭ"); ("ꜯ", "Ꜯ"); ("ꜳ", "Ꜳ");
   ("ꜵ", "Ꜵ"); ("ꜷ", "Ꜷ"); ("ꜹ", "Ꜹ"); ("ꜻ", "Ꜻ"); ("ꜽ", "Ꜽ");
   ("ꜿ", "Ꜿ"); ("ꝁ", "Ꝁ"); ("ꝃ", "Ꝃ"); ("ꝅ", "Ꝅ"); ("ꝇ", "Ꝇ");
   ("ꝉ", "Ꝉ"); ("ꝋ", "Ꝋ"); ("ꝍ", "Ꝍ"); ("ꝏ", "Ꝏ"); ("ꝑ", "Ꝑ");
   ("ꝓ", "Ꝓ"); ("ꝕ", "Ꝕ"); ("ꝗ", "Ꝗ"); ("ꝙ", "Ꝙ"); ("ꝛ", "Ꝛ");
   ("ꝝ", "Ꝝ"); ("ꝟ", "Ꝟ"); ("ꝡ", "Ꝡ"); ("ꝣ", "Ꝣ"); ("ꝥ", "Ꝥ");
   ("ꝧ", "Ꝧ"); ("ꝩ", "Ꝩ"); ("ꝫ", "Ꝫ"); ("ꝭ", "Ꝭ"); ("ꝯ", "Ꝯ");
   ("ꝺ", "Ꝺ"); ("ꝼ", "Ꝼ"); ("ꝿ", "Ꝿ"); ("ꞁ", "Ꞁ"); ("ꞃ", "Ꞃ");
   ("ꞅ", "Ꞅ"); ("ꞇ", "Ꞇ"); ("ꞌ", "Ꞌ"); ("ꞑ", "Ꞑ"); ("ꞓ", "Ꞓ");
   ("ꞔ", "Ꞔ"); ("ꞗ", "Ꞗ"); ("ꞙ", "Ꞙ"); ("ꞛ", "Ꞛ"); ("ꞝ", "Ꞝ");
   ("ꞟ", "Ꞟ"); ("ꞡ", "Ꞡ"); ("ꞣ", "Ꞣ"); ("ꞥ", "Ꞥ"); ("ꞧ", "Ꞧ");
   ("ꞩ", "Ꞩ"); ("ꞵ", "Ꞵ"); ("ꞷ", "Ꞷ"); ("ꞹ", "Ꞹ"); ("ꞻ", "Ꞻ");
   ("ꞽ", "Ꞽ"); ("ꞿ", "Ꞿ"); ("ꟁ", "Ꟁ"); ("ꟃ", "Ꟃ"); ("ꟈ", "Ꟈ");
   ("ꟊ", "Ꟊ"); ("ꟑ", "Ꟑ"); ("ꟗ", "Ꟗ"); ("ꟙ", "Ꟙ"); ("ꟶ", "Ꟶ");
   ("ꭓ", "Ꭓ"); ("ꭰ", "Ꭰ"); ("ꭱ", "Ꭱ"); ("ꭲ", "Ꭲ"); ("ꭳ", "Ꭳ");
   ("ꭴ", "Ꭴ"); ("ꭵ", "Ꭵ"); ("ꭶ", "Ꭶ"); ("ꭷ", "Ꭷ"); ("ꭸ", "Ꭸ");
   ("ꭹ", "Ꭹ"); ("ꭺ", "Ꭺ"); ("ꭻ", "Ꭻ"); ("ꭼ", "Ꭼ"); ("ꭽ", "Ꭽ");
   ("ꭾ", "Ꭾ"); ("ꭿ", "Ꭿ"); ("ꮀ", "Ꮀ"); ("ꮁ", "Ꮁ"); ("ꮂ", "Ꮂ");
   ("ꮃ", "Ꮃ"); ("ꮄ", "Ꮄ"); ("ꮅ", "Ꮅ"); ("ꮆ", "Ꮆ"); ("ꮇ", "Ꮇ");
   ("ꮈ", "Ꮈ"); ("ꮉ", "Ꮉ"); ("ꮊ", "Ꮊ"); ("ꮋ", "Ꮋ"); ("ꮌ", "Ꮌ");
   ("ꮍ", "Ꮍ"); ("ꮎ", "Ꮎ"); ("ꮏ", "Ꮏ"); ("ꮐ", "Ꮐ"); ("ꮑ", "Ꮑ");
   ("ꮒ", "Ꮒ"); ("ꮓ", "Ꮓ"); ("ꮔ", "Ꮔ"); ("ꮕ", "Ꮕ"); ("ꮖ", "Ꮖ");
   ("ꮗ", "Ꮗ"); ("ꮘ", "Ꮘ"); ("ꮙ", "Ꮙ"); ("ꮚ", "Ꮚ"); ("ꮛ", "Ꮛ");
   ("ꮜ", "Ꮜ"); ("ꮝ", "Ꮝ"); ("ꮞ", "Ꮞ"); ("ꮟ", "Ꮟ"); ("ꮠ", "Ꮠ");
   ("ꮡ", "Ꮡ"); ("ꮢ", "Ꮢ"); ("ꮣ", "Ꮣ"); ("ꮤ", "Ꮤ"); ("ꮥ", "Ꮥ");
   ("ꮦ", "Ꮦ"); ("ꮧ", "Ꮧ"); ("ꮨ", "Ꮨ"); ("ꮩ", "Ꮩ"); ("ꮪ", "Ꮪ");
   ("ꮫ", "Ꮫ"); ("ꮬ", "Ꮬ"); ("ꮭ", "Ꮭ"); ("ꮮ", "Ꮮ"); ("ꮯ", "Ꮯ");
   ("ꮰ", "Ꮰ"); ("ꮱ", "Ꮱ"); ("ꮲ", "Ꮲ"); ("ꮳ", "Ꮳ"); ("ꮴ", "Ꮴ");
   ("ꮵ", "Ꮵ"); ("ꮶ", "Ꮶ"); ("ꮷ", "Ꮷ"); ("ꮸ", "Ꮸ"); ("ꮹ", "Ꮹ");
   ("ꮺ", "Ꮺ"); ("ꮻ", "Ꮻ"); ("ꮼ", "Ꮼ"); ("ꮽ", "Ꮽ"); ("ꮾ", "Ꮾ")].

Definition upper_table_9 : list (string * string) :=
  [("ꮿ", "Ꮿ"); ("ﬀ", "FF"); ("ﬁ", "FI"); ("ﬂ", "FL"); ("ﬃ", "FFI");
   ("ﬄ", "FFL"); ("ﬅ", "ST"); ("ﬆ", "ST"); ("ﬓ", "ՄՆ"); ("ﬔ", "ՄԵ");
   ("ﬕ", "ՄԻ"); ("ﬖ", "ՎՆ"); ("ﬗ", "ՄԽ"); ("ａ", "Ａ"); ("ｂ", "Ｂ");
   ("ｃ", "Ｃ"); ("ｄ", "Ｄ"); ("ｅ", "Ｅ"); ("ｆ", "Ｆ"); ("ｇ", "Ｇ");
   ("ｈ", "Ｈ"); ("ｉ", "Ｉ"); ("ｊ", "Ｊ"); ("ｋ", "Ｋ"); ("ｌ", "Ｌ");
   ("ｍ", "Ｍ"); ("ｎ", "Ｎ"); ("ｏ", "Ｏ"); ("ｐ", "Ｐ"); ("ｑ", "Ｑ");
   ("ｒ", "Ｒ"); ("ｓ", "Ｓ"); ("ｔ", "Ｔ"); ("ｕ", "Ｕ"); ("ｖ", "Ｖ");
   ("ｗ", "Ｗ"); ("ｘ", "Ｘ"); ("ｙ", "Ｙ"); ("ｚ", "Ｚ"); ("𐐨", "𐐀");
   ("𐐩", "𐐁"); ("𐐪", "𐐂"); ("𐐫", "𐐃"); ("𐐬", "𐐄"); ("𐐭", "𐐅");
   ("𐐮", "𐐆"); ("𐐯", "𐐇"); ("𐐰", "𐐈"); ("𐐱", "𐐉"); ("𐐲", "𐐊");
   ("𐐳", "𐐋"); ("𐐴", "𐐌"); ("𐐵", "𐐍"); ("𐐶", "𐐎"); ("𐐷", "𐐏");
   ("𐐸", "𐐐"); ("𐐹", "𐐑"); ("𐐺", "𐐒"); ("𐐻", "𐐓"); ("𐐼", "𐐔");
   ("𐐽", "𐐕"); ("𐐾", "𐐖"); ("𐐿", "𐐗"); ("𐑀", "𐐘"); ("𐑁", "𐐙");
   ("𐑂", "𐐚"); ("𐑃", "𐐛"); ("𐑄", "𐐜"); ("𐑅", "𐐝"); ("𐑆", "𐐞");
   ("𐑇", "𐐟"); ("𐑈", "𐐠"); ("𐑉", "𐐡"); ("𐑊", "𐐢"); ("𐑋", "𐐣");
   ("𐑌", "𐐤"); ("𐑍", "𐐥"); ("𐑎", "𐐦"); ("𐑏", "𐐧"); ("𐓘", "𐒰");
   ("𐓙", "𐒱"); ("𐓚", "𐒲"); ("𐓛", "𐒳"); ("𐓜", "𐒴"); ("𐓝", "𐒵");
   ("𐓞", "𐒶"); ("𐓟", "𐒷"); ("𐓠", "𐒸"); ("𐓡", "𐒹"); ("𐓢", "𐒺");
   ("𐓣", "𐒻"); ("𐓤", "𐒼"); ("𐓥", "𐒽"); ("𐓦", "𐒾"); ("𐓧", "𐒿");
   ("𐓨", "𐓀"); ("𐓩", "𐓁"); ("𐓪", "𐓂"); ("𐓫", "𐓃"); ("𐓬", "𐓄");
   ("𐓭", "𐓅"); ("𐓮", "𐓆"); ("𐓯", "𐓇"); ("𐓰", "𐓈"); ("𐓱", "𐓉");
   ("𐓲", "𐓊"); ("𐓳", "𐓋"); ("𐓴", "𐓌"); ("𐓵", "𐓍"); ("𐓶", "𐓎");
   ("𐓷", "𐓏"); ("𐓸", "𐓐"); ("𐓹", "𐓑"); ("𐓺", "𐓒"); ("𐓻", "𐓓");
   ("𐖗", "𐕰"); ("𐖘", "𐕱"); ("𐖙", "𐕲"); ("𐖚", "𐕳"); ("𐖛", "𐕴");
   ("𐖜", "𐕵"); ("𐖝", "𐕶"); ("𐖞", "𐕷"); ("𐖟", "𐕸"); ("𐖠", "𐕹");
   ("𐖡", "𐕺"); ("𐖣", "𐕼"); ("𐖤", "𐕽"); ("𐖥", "𐕾"); ("𐖦", "𐕿");
   ("𐖧", "𐖀"); ("𐖨", "𐖁"); ("𐖩", "𐖂"); ("𐖪", "𐖃"); ("𐖫", "𐖄");
   ("𐖬", "𐖅"); ("𐖭", "𐖆"); ("𐖮", "𐖇"); ("𐖯", "𐖈"); ("𐖰", "𐖉");
   ("𐖱", "𐖊"); ("𐖳", "𐖌"); ("𐖴", "𐖍"); ("𐖵", "𐖎"); ("𐖶", "𐖏");
   ("𐖷", "𐖐"); ("𐖸", "𐖑"); ("𐖹", "𐖒"); ("𐖻", "𐖔"); ("𐖼", "𐖕")].

Definition upper_table_10 : list (string * string) :=
  [("𐳀", "𐲀"); ("𐳁", "𐲁"); ("𐳂", "𐲂"); ("𐳃", "𐲃"); ("𐳄", "𐲄");
   ("𐳅", "𐲅"); ("𐳆", "𐲆"); ("𐳇", "𐲇"); ("𐳈", "𐲈"); ("𐳉", "𐲉");
   ("𐳊", "𐲊"); ("𐳋", "𐲋"); ("𐳌", "𐲌"); ("𐳍", "𐲍"); ("𐳎", "𐲎");
   ("𐳏", "𐲏"); ("𐳐", "𐲐"); ("𐳑", "𐲑"); ("𐳒", "𐲒"); ("𐳓", "𐲓");
   ("𐳔", "𐲔"); ("𐳕", "𐲕"); ("𐳖", "𐲖"); ("𐳗", "𐲗"); ("𐳘", "𐲘");
   ("𐳙", "𐲙"); ("𐳚", "𐲚"); ("𐳛", "𐲛"); ("𐳜", "𐲜"); ("𐳝", "𐲝");
   ("𐳞", "𐲞"); ("𐳟", "𐲟"); ("𐳠", "𐲠"); ("𐳡", "𐲡"); ("𐳢", "𐲢");
   ("𐳣", "𐲣"); ("𐳤", "𐲤"); ("𐳥", "𐲥"); ("𐳦", "𐲦"); ("𐳧", "𐲧");
   ("𐳨", "𐲨"); ("𐳩", "𐲩"); ("𐳪", "𐲪"); ("𐳫", "𐲫"); ("𐳬", "𐲬");
   ("𐳭", "𐲭"); ("𐳮", "𐲮"); ("𐳯", "𐲯"); ("𐳰", "𐲰"); ("𐳱", "𐲱");
   ("𐳲", "𐲲"); ("𑣀", "𑢠"); ("𑣁", "𑢡"); ("𑣂", "𑢢"); ("𑣃", "𑢣");
   ("𑣄", "𑢤"); ("𑣅", "𑢥"); ("𑣆", "𑢦"); ("𑣇", "𑢧"); ("𑣈", "𑢨");
   ("𑣉", "𑢩"); ("𑣊", "𑢪"); ("𑣋", "𑢫"); ("𑣌", "𑢬"); ("𑣍", "𑢭");
   ("𑣎", "𑢮"); ("𑣏", "𑢯"); ("𑣐", "𑢰"); ("𑣑", "𑢱"); ("𑣒", "𑢲");
   ("𑣓", "𑢳"); ("𑣔", "𑢴"); ("𑣕", "𑢵"); ("𑣖", "𑢶"); ("𑣗", "𑢷");
   ("𑣘", "𑢸"); ("𑣙", "𑢹"); ("𑣚", "𑢺"); ("𑣛", "𑢻"); ("𑣜", "𑢼");
   ("𑣝", "𑢽"); ("𑣞", "𑢾"); ("𑣟", "𑢿"); ("𖹠", "𖹀"); ("𖹡", "𖹁");
   ("𖹢", "𖹂"); ("𖹣", "𖹃"); ("𖹤", "𖹄"); ("𖹥", "𖹅"); ("𖹦", "𖹆");
   ("𖹧", "𖹇"); ("𖹨", "𖹈"); ("𖹩", "𖹉"); ("𖹪", "𖹊"); ("𖹫", "𖹋");
   ("𖹬", "𖹌"); ("𖹭", "𖹍"); ("𖹮", "𖹎"); ("𖹯", "𖹏"); ("𖹰", "𖹐");
   ("𖹱", "𖹑"); ("𖹲", "𖹒"); ("𖹳", "𖹓"); ("𖹴", "𖹔"); ("𖹵", "𖹕");
   ("𖹶", "𖹖"); ("𖹷", "𖹗"); ("𖹸", "𖹘"); ("𖹹", "𖹙"); ("𖹺", "𖹚");
   ("𖹻", "𖹛"); ("𖹼", "𖹜"); ("𖹽", "𖹝"); ("𖹾", "𖹞"); ("𖹿", "𖹟");
   ("𞤢", "𞤀"); ("𞤣", "𞤁"); ("𞤤", "𞤂"); ("𞤥", "𞤃"); ("𞤦", "𞤄");
   ("𞤧", "𞤅"); ("𞤨", "𞤆"); ("𞤩", "𞤇"); ("𞤪", "𞤈"); ("𞤫", "𞤉");
   ("𞤬", "𞤊"); ("𞤭", "𞤋"); ("𞤮", "𞤌"); ("𞤯", "𞤍"); ("𞤰", "𞤎");
   ("𞤱", "𞤏"); ("𞤲", "𞤐"); ("𞤳", "𞤑"); ("𞤴", "𞤒"); ("𞤵", "𞤓");
   ("𞤶", "𞤔"); ("𞤷", "𞤕"); ("𞤸", "𞤖"); ("𞤹", "𞤗"); ("𞤺", "𞤘");
   ("𞤻", "𞤙"); ("𞤼", "𞤚"); ("𞤽", "𞤛"); ("𞤾", "𞤜"); ("𞤿", "𞤝");
   ("𞥀", "𞤞"); ("𞥁", "𞤟"); ("𞥂", "𞤠"); ("𞥃", "𞤡")].

Definition upper_table : list (string * string) :=
  upper_table_1
  ++ upper_table_2
  ++ upper_table_3
  ++ upper_table_4
  ++ upper_table_5
  ++ upper_table_6
  ++ upper_table_7
  ++ upper_table_8
  ++ upper_table_9
  ++ upper_table_10.

Fixpoint assoc (key : string) (table : list (string * string)) : option string :=
  match table with
  | [] => None
  | (k, v) :: rest => if String.eqb k key then Some v else assoc key rest
  end.

(** [str.upper] on one character of several bytes. *)
Definition upper_char (t : string) : string :=
  match assoc t upper_table with
  | Some u => u
  | None => t
  end.

(** [s.upper()], character by character. [cur] holds the bytes read of a
    character still short of [need] continuation bytes. Bytes that do not
    form a character are passed on. *)
Fixpoint upper_go (cur : string) (need : nat) (s : string) : string :=
  match s with
  | "" => cur
  | String c s' =>
      if Nat.ltb 0 need && is_continuation c then
        if Nat.eqb need 1
        then upper_char (cur +:+ String c "") +:+ upper_go "" 0 s'
        else upper_go (cur +:+ String c "") (need - 1) s'
      else
        cur +:+ match continuation_bytes c with
                | O => String (char_upper c) (upper_go "" 0 s')
                | S n => upper_go (String c "") (S n) s'
                end
  end.

(** [s.upper()] *)
Definition upper (s : string) : string := upper_go "" 0 s.

(** [s.lstrip()] *)
Fixpoint lstrip (s : string) : string :=
  match s with
  | "" => ""
  | String a s1 =>
      if is_space a then lstrip s1
      else
        match s1 with
        | "" => s
        | String b s2 =>
            if is_space2 a b then lstrip s2
            else
              match s2 with
              | "" => s
              | String c s3 => if is_space3 a b c then lstrip s3 else s
              end
        end
  end.

(** [s.rstrip()] *)
Fixpoint rstrip (s : string) : string :=
  match s with
  | "" => ""
  | String c s' =>
      let t := String c (rstrip s') in
      if is_space_char t then "" else t
  end.

(** [s.strip()] *)
Definition strip (s : string) : string := rstrip (lstrip s).

(** [s.startswith(p)] *)
Fixpoint startswith (s p : string) {struct p} : bool :=
  match p with
  | "" => true
  | String a p' =>
      match s with
      | "" => false
      | String b s' => Ascii.eqb a b && startswith s' p'
      end
  end.

(** The scan of [str.replace] for a non-empty [old]: left to right, each
    occurrence found is replaced and the scan resumes after it. [skip]
    counts the characters of the current occurrence still to be dropped. *)
Fixpoint replace_go (old new : string) (skip : nat) (s : string) : string :=
  match s with
  | "" => ""
  | String c s' =>
      match skip with
      | S k => replace_go old new k s'
      | O =>
          if startswith s old
          then new +:+ replace_go old new (String.length old - 1) s'
          else String c (replace_go old new 0 s')
      end
  end.

Fixpoint intersperse (new s : string) : string :=
  match s with
  | "" => new
  | String c s' => new +:+ String c (intersperse new s')
  end.

(** [s.replace(old, new)] *)
Definition replace (s old new : string) : string :=
  match old with
  | "" => intersperse new s
  | _ => replace_go old new 0 s
  end.

(** [s.split(sep)] for a one-character separator. *)
Fixpoint split (sep : ascii) (s : string) : list string :=
  match s with
  | "" => [""]
  | String c s' =>
      if Ascii.eqb c sep then "" :: split sep s'
      else match split sep s' with
           | p :: ps => String c p :: ps
           | [] => [String c ""]
           end
  end.

(** [sep.join(parts)] *)
Fixpoint join (sep : string) (parts : list string) : string :=
  match parts with
  | [] => ""
  | [p] => p
  | p :: ps => p +:+ sep +:+ join sep ps
  end.

(** Truthiness of an [Optional[str]]: [None] and [""] are false. *)
Definition truthy (o : option string) : bool :=
  match o with
  | Some (String _ _) => true
  | _ => false
  end.

(** [a or b] on strings. *)
Definition or_else (o : option string) (d : string) : string :=
  match o with
  | Some (String c s) => String c s
  | _ => d
  end.

(** Does the character occur in the string? *)
Fixpoint has_char (c : ascii) (s : string) : bool :=
  match s with
  | "" => false
  | String c' s' => Ascii.eqb c' c || has_char c s'
  end.

Fixpoint all_chars (p : ascii → bool) (s : string) : bool :=
  match s with
  | "" => true
  | String c s' => p c && all_chars p s'
  end.

End Py.

(** ** Values crossing the HTTP and tool boundaries *)

(** A JSON-serialisable dict with string keys, as returned by both entry
    points. *)
Inductive pyvalue :=
  | PStr (s : string)
  | PBool (b : bool).

Definition pydict := list (string * pyvalue).

(** A call either returns or raises; [exc] is [str(e)]. *)
Inductive result (A : Type) :=
  | Return (a : A)
  | Raise (exc : string).
Arguments Return {A} a.
Arguments Raise {A} exc.

(** ** The table *)

Record ApprovalRequest := mkApprovalRequest {
  id : string;
  request_id : string;
  description : string;
  requester : string;
  phone_number : string;
  status : string;
  created_at : Z;
  responded_at : option Z;
  response : option string;
  expires_at : Z
}.

(** Rows of [approvalrequest], indexed by the primary key. *)
Abbreviation Store := (gmap string ApprovalRequest).

(** [session.add(row); session.commit()] for a new row. The primary key and
    the unique index on [request_id] are enforced by the database: a
    duplicate raises. The string under [Raise] only names the exception and
    the constraint; the wording of the driver's message is not modelled, and
    nothing below depends on it. *)
Definition request_id_taken (st : Store) (rid : string) : bool :=
  bool_decide (∃ k r, st !! k = Some r ∧ request_id r = rid).

Definition session_insert (st : Store) (row : ApprovalRequest) : result Store :=
  match st !! id row with
  | Some _ => Raise "IntegrityError: UNIQUE constraint failed: approvalrequest.id"
  | None =>
      if request_id_taken st (request_id row)
      then Raise "IntegrityError: UNIQUE constraint failed: approvalrequest.request_id"
      else Return (<[id row := row]> st)
  end.

(** [session.add(row); session.commit()] for a row loaded in this session. *)
Definition session_update (st : Store) (row : ApprovalRequest) : Store :=
  <[id row := row]> st.

(** [row = session.get(ApprovalRequest, k); if row: session.delete(row)] *)
Definition session_delete (st : Store) (k : string) : Store :=
  match st !! k with
  | Some _ => delete k st
  | None => st
  end.

(** [select(ApprovalRequest).where(id == k).first()] *)
Definition select_by_id (st : Store) (k : string) : option ApprovalRequest :=
  st !! k.

(** [select(ApprovalRequest).where(id == k, phone_number == phone).first()] *)
Definition select_by_id_phone (st : Store) (k phone : string)
  : option ApprovalRequest :=
  match st !! k with
  | Some row => if decide (phone_number row = phone) then Some row else None
  | None => None
  end.

(** ** Twilio and the configuration *)

(** The arguments of [twilio_client.messages.create]. For a content
    template the variables are kept as the dict handed to [json.dumps]. *)
Inductive Message :=
  | ContentMessage (from_ to content_sid : string)
      (content_variables : list (string * string))
  | BodyMessage (body : string) (from_ : option string) (to : string).

(** The REST client: a send returns or raises. *)
Record Client := { messages_create : Message → result unit }.

(** Module-level configuration read from the environment at start-up. *)
Record Config := {
  TWILIO_WHATSAPP_FROM : string;
  TWILIO_CONTENT_SID : option string;
  APPROVAL_PHONE : option string;
  twilio_client : option Client
}.

(** ** Time *)

(** Microseconds in [n] seconds. *)
Definition seconds (n : Z) : Z := n * 1000000.

(** [timedelta(minutes=5)] *)
Definition validity_window : Z := seconds (5 * 60).

Definition max_wait_time : Z := 300.
Definition check_interval : Z := 2.

(** [d.total_seconds() < n] for a [timedelta] of [d] microseconds and an
    integer [n]: the quotient by 10^6 is below [n] exactly when [d] is
    below [n] * 10^6. *)
Definition total_seconds_lt (d n : Z) : bool := d <? seconds n.

(** ** [permissions__approve] *)

(** A value of the tool's [input] dict: a string, or anything else through
    its [str()] rendering. *)
Inductive InputValue :=
  | VStr (s : string)
  | VOther (shown : string).

Definition shown (v : InputValue) : string :=
  match v with VStr s => s | VOther s => s end.

(** [input.get(key, "")], rendered by the f-string. *)
Fixpoint input_get (input : list (string * InputValue)) (key : string) : string :=
  match input with
  | [] => ""
  | (k, v) :: rest => if String.eqb k key then shown v else input_get rest key
  end.

Definition format_param (kv : string * InputValue) : string :=
  let value :=
    match kv.2 with
    | VStr s => if Nat.ltb 50 (Py.len s) then Py.take 50 s +:+ "..." else s
    | VOther s => s
    end in
  "  • " +:+ kv.1 +:+ ": " +:+ value.

(** Lines 63-80: the description shown to the approver. *)
Definition format_request (tool_name : string)
    (input : list (string * InputValue)) (reason : string) : string :=
  let request :=
    if String.eqb tool_name "Bash" then
      "Execute command: `" +:+ input_get input "command" +:+ "`" +:+ Py.nl
        +:+ "*Reason:* " +:+ input_get input "description"
    else
      match input with
      | [] => "*Tool:* " +:+ tool_name
      | _ => ("*Tool:* " +:+ tool_name) +:+ Py.nl
               +:+ Py.join Py.nl (map format_param input)
      end in
  match reason with
  | "" => request
  | _ => "*Reason:* " +:+ reason +:+ Py.nl +:+ Py.nl +:+ request
  end.

(** Line 112. *)
Definition to_number (phone : string) : string :=
  if Py.startswith phone "whatsapp:" then phone else "whatsapp:" +:+ phone.

(** Lines 115-143: the notification, as a template or as plain text. *)
Definition approval_message (cfg : Config) (phone request short_id : string)
  : Message :=
  match TWILIO_CONTENT_SID cfg with
  | Some (String c sid) =>
      ContentMessage (TWILIO_WHATSAPP_FROM cfg) (to_number phone) (String c sid)
        [("1", request); ("2", short_id)]
  | _ =>
      let message_body :=
        "🔔 *Approval Request*" +:+ Py.nl +:+ Py.nl
        +:+ request +:+ Py.nl +:+ Py.nl
        +:+ "*Request ID:* `" +:+ short_id +:+ "`" +:+ Py.nl +:+ Py.nl
        +:+ "Reply:" +:+ Py.nl
        +:+ "• *APPROVE " +:+ short_id +:+ "*" +:+ Py.nl
        +:+ "• *DENY " +:+ short_id +:+ "*" +:+ Py.nl +:+ Py.nl
        +:+ "⏱️ Expires in 5 minutes" in
      BodyMessage (Py.strip message_body) (Some (TWILIO_WHATSAPP_FROM cfg))
        (to_number phone)
  end.

(** What one iteration of the wait loop reads from outside: the clock in
    the [while] condition, the table as its [SELECT] finds it, and the clock
    in the expiry test. *)
Record Tick := {
  guard_time : Z;
  seen : Store;
  check_time : Z
}.

(** Everything one call of [permissions__approve] reads from outside. *)
Record Env := {
  uuid4 : string;           (* str(uuid.uuid4()) *)
  time_requested : Z;       (* utcnow() of line 94 *)
  time_created : Z;         (* utcnow() of the created_at default *)
  time_started : Z;         (* utcnow() of line 150 *)
  ticks : nat → Tick        (* the k-th iteration of the loop *)
}.

Definition approved_result : pydict := [("approved", PBool true)].
Definition denied_result : pydict :=
  [("denied", PBool true); ("message", PStr "Request was denied")].
Definition expired_result : pydict := [("error", PStr "Request expired")].
Definition timed_out_result : pydict := [("error", PStr "Request timed out")].

(** Lines 153-167: the body of the loop. [None] means fall through to the
    sleep. *)
Definition poll (t : Tick) (short_id : string) (expires : Z) : option pydict :=
  let current_approval := select_by_id (seen t) short_id in
  match current_approval with
  | Some cur =>
      if negb (String.eqb (status cur) "pending") then
        if String.eqb (status cur) "approved"
        then Some approved_result
        else Some denied_result
      else if check_time t >? expires then Some expired_result else None
  | None => if check_time t >? expires then Some expired_result else None
  end.

(** Lines 152-172: the wait loop from its [k]-th iteration on. [fuel]
    bounds the number of iterations unrolled; [None] is out of fuel. *)
Fixpoint wait_loop (fuel : nat) (tk : nat → Tick) (k : nat)
    (start_time expires : Z) (short_id : string) : option pydict :=
  match fuel with
  | O => None
  | S fuel' =>
      if total_seconds_lt (guard_time (tk k) - start_time) max_wait_time then
        match poll (tk k) short_id expires with
        | Some res => Some res
        | None => wait_loop fuel' tk (S k) start_time expires short_id
        end
      else Some timed_out_result
  end.

(** The row of lines 97-104. *)
Definition new_request (env : Env) (phone request : string) : ApprovalRequest :=
  {| id := Py.take 8 (uuid4 env);
     request_id := uuid4 env;
     description := request;
     requester := "Claude";
     phone_number := phone;
     status := "pending";
     created_at := time_created env;
     responded_at := None;
     response := None;
     expires_at := time_requested env + validity_window |}.

(** The tool entry point. The table returned is the one left by this call's
    own writes; [None] is the wait loop out of fuel. *)
Definition permissions__approve (cfg : Config) (env : Env) (fuel : nat)
    (tool_name : string) (input : list (string * InputValue)) (reason : string)
    (st : Store) : option (result pydict * Store) :=
  let request := format_request tool_name input reason in
  match twilio_client cfg with
  | None => Some (Return [("error", PStr "Twilio not configured")], st)
  | Some client =>
      match APPROVAL_PHONE cfg with
      | Some (String c p) =>
          let phone := String c p in
          let approval := new_request env phone request in
          let short_id := id approval in
          match session_insert st approval with
          | Raise e => Some (Raise e, st)
          | Return st1 =>
              match messages_create client
                      (approval_message cfg phone request short_id) with
              | Raise e =>
                  Some (Return [("error",
                                 PStr ("Failed to send WhatsApp message: " +:+ e))],
                        session_delete st1 short_id)
              | Return _ =>
                  match wait_loop fuel (ticks env) 0 (time_started env)
                          (expires_at approval) short_id with
                  | Some res => Some (Return res, st1)
                  | None => None
                  end
              end
          end
      | _ =>
          Some (Return [("error",
                         PStr "APPROVAL_PHONE not configured in environment variables")],
                st)
      end
  end.

(** ** [twilio_webhook] *)

(** The form fields the handler extracts (lines 200-208); a missing field
    is [None]. *)
Record Form := {
  Body : option string;
  From : option string;
  To : option string;
  ListId : option string;
  ListTitle : option string;
  ButtonText : option string;
  ButtonPayload : option string;
  MessageStatus : option string;
  MessageSid : option string
}.

(** Outcome of lines 222-275: either the handler has already answered, or
    the three locals [short_id], [response] and [response_text] are bound. *)
Inductive Parsed :=
  | Respond (content : pydict)
  | Decided (short_id response response_text : string).

Definition ignored (reason : string) : pydict :=
  [("status", PStr "ignored"); ("reason", PStr reason)].

Definition error_reason (reason : string) : pydict :=
  [("status", PStr "error"); ("reason", PStr reason)].

Definition success (request_id response : string) : pydict :=
  [("status", PStr "success"); ("request_id", PStr request_id);
   ("response", PStr response)].

(** [action in ["approve", "deny"]] *)
Definition is_action (action : string) : bool :=
  String.eqb action "approve" || String.eqb action "deny".

(** ["approved" if action == "approve" else "denied"] *)
Definition response_of (action : string) : string :=
  if String.eqb action "approve" then "approved" else "denied".

(** Lines 262-275: a free-text reply. *)
Definition parse_text (Body_ : string) : Parsed :=
  let body := Py.upper (Py.strip Body_) in
  if Py.startswith body "APPROVE " then
    Decided (Py.strip (Py.replace body "APPROVE " "")) "approved" body
  else if Py.startswith body "DENY " then
    Decided (Py.strip (Py.replace body "DENY " "")) "denied" body
  else Respond (ignored "Invalid format").

(** Line 223: [MessageStatus and not Body]. *)
Definition status_callback (form : Form) : bool :=
  Py.truthy (MessageStatus form) && negb (Py.truthy (Body form)).

(** Lines 222-275. *)
Definition parse_reply (form : Form) : Parsed :=
  if status_callback form then
    Respond [("status", PStr "ok"); ("message", PStr "Status callback received")]
  else if negb (Py.truthy (From form)) then
    Respond [("status", PStr "error"); ("message", PStr "Missing From field")]
  else
    match ButtonPayload form with
    | Some (String c p) =>
        match Py.split "_" (String c p) with
        | [action; short_id] =>
            if is_action action then
              Decided short_id (response_of action)
                (Py.or_else (ButtonText form) (action +:+ "_" +:+ short_id))
            else Respond (ignored "Invalid button payload")
        | _ => Respond (ignored "Invalid button payload format")
        end
    | _ =>
        match ListId form with
        | Some (String c l) =>
            match Py.split ":" (String c l) with
            | [action; short_id] =>
                if is_action action then
                  Decided short_id (response_of action)
                    (action +:+ ":" +:+ short_id)
                else Respond (ignored "Invalid list selection")
            | _ => Respond (ignored "Invalid list ID format")
            end
        | _ =>
            match Body form with
            | Some (String c b) => parse_text (String c b)
            | _ => Respond (ignored "No body content")
            end
        end
    end.

(** Line 280: the sender with its channel prefix removed. *)
Definition from_phone (From_ : string) : string :=
  if Py.startswith From_ "whatsapp:"
  then Py.replace From_ "whatsapp:" ""
  else From_.

(** The two clock readings of the handler: the expiry test of line 297 and
    the timestamp of line 304. *)
Record WebhookClock := {
  time_checked : Z;
  time_responded : Z
}.

(** Lines 302-304. *)
Definition resolve (approval : ApprovalRequest) (response_ response_text : string)
    (now : Z) : ApprovalRequest :=
  {| id := id approval;
     request_id := request_id approval;
     description := description approval;
     requester := requester approval;
     phone_number := phone_number approval;
     status := response_;
     created_at := created_at approval;
     responded_at := Some now;
     response := Some response_text;
     expires_at := expires_at approval |}.

(** Lines 315-323. *)
Definition confirmation_message (form : Form) (short_id response_ : string)
  : Message :=
  let confirmation :=
    if String.eqb response_ "approved"
    then "✅ Request " +:+ short_id +:+ " has been approved."
    else "❌ Request " +:+ short_id +:+ " has been denied." in
  BodyMessage confirmation (To form) (default "" (From form)).

(** The inbound handler: the response (or the exception that escapes it)
    and the table it leaves. *)
Definition twilio_webhook (cfg : Config) (clk : WebhookClock) (form : Form)
    (st : Store) : result pydict * Store :=
  match parse_reply form with
  | Respond content => (Return content, st)
  | Decided short_id response_ response_text =>
      match select_by_id_phone st short_id
              (from_phone (default "" (From form))) with
      | None => (Return (error_reason "Request not found"), st)
      | Some approval =>
          if negb (String.eqb (status approval) "pending") then
            (Return (error_reason "Request already processed"), st)
          else if time_checked clk >? expires_at approval then
            (Return (error_reason "Request expired"), st)
          else
            let approval' :=
              resolve approval response_ response_text (time_responded clk) in
            let st' := session_update st approval' in
            match twilio_client cfg with
            | Some client =>
                match messages_create client
                        (confirmation_message form short_id response_) with
                | Raise e => (Raise e, st')
                | Return _ =>
                    (Return (success (request_id approval') response_), st')
                end
            | None => (Return (success (request_id approval') response_), st')
            end
      end
  end.

(** ** Vocabulary of the properties *)

(** The two decisions a reply can carry. *)
Inductive Action := Approve | Deny.

(** The action token of the structured shapes. *)
Definition token (a : Action) : string :=
  match a with Approve => "approve" | Deny => "deny" end.

(** The keyword of the free-text shape. *)
Definition keyword (a : Action) : string :=
  match a with Approve => "APPROVE" | Deny => "DENY" end.

(** The status a decision is recorded as. *)
Definition decision (a : Action) : string :=
  match a with Approve => "approved" | Deny => "denied" end.

(** The three payload shapes, as the specification words them: the action
    and the correlation id joined by the delimiter of the shape. *)
Definition encode_button (a : Action) (cid : string) : string :=
  token a +:+ "_" +:+ cid.

Definition encode_list (a : Action) (cid : string) : string :=
  token a +:+ ":" +:+ cid.

Definition encode_text (a : Action) (cid : string) : string :=
  keyword a +:+ " " +:+ cid.

(** A form with one field replaced. *)
Definition set_Body (v : option string) (form : Form) : Form :=
  {| Body := v; From := From form; To := To form; ListId := ListId form;
     ListTitle := ListTitle form; ButtonText := ButtonText form;
     ButtonPayload := ButtonPayload form; MessageStatus := MessageStatus form;
     MessageSid := MessageSid form |}.

Definition set_ListId (v : option string) (form : Form) : Form :=
  {| Body := Body form; From := From form; To := To form; ListId := v;
     ListTitle := ListTitle form; ButtonText := ButtonText form;
     ButtonPayload := ButtonPayload form; MessageStatus := MessageStatus form;
     MessageSid := MessageSid form |}.

Definition set_ButtonPayload (v : option string) (form : Form) : Form :=
  {| Body := Body form; From := From form; To := To form; ListId := ListId form;
     ListTitle := ListTitle form; ButtonText := ButtonText form;
     ButtonPayload := v; MessageStatus := MessageStatus form;
     MessageSid := MessageSid form |}.

(** Characters of a correlation id that survive the free-text path
    unchanged: ASCII, no white space, no lower-case letter. *)
Definition stable_char (c : ascii) : bool :=
  Py.is_ascii c && negb (Py.is_space c) && negb (Py.is_lower c).

(** A sender as the channel writes it: the number, bare or behind one
    [whatsapp:] prefix, the number itself holding no colon. *)
Definition channel_sender (From_ : string) : Prop :=
  ∃ number, Py.has_char ":" number = false
            ∧ (From_ = number ∨ From_ = "whatsapp:" +:+ number).

(** The record invariant of the data model. *)
Definition row_invariant (r : ApprovalRequest) : Prop :=
  (status r = "pending" ∧ responded_at r = None ∧ response r = None)
  ∨ ((status r = "approved" ∨ status r = "denied")
     ∧ is_Some (responded_at r) ∧ is_Some (response r)).

(** Every row sits at its primary key and satisfies the record invariant. *)
Definition store_invariant (st : Store) : Prop :=
  ∀ k r, st !! k = Some r → id r = k ∧ row_invariant r.

(** The writes the two entry points perform on the table, one commit each:
    the insert of line 108, the clean-up of lines 176-180, and the handler
    as a whole (its only commit is the update of line 306). *)
Inductive step : Store → Store → Prop :=
  | step_create env phone request st st' :
      session_insert st (new_request env phone request) = Return st' →
      step st st'
  | step_cleanup k st :
      step st (session_delete st k)
  | step_webhook cfg clk form st :
      step st (twilio_webhook cfg clk form st).2.

(** Tables that arise from the empty one. *)
Definition reachable (st : Store) : Prop := rtc step ∅ st.

(** The clock as the wait loop meets it: it does not run backwards from the
    start of the loop to the first test nor inside an iteration, and each
    [asyncio.sleep(check_interval)] lets at least [check_interval] seconds
    pass. *)
Definition clock_advances (start_time : Z) (tk : nat → Tick) : Prop :=
  start_time ≤ guard_time (tk O)
  ∧ ∀ k, guard_time (tk k) ≤ check_time (tk k)
         ∧ check_time (tk k) + seconds check_interval ≤ guard_time (tk (S k)).

(** The row an iteration finds is absent or still pending. *)
Definition unresolved (t : Tick) (short_id : string) : Prop :=
  match seen t !! short_id with
  | Some cur => status cur = "pending"
  | None => True
  end.

(** Iteration [k] of the wait loop falls through to the sleep: the budget
    is not used up, the row is unresolved and not yet expired. *)
Definition keeps_waiting (tk : nat → Tick) (start_time expires : Z)
    (short_id : string) (k : nat) : Prop :=
  guard_time (tk k) - start_time < seconds max_wait_time
  ∧ unresolved (tk k) short_id
  ∧ check_time (tk k) ≤ expires.

(** The iteration that reads [t] ends the wait with [res]. *)
Definition ends_with (t : Tick) (start_time expires : Z) (short_id : string)
    (res : pydict) : Prop :=
  (seconds max_wait_time ≤ guard_time t - start_time
   ∧ res = timed_out_result)
  ∨ (guard_time t - start_time < seconds max_wait_time
     ∧ ((∃ cur, seen t !! short_id = Some cur
                ∧ status cur = "approved" ∧ res = approved_result)
        ∨ (∃ cur, seen t !! short_id = Some cur
                  ∧ status cur ≠ "pending" ∧ status cur ≠ "approved"
                  ∧ res = denied_result)
        ∨ (unresolved t short_id ∧ expires < check_time t
           ∧ res = expired_result))).

(** ** A running example

    One request with the short id [abc12345], created at [t0] for the
    approver [+15551234567], and the callbacks the channel delivers for
    it. *)

Module Scenario.

Definition t0 : Z := seconds 1700000000.

Definition approver : string := "+15551234567".

Definition accepting : Client := {| messages_create := λ _, Return tt |}.

Definition failing : Client :=
  {| messages_create := λ _, Raise "HTTP 429 error: Unable to create record" |}.

Definition config (client : option Client) : Config :=
  {| TWILIO_WHATSAPP_FROM := "whatsapp:+14155238886";
     TWILIO_CONTENT_SID := None;
     APPROVAL_PHONE := Some approver;
     twilio_client := client |}.

(** The loop polls every two seconds and always finds the table [st]. *)
Definition steady (st : Store) (k : nat) : Tick :=
  {| guard_time := t0 + seconds 2 * Z.of_nat k;
     seen := st;
     check_time := t0 + seconds 2 * Z.of_nat k |}.

Definition env (st : Store) : Env :=
  {| uuid4 := "abc12345-6789-4abc-8def-0123456789ab";
     time_requested := t0;
     time_created := t0;
     time_started := t0;
     ticks := steady st |}.

Definition request : ApprovalRequest :=
  new_request (env ∅) approver "*Tool:* Edit".

Definition store : Store := {[ "abc12345" := request ]}.

(** A callback as the channel delivers it from [sender]. *)
Definition callback_from (sender : string) (body payload text : option string)
  : Form :=
  {| Body := body;
     From := Some sender;
     To := Some "whatsapp:+14155238886";
     ListId := None;
     ListTitle := None;
     ButtonText := text;
     ButtonPayload := payload;
     MessageStatus := None;
     MessageSid := Some "SM0123456789abcdef0123456789abcdef" |}.

(** A typed reply of the approver. *)
Definition text_reply (body : string) : Form :=
  callback_from "whatsapp:+15551234567" (Some body) None None.

(** The approver pressing a quick-reply button. *)
Definition button_reply (payload : string) : Form :=
  callback_from "whatsapp:+15551234567" (Some "Approve") (Some payload)
    (Some "Approve").

(** The same button pressed on somebody else's phone. *)
Definition intruder_reply (payload : string) : Form :=
  callback_from "whatsapp:+15557654321" (Some "Approve") (Some payload)
    (Some "Approve").

(** The same request when [APPROVAL_PHONE] is configured with the channel
    prefix. *)
Definition prefixed_config : Config :=
  {| TWILIO_WHATSAPP_FROM := "whatsapp:+14155238886";
     TWILIO_CONTENT_SID := None;
     APPROVAL_PHONE := Some "whatsapp:+15551234567";
     twilio_client := Some accepting |}.

Definition prefixed_store : Store :=
  {[ "abc12345" :=
       new_request (env ∅) "whatsapp:+15551234567" "*Tool:* Edit" ]}.

(** A request whose short id happens to hold digits only. *)
Definition digits_request : ApprovalRequest :=
  new_request
    {| uuid4 := "40912277-6789-4abc-8def-0123456789ab";
       time_requested := t0;
       time_created := t0;
       time_started := t0;
       ticks := steady ∅ |}
    approver "*Tool:* Edit".

Definition digits_store : Store := {[ "40912277" := digits_request ]}.

(** The handler's clock [s] seconds after [t0]. *)
Definition at_second (s : Z) : WebhookClock :=
  {| time_checked := t0 + seconds s; time_responded := t0 + seconds s |}.

(** The request after the approver pressed the button ten seconds in. *)
Definition approved_request : ApprovalRequest :=
  resolve request "approved" "Approve" (t0 + seconds 10).

Definition approved_store : Store := {[ "abc12345" := approved_request ]}.

End Scenario.

(** ** [setup_template.py]: [update_env_file]

    The [.env] file is its text, or [None] when the path does not exist.
    Reading and writing are those of a POSIX text-mode [open]: universal
    newlines on the way in, nothing changed on the way out. A file that
    cannot be opened, decoded or written (the [except] branch of lines
    94-96) is outside the model. *)

(** What [open(path, 'r')] hands over: every [\r\n] and every lone [\r] is
    read as [\n]. *)
Fixpoint universal_newlines (s : string) : string :=
  match s with
  | "" => ""
  | String c s' =>
      if Ascii.eqb c "013" then
        match s' with
        | String "010"%char s'' => String "010" (universal_newlines s'')
        | _ => String "010" (universal_newlines s')
        end
      else String c (universal_newlines s')
  end.

(** [f.readlines()]: the lines of the text, each with its [\n] kept, the
    last one as it stands. *)
Fixpoint readlines (s : string) : list string :=
  match s with
  | "" => []
  | String c s' =>
      if Ascii.eqb c "010" then String c "" :: readlines s'
      else match readlines s' with
           | [] => [String c ""]
           | line :: rest => String c line :: rest
           end
  end.

(** [f.writelines(lines)]: the strings one after the other. *)
Definition writelines (lines : list string) : string :=
  foldr String.append "" lines.

Definition content_sid_key : string := "TWILIO_CONTENT_SID=".

(** [f'TWILIO_CONTENT_SID={template_sid}\n'] *)
Definition content_sid_line (template_sid : string) : string :=
  content_sid_key +:+ template_sid +:+ Py.nl.

(** Lines 77-81: the loop that overwrites the first line starting with the
    key and breaks. [None] is [updated] still [False] after the loop. *)
Fixpoint replace_first (template_sid : string) (lines : list string)
  : option (list string) :=
  match lines with
  | [] => None
  | line :: rest =>
      if Py.startswith line content_sid_key
      then Some (content_sid_line template_sid :: rest)
      else (line ::.) <$> replace_first template_sid rest
  end.

(** Lines 71-85: the lines that are written back. *)
Definition updated_lines (template_sid : string) (lines : list string)
  : list string :=
  match replace_first template_sid lines with
  | Some lines' => lines'
  | None => lines ++ [content_sid_line template_sid]
  end.

(** The function: what it returns and the file it leaves. *)
Definition update_env_file (template_sid : string) (env_file : option string)
  : bool * option string :=
  match env_file with
  | None => (false, None)
  | Some content =>
      let lines := readlines (universal_newlines content) in
      (true, Some (writelines (updated_lines template_sid lines)))
  end.

(** ** More vocabulary *)

(** The line holds the key at its start. *)
Definition has_key (line : string) : Prop :=
  Py.startswith line content_sid_key = true.

(** A line with its line break: no break inside, one at the end. *)
Definition terminated (line : string) : Prop :=
  ∃ t, line = t +:+ Py.nl ∧ Py.has_char "010" t = false.

(** A last line left without a line break. *)
Definition open_line (line : string) : Prop :=
  line ≠ "" ∧ Py.has_char "010" line = false.

(** Lines as [readlines] yields them: each with its line break, the last
    one possibly without. *)
Fixpoint well_split (lines : list string) : Prop :=
  match lines with
  | [] => True
  | [line] => terminated line ∨ open_line line
  | line :: rest => terminated line ∧ well_split rest
  end.

(** A text that, as [open] reads it, is empty or ends in a line break. *)
Definition ends_in_newline (content : string) : Prop :=
  universal_newlines content = ""
  ∨ ∃ s, universal_newlines content = s +:+ Py.nl.

(** Neither kind of line break occurs in the string. *)
Definition one_line (s : string) : Prop :=
  Py.has_char "010" s = false ∧ Py.has_char "013" s = false.

(** The columns the handler leaves alone. *)
Definition same_identity (r r' : ApprovalRequest) : Prop :=
  id r' = id r
  ∧ request_id r' = request_id r
  ∧ description r' = description r
  ∧ requester r' = requester r
  ∧ phone_number r' = phone_number r
  ∧ created_at r' = created_at r
  ∧ expires_at r' = expires_at r.

(** What every row keeps from its creation: the short id is the head of the
    long one, the requester is the fixed label, and no two rows share a long
    id. *)
Definition keys_invariant (st : Store) : Prop :=
  (∀ k r, st !! k = Some r →
     id r = k ∧ id r = Py.take 8 (request_id r) ∧ requester r = "Claude")
  ∧ ∀ k1 k2 r1 r2,
      st !! k1 = Some r1 → st !! k2 = Some r2 →
      request_id r1 = request_id r2 → k1 = k2.

(** The outcome the wait loop reports for a recorded decision. *)
Definition outcome_of (response_ : string) : pydict :=
  if String.eqb response_ "approved" then approved_result else denied_result.

(** The three ways a callback can carry a decision ([short_id],
    [response], [response_text]): as a button payload, as a list selection
    when no button payload is present, as a body when neither is. *)
Definition button_shape (form : Form)
    (short_id response_ response_text : string) : Prop :=
  ∃ a, ButtonPayload form = Some (encode_button a short_id)
       ∧ Py.has_char "_" short_id = false
       ∧ response_ = decision a
       ∧ response_text
         = Py.or_else (ButtonText form) (encode_button a short_id).

Definition list_shape (form : Form)
    (short_id response_ response_text : string) : Prop :=
  Py.truthy (ButtonPayload form) = false
  ∧ ∃ a, ListId form = Some (encode_list a short_id)
         ∧ Py.has_char ":" short_id = false
         ∧ response_ = decision a
         ∧ response_text = encode_list a short_id.

Definition text_shape (form : Form)
    (short_id response_ response_text : string) : Prop :=
  Py.truthy (ButtonPayload form) = false
  ∧ Py.truthy (ListId form) = false
  ∧ ∃ a b, Body form = Some b
           ∧ response_text = Py.upper (Py.strip b)
           ∧ Py.startswith response_text (keyword a +:+ " ") = true
           ∧ response_ = decision a
           ∧ short_id
             = Py.strip (Py.replace response_text (keyword a +:+ " ") "").

(** White space only. *)
Definition blank (s : string) : Prop := Py.all_chars Py.is_space s = true.

(** ** Further examples *)

Module Cases.

(** An [.env] file that already names a template. *)
Definition env_with_key : string :=
  "TWILIO_ACCOUNT_SID=AC0123" +:+ Py.nl
  +:+ "TWILIO_CONTENT_SID=HXold" +:+ Py.nl
  +:+ "APPROVAL_PHONE=+15551234567" +:+ Py.nl.

(** One that does not, and whose last line has no line break. *)
Definition env_without_key : string :=
  "TWILIO_ACCOUNT_SID=AC0123" +:+ Py.nl
  +:+ "APPROVAL_PHONE=+15551234567".

(** A configuration with the channel set up but no approver. *)
Definition no_phone : Config :=
  {| TWILIO_WHATSAPP_FROM := "whatsapp:+14155238886";
     TWILIO_CONTENT_SID := None;
     APPROVAL_PHONE := Some "";
     twilio_client := Some Scenario.accepting |}.

(** A callback of the approver carrying only a list selection. *)
Definition list_reply (selection : string) : Form :=
  set_ListId (Some selection)
    (Scenario.callback_from "whatsapp:+15551234567" None None None).

End Cases.

(** * Properties *)

(** ** Facts about the text helpers *)

Module PyFacts.
Import Py.

Lemma app_cons (c : ascii) (s t : string) :
  String c s +:+ t = String c (s +:+ t).
Proof. reflexivity. Qed.

Lemma startswith_app (s p : string) :
  startswith s p = true → ∃ t, s = p +:+ t.
Proof.
  revert s. induction p as [|c p IH]; intros s H.
  - exists s. reflexivity.
  - destruct s as [|d s]; simpl in H; [discriminate|].
    apply andb_prop in H as [Hc H]. apply Ascii.eqb_eq in Hc as ->.
    destruct (IH _ H) as [t ->]. exists t. reflexivity.
Qed.

Lemma startswith_app_true (p t : string) : startswith (p +:+ t) p = true.
Proof.
  induction p as [|c p IH]; [reflexivity|].
  change (Ascii.eqb c c && startswith (p +:+ t) p = true).
  rewrite Ascii.eqb_refl. exact IH.
Qed.

Lemma has_char_app (c : ascii) (s t : string) :
  has_char c (s +:+ t) = has_char c s || has_char c t.
Proof.
  induction s as [|d s IH]; [reflexivity|].
  rewrite app_cons. simpl. rewrite IH. apply orb_assoc.
Qed.

Lemma all_chars_app (p : ascii → bool) (s t : string) :
  all_chars p (s +:+ t) = all_chars p s && all_chars p t.
Proof.
  induction s as [|d s IH]; [reflexivity|].
  rewrite app_cons. simpl. rewrite IH. apply andb_assoc.
Qed.

(** An occurrence of [old] brings every character of [old] with it. *)
Lemma startswith_absent (c : ascii) (old s : string) :
  has_char c old = true → has_char c s = false → startswith s old = false.
Proof.
  intros Hold Hs. destruct (startswith s old) eqn:E; [|reflexivity].
  apply startswith_app in E as [t ->].
  rewrite has_char_app, Hold in Hs. discriminate.
Qed.

Lemma replace_go_absent (c : ascii) (old new s : string) :
  has_char c old = true → has_char c s = false →
  replace_go old new 0 s = s.
Proof.
  intros Hold. induction s as [|d s IH]; intros Hs; [reflexivity|].
  cbn [replace_go]. rewrite (startswith_absent c) by assumption.
  simpl in Hs. apply orb_false_elim in Hs as [_ Hs].
  rewrite IH by assumption. reflexivity.
Qed.

(** Dropping the rest of an occurrence. *)
Lemma replace_go_skip (old new t s : string) :
  replace_go old new (String.length t) (t +:+ s) = replace_go old new 0 s.
Proof.
  induction t as [|d t IH]; [destruct s; reflexivity|].
  rewrite app_cons. simpl. exact IH.
Qed.

(** [replace] at an occurrence: it goes, the scan resumes behind it. *)
Lemma replace_go_here (c : ascii) (old new s : string) :
  replace_go (String c old) new 0 (String c old +:+ s)
  = new +:+ replace_go (String c old) new 0 s.
Proof.
  rewrite app_cons. cbn [replace_go]. rewrite <- app_cons.
  rewrite startswith_app_true. f_equal.
  replace (String.length (String c old) - 1)%nat with (String.length old)
    by (simpl; lia).
  apply replace_go_skip.
Qed.

(** An ASCII byte is a character of its own and opens no white space of
    several bytes. *)
Lemma ascii_alone (c : ascii) :
  is_ascii c = true → is_continuation c = false ∧ continuation_bytes c = 0%nat.
Proof. destruct c as [[] [] [] [] [] [] [] []]; (discriminate || auto). Qed.

Lemma ascii_not_space2 (a b : ascii) : is_ascii a = true → is_space2 a b = false.
Proof. destruct a as [[] [] [] [] [] [] [] []]; (discriminate || reflexivity). Qed.

Lemma ascii_not_space3 (a b c : ascii) :
  is_ascii a = true → is_space3 a b c = false.
Proof. destruct a as [[] [] [] [] [] [] [] []]; (discriminate || reflexivity). Qed.

Lemma ascii_head_not_space (c : ascii) (s : string) :
  is_ascii c = true → (s = "" → is_space c = false) →
  is_space_char (String c s) = false.
Proof.
  intros Hc Hs. destruct s as [|b [|d [|e s]]]; simpl.
  - apply Hs. reflexivity.
  - apply ascii_not_space2, Hc.
  - apply ascii_not_space3, Hc.
  - reflexivity.
Qed.

Lemma lstrip_id (c : ascii) (s : string) :
  is_ascii c = true → is_space c = false → lstrip (String c s) = String c s.
Proof.
  intros Ha H. cbn [lstrip]. rewrite H.
  destruct s as [|b [|d s]]; [reflexivity|..].
  - rewrite ascii_not_space2 by assumption. reflexivity.
  - rewrite ascii_not_space2, ascii_not_space3 by assumption. reflexivity.
Qed.

Lemma rstrip_id (s : string) :
  all_chars (λ c, is_ascii c && negb (is_space c)) s = true → rstrip s = s.
Proof.
  induction s as [|c s IH]; [reflexivity|].
  intros H. simpl in H. apply andb_prop in H as [[Ha Hc]%andb_prop Hs].
  cbn [rstrip]. rewrite (IH Hs). cbv zeta.
  apply negb_true_iff in Hc.
  rewrite ascii_head_not_space by auto. reflexivity.
Qed.

Lemma rstrip_app (p s : string) :
  all_chars is_ascii p = true →
  rstrip s ≠ "" → rstrip (p +:+ s) = p +:+ rstrip s.
Proof.
  intros Hp Hs. induction p as [|c p IH]; [reflexivity|].
  simpl in Hp. apply andb_prop in Hp as [Hc Hp].
  rewrite !app_cons. cbn [rstrip]. rewrite (IH Hp). cbv zeta.
  rewrite ascii_head_not_space; [reflexivity|assumption|].
  intros E. destruct p; [contradiction|discriminate].
Qed.

Lemma strip_id (s : string) :
  all_chars (λ c, is_ascii c && negb (is_space c)) s = true → strip s = s.
Proof.
  intros H. unfold strip. destruct s as [|c s]; [reflexivity|].
  pose proof H as [[Ha Hc]%andb_prop _]%andb_prop. apply negb_true_iff in Hc.
  rewrite lstrip_id by assumption. apply rstrip_id, H.
Qed.

(** Upper-casing goes through an ASCII character on its own. *)
Lemma upper_ascii_cons (c : ascii) (s : string) :
  is_ascii c = true → upper (String c s) = String (char_upper c) (upper s).
Proof.
  intros Hc. unfold upper. cbn [upper_go].
  destruct (ascii_alone c Hc) as [_ ->]. reflexivity.
Qed.

Lemma upper_id (s : string) :
  all_chars (λ c, is_ascii c && negb (is_lower c)) s = true → upper s = s.
Proof.
  induction s as [|c s IH]; [reflexivity|].
  simpl. intros [[Ha Hc]%andb_prop Hs]%andb_prop.
  rewrite upper_ascii_cons, (IH Hs) by assumption.
  unfold char_upper. apply negb_true_iff in Hc. rewrite Hc. reflexivity.
Qed.

Lemma upper_app (s t : string) :
  all_chars is_ascii s = true → upper (s +:+ t) = upper s +:+ upper t.
Proof.
  induction s as [|c s IH]; [reflexivity|].
  simpl. intros [Hc Hs]%andb_prop.
  rewrite app_cons, !upper_ascii_cons, (IH Hs) by assumption. reflexivity.
Qed.

(** Splitting at the only occurrence of the separator. *)
Lemma split_none (sep : ascii) (s : string) :
  has_char sep s = false → split sep s = [s].
Proof.
  induction s as [|c s IH]; [reflexivity|].
  simpl. intros [Hc Hs]%orb_false_elim. rewrite Hc, (IH Hs). reflexivity.
Qed.

Lemma split_one (sep : ascii) (a b : string) :
  has_char sep a = false → has_char sep b = false →
  split sep (a +:+ String sep b) = [a; b].
Proof.
  intros Ha Hb. induction a as [|c a IH].
  - change (split sep (String sep b) = ["" ; b]).
    simpl. rewrite Ascii.eqb_refl, split_none by assumption. reflexivity.
  - simpl in Ha. apply orb_false_elim in Ha as [Hc Ha].
    rewrite app_cons. simpl. rewrite Hc, (IH Ha). reflexivity.
Qed.

End PyFacts.

(** ** The handler, case by case *)

Section Webhook.
Variables (cfg : Config) (clk : WebhookClock) (form : Form) (st : Store).
Variables (short_id response_ response_text : string).
Hypothesis parsed : parse_reply form = Decided short_id response_ response_text.

Let sender : string := from_phone (default "" (From form)).

(** No row for this id and sender: the handler answers "not found". *)
Lemma webhook_no_row :
  select_by_id_phone st short_id sender = None →
  twilio_webhook cfg clk form st
  = (Return (error_reason "Request not found"), st).
Proof.
  intros H. unfold twilio_webhook. rewrite parsed.
  fold sender. rewrite H. reflexivity.
Qed.

Lemma select_own_row (r : ApprovalRequest) :
  st !! short_id = Some r → phone_number r = sender →
  select_by_id_phone st short_id sender = Some r.
Proof.
  intros Hr Hp. unfold select_by_id_phone. rewrite Hr.
  destruct (decide (phone_number r = sender)); [reflexivity|contradiction].
Qed.

Lemma select_other_row (r : ApprovalRequest) :
  st !! short_id = Some r → phone_number r ≠ sender →
  select_by_id_phone st short_id sender = None.
Proof.
  intros Hr Hp. unfold select_by_id_phone. rewrite Hr.
  destruct (decide (phone_number r = sender)); [contradiction|reflexivity].
Qed.

(** The row is found but no longer pending. *)
Lemma webhook_not_pending (r : ApprovalRequest) :
  select_by_id_phone st short_id sender = Some r →
  status r ≠ "pending" →
  twilio_webhook cfg clk form st
  = (Return (error_reason "Request already processed"), st).
Proof.
  intros H Hs. unfold twilio_webhook. rewrite parsed.
  fold sender. rewrite H.
  apply String.eqb_neq in Hs. rewrite Hs. reflexivity.
Qed.

(** The row is pending but the clock is past its expiry. *)
Lemma webhook_late (r : ApprovalRequest) :
  select_by_id_phone st short_id sender = Some r →
  status r = "pending" →
  expires_at r < time_checked clk →
  twilio_webhook cfg clk form st
  = (Return (error_reason "Request expired"), st).
Proof.
  intros H Hs Ht. unfold twilio_webhook. rewrite parsed.
  fold sender. rewrite H, Hs. simpl.
  destruct (Z.gtb_spec (time_checked clk) (expires_at r)); [reflexivity|lia].
Qed.

(** The row is pending and in time: the decision is committed, then the
    confirmation is attempted. *)
Lemma webhook_commits (r : ApprovalRequest) :
  select_by_id_phone st short_id sender = Some r →
  status r = "pending" →
  time_checked clk ≤ expires_at r →
  twilio_webhook cfg clk form st
  = (match twilio_client cfg with
     | Some client =>
         match messages_create client
                 (confirmation_message form short_id response_) with
         | Raise e => Raise e
         | Return _ => Return (success (request_id r) response_)
         end
     | None => Return (success (request_id r) response_)
     end,
     session_update st
       (resolve r response_ response_text (time_responded clk))).
Proof.
  intros H Hs Ht. unfold twilio_webhook. rewrite parsed.
  fold sender. rewrite H, Hs. simpl.
  destruct (Z.gtb_spec (time_checked clk) (expires_at r)); [lia|].
  destruct (twilio_client cfg) as [client|]; [|reflexivity].
  destruct (messages_create client _); reflexivity.
Qed.

End Webhook.

(** X1. Once a request is approved or denied, a further callback that the
    parser decodes to its id, from the stored number, is answered "Request
    already processed", and the table, hence the row's [status],
    [responded_at] and [response], stays as it was. *)
Theorem resolved_request_is_not_resolved_again
    (cfg : Config) (clk : WebhookClock) (form : Form) (st : Store)
    (short_id response_ response_text : string) (r : ApprovalRequest) :
  parse_reply form = Decided short_id response_ response_text →
  st !! short_id = Some r →
  phone_number r = from_phone (default "" (From form)) →
  status r = "approved" ∨ status r = "denied" →
  twilio_webhook cfg clk form st
  = (Return (error_reason "Request already processed"), st).
Proof.
  intros Hp Hr Hphone Hs.
  eapply webhook_not_pending; eauto using select_own_row.
  destruct Hs as [-> | ->]; discriminate.
Qed.

Lemma resolved_request_is_not_resolved_again_witness :
  twilio_webhook (Scenario.config (Some Scenario.accepting))
    (Scenario.at_second 20) (Scenario.button_reply "deny_abc12345")
    Scenario.approved_store
  = (Return (error_reason "Request already processed"), Scenario.approved_store).
Proof.
  apply (resolved_request_is_not_resolved_again _ _ _ _
           "abc12345" "denied" "Approve" Scenario.approved_request).
  - reflexivity.
  - reflexivity.
  - reflexivity.
  - left. reflexivity.
Defined.

(** C2, on the code. The request [abc12345] is approved and its approver
    types "DENY abc12345". The parser upper-cases the id with the rest of
    the body, the lookup of [ABC12345] finds no row, and the answer is
    "Request not found" where the same decision sent by button is answered
    "Request already processed". The table is left as it was in both
    cases. *)
Theorem typed_repeat_is_not_found :
  twilio_webhook (Scenario.config (Some Scenario.accepting))
    (Scenario.at_second 20) (Scenario.text_reply "DENY abc12345")
    Scenario.approved_store
  = (Return (error_reason "Request not found"), Scenario.approved_store)
  ∧ twilio_webhook (Scenario.config (Some Scenario.accepting))
      (Scenario.at_second 20) (Scenario.button_reply "deny_abc12345")
      Scenario.approved_store
    = (Return (error_reason "Request already processed"),
       Scenario.approved_store).
Proof. split; reflexivity. Qed.

(** X2. A callback that the parser decodes to the id of a pending request,
    from the stored number, and that arrives after [expires_at] is answered
    "Request expired" and writes nothing: the table is unchanged, so the
    row is still pending with no [responded_at] and no [response]. *)
Theorem late_callback_is_rejected
    (cfg : Config) (clk : WebhookClock) (form : Form) (st : Store)
    (short_id response_ response_text : string) (r : ApprovalRequest) :
  parse_reply form = Decided short_id response_ response_text →
  st !! short_id = Some r →
  phone_number r = from_phone (default "" (From form)) →
  status r = "pending" →
  expires_at r < time_checked clk →
  twilio_webhook cfg clk form st
  = (Return (error_reason "Request expired"), st).
Proof.
  intros Hp Hr Hphone Hs Ht.
  eapply webhook_late; eauto using select_own_row.
Qed.

Lemma late_callback_is_rejected_witness :
  twilio_webhook (Scenario.config (Some Scenario.accepting))
    (Scenario.at_second 330) (Scenario.button_reply "approve_abc12345")
    Scenario.store
  = (Return (error_reason "Request expired"), Scenario.store).
Proof.
  apply (late_callback_is_rejected _ _ _ _
           "abc12345" "approved" "Approve" Scenario.request).
  - reflexivity.
  - reflexivity.
  - reflexivity.
  - reflexivity.
  - vm_compute. reflexivity.
Defined.

(** C3, on the code. The request [abc12345] is pending, its window is
    over, and its approver types "approve abc12345" five and a half minutes
    after the request. The lookup of the upper-cased id [ABC12345] finds no
    row and the answer is "Request not found", where the button pressed at
    the same moment is answered "Request expired". The row stays pending in
    both cases. *)
Theorem typed_late_reply_is_not_found :
  twilio_webhook (Scenario.config (Some Scenario.accepting))
    (Scenario.at_second 330) (Scenario.text_reply "approve abc12345")
    Scenario.store
  = (Return (error_reason "Request not found"), Scenario.store)
  ∧ twilio_webhook (Scenario.config (Some Scenario.accepting))
      (Scenario.at_second 330) (Scenario.button_reply "approve_abc12345")
      Scenario.store
    = (Return (error_reason "Request expired"), Scenario.store)
  ∧ status <$> Scenario.store !! "abc12345" = Some "pending".
Proof. repeat split. Qed.

(** C5. A callback that names a stored request but comes from another
    address than the one stored with it is answered "Request not found",
    and the table is left exactly as it was. *)
Theorem foreign_sender_is_not_found
    (cfg : Config) (clk : WebhookClock) (form : Form) (st : Store)
    (short_id response_ response_text : string) (r : ApprovalRequest) :
  parse_reply form = Decided short_id response_ response_text →
  st !! short_id = Some r →
  phone_number r ≠ from_phone (default "" (From form)) →
  twilio_webhook cfg clk form st
  = (Return (error_reason "Request not found"), st).
Proof.
  intros Hp Hr Hphone.
  eapply webhook_no_row; eauto using select_other_row.
Qed.

Lemma foreign_sender_is_not_found_witness :
  twilio_webhook (Scenario.config (Some Scenario.accepting))
    (Scenario.at_second 10)
    (Scenario.intruder_reply "approve_abc12345")
    Scenario.store
  = (Return (error_reason "Request not found"), Scenario.store).
Proof.
  apply (foreign_sender_is_not_found _ _ _ _
           "abc12345" "approved" "Approve" Scenario.request).
  - reflexivity.
  - reflexivity.
  - vm_compute. discriminate.
Defined.

(** ** The reply parser *)

Lemma token_is_action (a : Action) : is_action (token a) = true.
Proof. destruct a; reflexivity. Qed.

Lemma response_of_token (a : Action) : response_of (token a) = decision a.
Proof. destruct a; reflexivity. Qed.

Lemma token_plain (sep : ascii) (a : Action) :
  sep = "_"%char ∨ sep = ":"%char → Py.has_char sep (token a) = false.
Proof. intros [-> | ->]; destruct a; reflexivity. Qed.

Lemma truthy_Some (o : option string) :
  Py.truthy o = true → ∃ c s, o = Some (String c s).
Proof. destruct o as [[|c s]|]; try discriminate. eauto. Qed.

Lemma falsy_cases (o : option string) :
  Py.truthy o = false → o = None ∨ o = Some "".
Proof. destruct o as [[|c s]|]; try discriminate; auto. Qed.

(** A structured payload [token<sep>id] splits back into its two parts. *)
Lemma split_encoded (sep : ascii) (a : Action) (cid : string) :
  sep = "_"%char ∨ sep = ":"%char →
  Py.has_char sep cid = false →
  Py.split sep (token a +:+ String sep cid) = [token a; cid].
Proof.
  intros Hsep Hcid. apply PyFacts.split_one; [|assumption].
  apply token_plain, Hsep.
Qed.

Lemma stable_no_space (cid : string) :
  Py.all_chars stable_char cid = true →
  Py.all_chars (λ c, Py.is_ascii c && negb (Py.is_space c)) cid = true
  ∧ Py.all_chars (λ c, Py.is_ascii c && negb (Py.is_lower c)) cid = true
  ∧ Py.has_char " " cid = false.
Proof.
  induction cid as [|c cid IH]; [auto|].
  simpl. intros [[[Ha Hs]%andb_prop Hl]%andb_prop H]%andb_prop.
  destruct (IH H) as (IH1 & IH2 & IH3).
  rewrite Ha, Hs, Hl, IH1, IH2, IH3. repeat split.
  apply orb_false_intro; [|reflexivity].
  apply Ascii.eqb_neq. intros ->. discriminate.
Qed.

Lemma keyword_ascii (a : Action) :
  Py.all_chars Py.is_ascii (keyword a +:+ " ") = true.
Proof. destruct a; reflexivity. Qed.

(** The free-text shape: keyword, one blank, id. *)
Lemma parse_text_encoded (a : Action) (cid : string) :
  cid ≠ "" →
  Py.all_chars stable_char cid = true →
  parse_text (encode_text a cid) = Decided cid (decision a) (encode_text a cid).
Proof.
  intros Hne Hcid.
  destruct (stable_no_space cid Hcid) as (Hspace & Hlower & Hblank).
  assert (Hr : Py.rstrip cid ≠ "") by (rewrite PyFacts.rstrip_id; assumption).
  assert (E : encode_text a cid = (keyword a +:+ " ") +:+ cid)
    by (destruct a; reflexivity).
  assert (Hbody : Py.upper (Py.strip (encode_text a cid)) = encode_text a cid).
  { rewrite E. unfold Py.strip.
    assert (Hl : Py.lstrip ((keyword a +:+ " ") +:+ cid)
                 = (keyword a +:+ " ") +:+ cid)
      by (destruct a; apply PyFacts.lstrip_id; reflexivity).
    rewrite Hl.
    rewrite PyFacts.rstrip_app, PyFacts.rstrip_id
      by (assumption || apply keyword_ascii).
    rewrite PyFacts.upper_app, (PyFacts.upper_id cid)
      by (assumption || apply keyword_ascii).
    f_equal. destruct a; reflexivity. }
  unfold parse_text. rewrite Hbody, E.
  destruct a; unfold keyword.
  - change ("APPROVE" +:+ " ") with "APPROVE ".
    rewrite PyFacts.startswith_app_true.
    unfold Py.replace. rewrite PyFacts.replace_go_here.
    rewrite (PyFacts.replace_go_absent " ") by (reflexivity || assumption).
    change ("" +:+ cid) with cid.
    rewrite PyFacts.strip_id by assumption. reflexivity.
  - change ("DENY" +:+ " ") with "DENY ".
    change (Py.startswith ("DENY " +:+ cid) "APPROVE ") with false.
    cbv iota.
    rewrite PyFacts.startswith_app_true.
    unfold Py.replace. rewrite PyFacts.replace_go_here.
    rewrite (PyFacts.replace_go_absent " ") by (reflexivity || assumption).
    change ("" +:+ cid) with cid.
    rewrite PyFacts.strip_id by assumption. reflexivity.
Qed.

(** The three branches of the parser, each under the test that selects
    it. *)
Lemma parse_reply_button (form : Form) (c : ascii) (p : string) :
  status_callback form = false →
  Py.truthy (From form) = true →
  ButtonPayload form = Some (String c p) →
  parse_reply form
  = match Py.split "_" (String c p) with
    | [action; short_id] =>
        if is_action action then
          Decided short_id (response_of action)
            (Py.or_else (ButtonText form) (action +:+ "_" +:+ short_id))
        else Respond (ignored "Invalid button payload")
    | _ => Respond (ignored "Invalid button payload format")
    end.
Proof.
  intros Hs Hf Hb. unfold parse_reply. rewrite Hs, Hf, Hb. reflexivity.
Qed.

Lemma parse_reply_list (form : Form) (c : ascii) (l : string) :
  status_callback form = false →
  Py.truthy (From form) = true →
  Py.truthy (ButtonPayload form) = false →
  ListId form = Some (String c l) →
  parse_reply form
  = match Py.split ":" (String c l) with
    | [action; short_id] =>
        if is_action action then
          Decided short_id (response_of action) (action +:+ ":" +:+ short_id)
        else Respond (ignored "Invalid list selection")
    | _ => Respond (ignored "Invalid list ID format")
    end.
Proof.
  intros Hs Hf Hb Hl. unfold parse_reply. rewrite Hs, Hf, Hl.
  destruct (falsy_cases _ Hb) as [-> | ->]; reflexivity.
Qed.

Lemma parse_reply_text (form : Form) (c : ascii) (b : string) :
  Py.truthy (From form) = true →
  Py.truthy (ButtonPayload form) = false →
  Py.truthy (ListId form) = false →
  Body form = Some (String c b) →
  parse_reply form = parse_text (String c b).
Proof.
  intros Hf Hb Hl Hbody. unfold parse_reply, status_callback.
  rewrite Hf, Hbody. simpl Py.truthy. rewrite andb_false_r.
  destruct (falsy_cases _ Hb) as [-> | ->];
    destruct (falsy_cases _ Hl) as [-> | ->]; reflexivity.
Qed.


(** X3. For either action, a button payload [action_id] whose id holds no
    underscore, a list selection [action:id] whose id holds no colon, and a
    text body [APPROVE id] or [DENY id] whose id is non-empty, ASCII and
    free of white space and lower-case letters, each decode to the same
    decision and id. The button decides whatever the list field and the body
    say, the list decides whatever the body says, and with a structured
    field present the text of the body is never consulted. *)
Theorem parser_round_trip (a : Action) (cid : string) (form : Form) :
  Py.truthy (From form) = true →
  (status_callback form = false →
   Py.has_char "_" cid = false →
   parse_reply (set_ButtonPayload (Some (encode_button a cid)) form)
   = Decided cid (decision a)
       (Py.or_else (ButtonText form) (encode_button a cid)))
  ∧ (status_callback form = false →
     Py.truthy (ButtonPayload form) = false →
     Py.has_char ":" cid = false →
     parse_reply (set_ListId (Some (encode_list a cid)) form)
     = Decided cid (decision a) (encode_list a cid))
  ∧ (Py.truthy (ButtonPayload form) = false →
     Py.truthy (ListId form) = false →
     cid ≠ "" →
     Py.all_chars stable_char cid = true →
     parse_reply (set_Body (Some (encode_text a cid)) form)
     = Decided cid (decision a) (encode_text a cid))
  ∧ (Py.truthy (ButtonPayload form) = true ∨ Py.truthy (ListId form) = true →
     ∀ body, Py.truthy body = Py.truthy (Body form) →
             parse_reply (set_Body body form) = parse_reply form).
Proof.
  intros Hfrom. repeat split.
  - intros Hstatus Hcid.
    assert (E : ∃ c p, encode_button a cid = String c p) by (destruct a; eauto).
    destruct E as (c & p & E).
    rewrite (parse_reply_button _ c p); [|assumption..|simpl; congruence].
    rewrite <- E. unfold encode_button.
    change ("_" +:+ cid) with (String "_" cid).
    rewrite split_encoded by auto.
    rewrite token_is_action, response_of_token. reflexivity.
  - intros Hstatus Hbutton Hcid.
    assert (E : ∃ c p, encode_list a cid = String c p) by (destruct a; eauto).
    destruct E as (c & p & E).
    rewrite (parse_reply_list _ c p); [|assumption..|simpl; congruence].
    rewrite <- E. unfold encode_list.
    change (":" +:+ cid) with (String ":" cid).
    rewrite split_encoded by auto.
    rewrite token_is_action, response_of_token. reflexivity.
  - intros Hbutton Hlist Hne Hcid.
    assert (E : ∃ c p, encode_text a cid = String c p) by (destruct a; eauto).
    destruct E as (c & p & E).
    rewrite (parse_reply_text _ c p); [|assumption..|simpl; congruence].
    rewrite <- E. apply parse_text_encoded; assumption.
  - intros Hstructured body Hbody. unfold parse_reply, status_callback.
    simpl. rewrite Hbody.
    destruct (Py.truthy (MessageStatus form) && negb (Py.truthy (Body form)));
      [reflexivity|].
    destruct (negb (Py.truthy (From form))); [reflexivity|].
    destruct Hstructured as [H | H]; apply truthy_Some in H as (c & s & H).
    + rewrite H. reflexivity.
    + rewrite H. destruct (ButtonPayload form) as [[|c' s']|]; reflexivity.
Qed.

Lemma parser_round_trip_witness :
  parse_reply (Scenario.button_reply "deny_abc12345")
  = Decided "abc12345" "denied" "Approve"
  ∧ parse_reply (set_ListId (Some "approve:abc12345")
                   (Scenario.text_reply "deny abc12345"))
    = Decided "abc12345" "approved" "approve:abc12345"
  ∧ parse_reply (Scenario.text_reply "DENY 40912277")
    = Decided "40912277" "denied" "DENY 40912277"
  ∧ parse_reply (set_Body (Some "approve abc12345")
                   (Scenario.button_reply "deny_abc12345"))
    = parse_reply (Scenario.button_reply "deny_abc12345").
Proof.
  split; [|split; [|split]].
  - destruct (parser_round_trip Deny "abc12345"
                (Scenario.button_reply "deny_abc12345") eq_refl)
      as (H & _ & _ & _).
    apply H; reflexivity.
  - destruct (parser_round_trip Approve "abc12345"
                (Scenario.text_reply "deny abc12345") eq_refl)
      as (_ & H & _ & _).
    apply H; reflexivity.
  - destruct (parser_round_trip Deny "40912277"
                (Scenario.text_reply "DENY 40912277") eq_refl)
      as (_ & _ & H & _).
    apply H; [reflexivity | reflexivity | discriminate | reflexivity].
  - destruct (parser_round_trip Deny "abc12345"
                (Scenario.button_reply "deny_abc12345") eq_refl)
      as (_ & _ & _ & H).
    apply H; [left; reflexivity | reflexivity].
Defined.

(** An id that holds the delimiter of its shape does not come back: the
    payload no longer splits in two and is set aside. The ids the server
    issues, eight hexadecimal digits, hold neither delimiter. *)
Example delimiter_in_id_is_set_aside :
  parse_reply (Scenario.button_reply (encode_button Approve "abc_2345"))
  = Respond (ignored "Invalid button payload format").
Proof. reflexivity. Qed.

(** C7, on the code. For the id [abc12345], as the server issues it, the
    button payload and the list selection decode to the decision and the
    id they were built from, and so does the precedence of the structured
    fields hold. The typed shape does not: [APPROVE abc12345] and
    [DENY abc12345] decode to the id [ABC12345], upper-cased with the rest
    of the body. *)
Theorem typed_shape_changes_the_id :
  parse_reply (Scenario.text_reply (encode_text Approve "abc12345"))
  = Decided "ABC12345" "approved" "APPROVE ABC12345"
  ∧ parse_reply (Scenario.text_reply (encode_text Deny "abc12345"))
    = Decided "ABC12345" "denied" "DENY ABC12345"
  ∧ parse_reply (Scenario.button_reply (encode_button Deny "abc12345"))
    = Decided "abc12345" "denied" "Approve"
  ∧ parse_reply (Cases.list_reply (encode_list Approve "abc12345"))
    = Decided "abc12345" "approved" "approve:abc12345"
  ∧ parse_reply (set_Body (Some (encode_text Approve "0000aaaa"))
                   (Scenario.button_reply (encode_button Deny "abc12345")))
    = Decided "abc12345" "denied" "Approve".
Proof. repeat split. Qed.

(** ** The record invariant *)

(** The parser only ever binds [response] to one of the two decisions. *)
Lemma parse_reply_response (form : Form) (short_id response_ response_text : string) :
  parse_reply form = Decided short_id response_ response_text →
  response_ = "approved" ∨ response_ = "denied".
Proof.
  unfold parse_reply, parse_text.
  destruct (status_callback form); [discriminate|].
  destruct (negb (Py.truthy (From form))); [discriminate|].
  assert (Hr : ∀ action, response_of action = "approved"
                         ∨ response_of action = "denied").
  { intros action. unfold response_of.
    destruct (String.eqb action "approve"); auto. }
  destruct (ButtonPayload form) as [[|c p]|];
    [| destruct (Py.split "_" (String c p)) as [|a [|b [|? ?]]];
       try discriminate;
       destruct (is_action a); try discriminate;
       intros [= <- <- <-]; apply Hr |].
  all: destruct (ListId form) as [[|c l]|];
    [| destruct (Py.split ":" (String c l)) as [|a [|b [|? ?]]];
       try discriminate;
       destruct (is_action a); try discriminate;
       intros [= <- <- <-]; apply Hr |].
  all: destruct (Body form) as [[|c b]|]; try discriminate.
  all: destruct (Py.startswith _ "APPROVE ");
    [intros [= <- <- <-]; auto|].
  all: destruct (Py.startswith _ "DENY ");
    [intros [= <- <- <-]; auto|discriminate].
Qed.

(** What the handler does to the table: nothing, or one guarded update of
    one pending row. *)
Lemma webhook_store (cfg : Config) (clk : WebhookClock) (form : Form) (st : Store) :
  (twilio_webhook cfg clk form st).2 = st
  ∨ ∃ short_id response_ response_text r,
      parse_reply form = Decided short_id response_ response_text
      ∧ st !! short_id = Some r
      ∧ status r = "pending"
      ∧ (response_ = "approved" ∨ response_ = "denied")
      ∧ time_checked clk ≤ expires_at r
      ∧ (twilio_webhook cfg clk form st).2
        = session_update st
            (resolve r response_ response_text (time_responded clk)).
Proof.
  destruct (parse_reply form) as [content|short_id response_ response_text] eqn:Hp.
  { left. unfold twilio_webhook. rewrite Hp. reflexivity. }
  destruct (select_by_id_phone st short_id (from_phone (default "" (From form))))
    as [r|] eqn:Hsel.
  2: { left. erewrite webhook_no_row by eassumption. reflexivity. }
  assert (Hr : st !! short_id = Some r).
  { unfold select_by_id_phone in Hsel.
    destruct (st !! short_id) as [r'|]; [|discriminate].
    destruct (decide _); congruence. }
  destruct (decide (status r = "pending")) as [Hs|Hs].
  2: { left. erewrite webhook_not_pending by eassumption. reflexivity. }
  destruct (Z.le_gt_cases (time_checked clk) (expires_at r)) as [Ht|Ht].
  2: { left. erewrite webhook_late by eassumption. reflexivity. }
  right. exists short_id, response_, response_text, r.
  repeat split; try assumption.
  - eapply parse_reply_response, Hp.
  - erewrite webhook_commits by eassumption. reflexivity.
Qed.

Lemma resolve_invariant (r : ApprovalRequest) (response_ response_text : string) (now : Z) :
  response_ = "approved" ∨ response_ = "denied" →
  row_invariant (resolve r response_ response_text now).
Proof. intros H. right. simpl. eauto. Qed.

Lemma step_invariant (st st' : Store) :
  step st st' → store_invariant st → store_invariant st'.
Proof.
  intros Hstep Hinv. destruct Hstep as [env phone request st st' H|k st|cfg clk form st].
  - unfold session_insert in H.
    destruct (st !! id (new_request env phone request)) eqn:E; [discriminate|].
    destruct (request_id_taken st _); [discriminate|].
    injection H as <-. intros k r.
    rewrite lookup_insert. case_decide as Hk.
    + intros [= <-]. split; [exact Hk|]. left. auto.
    + apply Hinv.
  - unfold session_delete. destruct (st !! k); [|exact Hinv].
    intros k' r. rewrite lookup_delete. case_decide; [discriminate|apply Hinv].
  - destruct (webhook_store cfg clk form st)
      as [-> | (sid & resp & txt & r & _ & Hr & _ & Hresp & _ & ->)]; [exact Hinv|].
    unfold session_update. intros k r'.
    rewrite lookup_insert. case_decide as Hk.
    + intros [= <-]. split; [exact Hk|]. apply resolve_invariant, Hresp.
    + apply Hinv.
Qed.

Lemma reachable_invariant (st : Store) : reachable st → store_invariant st.
Proof.
  unfold reachable. intros H.
  apply (rtc_ind_r (R := step) (λ st, store_invariant st) ∅); [| |exact H].
  - intros k r. rewrite lookup_empty. discriminate.
  - intros y z _ Hstep IH. eapply step_invariant; eassumption.
Qed.

(** A write changes a row only by resolving it. *)
Lemma step_row (st st' : Store) (k : string) (r r' : ApprovalRequest) :
  store_invariant st → step st st' →
  st !! k = Some r → st' !! k = Some r' →
  r' = r
  ∨ (status r = "pending"
     ∧ (status r' = "approved" ∨ status r' = "denied")
     ∧ expires_at r' = expires_at r).
Proof.
  intros Hinv Hstep Hr Hr'.
  destruct Hstep as [env phone request st st' H|k0 st|cfg clk form st].
  - unfold session_insert in H.
    destruct (st !! id (new_request env phone request)) eqn:E; [discriminate|].
    destruct (request_id_taken st _); [discriminate|].
    injection H as <-. rewrite lookup_insert in Hr'.
    case_decide as Hk; [simpl in E, Hk; congruence|].
    left. congruence.
  - unfold session_delete in Hr'. destruct (st !! k0).
    + rewrite lookup_delete in Hr'. case_decide; [discriminate|].
      left. congruence.
    + left. congruence.
  - destruct (webhook_store cfg clk form st)
      as [E | (sid & resp & txt & r0 & _ & Hr0 & Hs & Hresp & _ & E)];
      rewrite E in Hr'; [left; congruence|].
    unfold session_update in Hr'. rewrite lookup_insert in Hr'.
    case_decide as Hk; [|left; congruence].
    injection Hr' as <-. simpl in Hk.
    destruct (Hinv _ _ Hr0) as [Hid _].
    assert (r0 = r) as -> by congruence.
    right. simpl. auto.
Qed.

(** C6. In every table the two entry points can produce, each row has
    [responded_at] and [response] unset exactly when its status is pending:
    a pending row has neither, an approved or denied row has both, and no
    other status occurs. A write changes a status only from pending to
    approved or to denied. The handler changes it only while its clock,
    read in the expiry test, has not passed the row's [expires_at], and it
    then sets [responded_at] to its second clock reading and [response] to
    the text the parser took from the callback. *)
Theorem lifecycle_invariant (st : Store) :
  reachable st →
  (∀ k r, st !! k = Some r →
     ((responded_at r = None ∧ response r = None) ↔ status r = "pending")
     ∧ (status r = "pending" ∨ status r = "approved" ∨ status r = "denied")
     ∧ (status r ≠ "pending" →
        is_Some (responded_at r) ∧ is_Some (response r)))
  ∧ (∀ st' k r r', step st st' → st !! k = Some r → st' !! k = Some r' →
       status r' = status r
       ∨ (status r = "pending"
          ∧ (status r' = "approved" ∨ status r' = "denied")))
  ∧ (∀ cfg clk form k r r',
       st !! k = Some r →
       (twilio_webhook cfg clk form st).2 !! k = Some r' →
       status r' ≠ status r →
       time_checked clk ≤ expires_at r
       ∧ responded_at r = None ∧ response r = None
       ∧ responded_at r' = Some (time_responded clk)
       ∧ ∃ response_text,
           parse_reply form = Decided k (status r') response_text
           ∧ response r' = Some response_text).
Proof.
  intros Hreach. pose proof (reachable_invariant st Hreach) as Hinv.
  assert (Hrows : ∀ k r, st !! k = Some r →
     ((responded_at r = None ∧ response r = None) ↔ status r = "pending")
     ∧ (status r = "pending" ∨ status r = "approved" ∨ status r = "denied")
     ∧ (status r ≠ "pending" →
        is_Some (responded_at r) ∧ is_Some (response r))).
  { intros k r Hr. destruct (Hinv k r Hr) as [_ Hrow].
    destruct Hrow as [(Hs & Ha & Hb) | (Hs & [a Ha] & [b Hb])].
    - split; [tauto|]. split; [auto|]. intros H. contradiction.
    - split; [|split; [tauto|eauto]]. split.
      + intros [E _]. congruence.
      + intros E. destruct Hs as [Hs | Hs]; rewrite Hs in E; discriminate. }
  split; [exact Hrows|split].
  - intros st' k r r' Hstep Hr Hr'.
    destruct (step_row st st' k r r' Hinv Hstep Hr Hr') as [-> | (H1 & H2 & _)];
      auto.
  - intros cfg clk form k r r' Hr Hr' Hne.
    destruct (webhook_store cfg clk form st)
      as [E | (sid & resp & txt & r0 & Hp & Hr0 & Hs & _ & Ht & E)];
      rewrite E in Hr'; [congruence|].
    unfold session_update in Hr'. rewrite lookup_insert in Hr'.
    case_decide as Hk; [|congruence].
    simpl in Hk. destruct (Hinv _ _ Hr0) as [Hid _].
    assert (sid = k) as -> by congruence.
    assert (r0 = r) as -> by congruence.
    injection Hr' as <-. simpl.
    destruct (Hrows k r Hr) as ([_ Hunset] & _ & _).
    destruct (Hunset Hs) as [Hra Hre].
    repeat split; try assumption. eauto.
Qed.

Lemma scenario_store_reachable : reachable Scenario.store.
Proof.
  apply rtc_once.
  apply (step_create (Scenario.env ∅) Scenario.approver "*Tool:* Edit").
  reflexivity.
Qed.

Lemma approved_store_reachable : reachable Scenario.approved_store.
Proof.
  eapply rtc_r; [apply scenario_store_reachable|].
  apply (step_webhook (Scenario.config None) (Scenario.at_second 10)
           (Scenario.button_reply "approve_abc12345") Scenario.store).
Qed.

Lemma lifecycle_invariant_witness :
  (((responded_at Scenario.approved_request = None
     ∧ response Scenario.approved_request = None)
    ↔ status Scenario.approved_request = "pending")
   ∧ (status Scenario.approved_request = "pending"
      ∨ status Scenario.approved_request = "approved"
      ∨ status Scenario.approved_request = "denied")
   ∧ (status Scenario.approved_request ≠ "pending" →
      is_Some (responded_at Scenario.approved_request)
      ∧ is_Some (response Scenario.approved_request)))
  ∧ (status Scenario.approved_request = status Scenario.request
     ∨ (status Scenario.request = "pending"
        ∧ (status Scenario.approved_request = "approved"
           ∨ status Scenario.approved_request = "denied")))
  ∧ (time_checked (Scenario.at_second 10) ≤ expires_at Scenario.request
     ∧ responded_at Scenario.request = None
     ∧ response Scenario.request = None
     ∧ responded_at Scenario.approved_request
       = Some (time_responded (Scenario.at_second 10))
     ∧ ∃ response_text,
         parse_reply (Scenario.button_reply "approve_abc12345")
         = Decided "abc12345" (status Scenario.approved_request) response_text
         ∧ response Scenario.approved_request = Some response_text).
Proof.
  destruct (lifecycle_invariant Scenario.approved_store approved_store_reachable)
    as (H1 & _ & _).
  destruct (lifecycle_invariant Scenario.store scenario_store_reachable)
    as (_ & H2 & H3).
  split; [|split].
  - apply (H1 "abc12345"). reflexivity.
  - apply (H2 (twilio_webhook (Scenario.config None) (Scenario.at_second 10)
                 (Scenario.button_reply "approve_abc12345") Scenario.store).2
              "abc12345").
    + apply step_webhook.
    + reflexivity.
    + reflexivity.
  - apply (H3 (Scenario.config None) (Scenario.at_second 10)
              (Scenario.button_reply "approve_abc12345") "abc12345"
              Scenario.request Scenario.approved_request).
    + reflexivity.
    + reflexivity.
    + discriminate.
Defined.

(** ** The tool entry point *)

Lemma session_insert_fresh (st st' : Store) (row : ApprovalRequest) :
  session_insert st row = Return st' →
  st !! id row = None ∧ st' = <[id row := row]> st.
Proof.
  unfold session_insert. destruct (st !! id row); [discriminate|].
  destruct (request_id_taken st _); [discriminate|].
  intros [= <-]. auto.
Qed.

(** Cleaning up right after the insert gives back the table as it was. *)
Lemma insert_then_delete (st st' : Store) (row : ApprovalRequest) :
  session_insert st row = Return st' →
  session_delete st' (id row) = st.
Proof.
  intros [Hfresh ->]%session_insert_fresh. unfold session_delete.
  rewrite lookup_insert_eq, delete_insert_eq. apply delete_id, Hfresh.
Qed.

(** The writes of one call are writes of [step]. *)
Lemma approve_steps (cfg : Config) (env : Env) (fuel : nat) (tool_name : string)
    (input : list (string * InputValue)) (reason : string)
    (st st' : Store) (res : result pydict) :
  permissions__approve cfg env fuel tool_name input reason st = Some (res, st') →
  rtc step st st'.
Proof.
  unfold permissions__approve.
  destruct (twilio_client cfg) as [client|]; [|intros [= _ <-]; apply rtc_refl].
  destruct (APPROVAL_PHONE cfg) as [[|c p]|];
    try (intros [= _ <-]; apply rtc_refl).
  destruct (session_insert st _) as [st1|e] eqn:Hins;
    [|intros [= _ <-]; apply rtc_refl].
  assert (Hcreate : step st st1) by (eapply step_create, Hins).
  destruct (messages_create client _).
  - destruct (wait_loop _ _ _ _ _ _); [|discriminate].
    intros [= _ <-]. apply rtc_once, Hcreate.
  - intros [= _ <-]. eapply rtc_l; [exact Hcreate|].
    apply rtc_once, step_cleanup.
Qed.

(** C4. When the record was created and the send of the notification then
    raises, [permissions__approve] returns an error naming the failure and
    deletes the record it had just created: no row is left under the id, and
    the table is exactly the one the call found. *)
Theorem failed_send_is_rolled_back
    (cfg : Config) (env : Env) (fuel : nat) (tool_name : string)
    (input : list (string * InputValue)) (reason : string) (st st1 : Store)
    (client : Client) (c : ascii) (p e : string) :
  let phone := String c p in
  let request := format_request tool_name input reason in
  let approval := new_request env phone request in
  twilio_client cfg = Some client →
  APPROVAL_PHONE cfg = Some phone →
  session_insert st approval = Return st1 →
  messages_create client (approval_message cfg phone request (id approval))
  = Raise e →
  permissions__approve cfg env fuel tool_name input reason st
  = Some (Return [("error", PStr ("Failed to send WhatsApp message: " +:+ e))],
          session_delete st1 (id approval))
  ∧ st1 !! id approval = Some approval
  ∧ session_delete st1 (id approval) !! id approval = None
  ∧ session_delete st1 (id approval) = st.
Proof.
  intros phone request approval Hclient Hphone Hins Hsend.
  assert (E : session_delete st1 (id approval) = st)
    by (eapply insert_then_delete, Hins).
  destruct (session_insert_fresh _ _ _ Hins) as [Hfresh Hst1].
  split; [|split; [|split]].
  - subst phone request approval.
    unfold permissions__approve. rewrite Hclient, Hphone. cbv zeta.
    rewrite Hins, Hsend. reflexivity.
  - rewrite Hst1. apply lookup_insert_eq.
  - rewrite E. exact Hfresh.
  - exact E.
Qed.

Lemma failed_send_is_rolled_back_witness :
  permissions__approve (Scenario.config (Some Scenario.failing))
    (Scenario.env ∅) 0 "Edit" [] "" ∅
  = Some (Return [("error",
                   PStr ("Failed to send WhatsApp message: "
                         +:+ "HTTP 429 error: Unable to create record"))],
          session_delete Scenario.store "abc12345")
  ∧ Scenario.store !! "abc12345" = Some Scenario.request
  ∧ session_delete Scenario.store "abc12345" !! "abc12345" = None
  ∧ session_delete Scenario.store "abc12345" = ∅.
Proof.
  apply (failed_send_is_rolled_back (Scenario.config (Some Scenario.failing))
           (Scenario.env ∅) 0 "Edit" [] "" ∅ Scenario.store Scenario.failing
           "+" "15551234567" "HTTP 429 error: Unable to create record");
    reflexivity.
Defined.

(** ** The channel prefix *)

Lemma prefixed_has_colon (phone : string) :
  Py.startswith phone "whatsapp:" = true → Py.has_char ":" phone = true.
Proof.
  intros [t ->]%PyFacts.startswith_app.
  rewrite PyFacts.has_char_app. reflexivity.
Qed.

(** For a sender of the channel, line 280 yields the bare number. *)
Lemma from_phone_channel (From_ : string) :
  channel_sender From_ → Py.has_char ":" (from_phone From_) = false.
Proof.
  intros (number & Hn & [-> | ->]); unfold from_phone.
  - rewrite (PyFacts.startswith_absent ":") by (reflexivity || assumption).
    assumption.
  - rewrite PyFacts.startswith_app_true.
    unfold Py.replace. rewrite PyFacts.replace_go_here.
    rewrite (PyFacts.replace_go_absent ":") by (reflexivity || assumption).
    assumption.
Qed.

(** Every row a call adds carries the configured address as it is. *)
Lemma approve_rows (cfg : Config) (env : Env) (fuel : nat) (tool_name : string)
    (input : list (string * InputValue)) (reason : string)
    (st st' : Store) (res : result pydict) (phone : string) :
  APPROVAL_PHONE cfg = Some phone →
  permissions__approve cfg env fuel tool_name input reason st = Some (res, st') →
  ∀ k r, st' !! k = Some r →
         st !! k = Some r
         ∨ r = new_request env phone (format_request tool_name input reason).
Proof.
  intros Hphone. unfold permissions__approve. rewrite Hphone.
  destruct (twilio_client cfg) as [client|]; [|intros [= _ <-]; auto].
  destruct phone as [|c p]; [intros [= _ <-]; auto|].
  cbv zeta.
  destruct (session_insert st _) as [st1|e] eqn:Hins; [|intros [= _ <-]; auto].
  pose proof (insert_then_delete _ _ _ Hins) as Hdel.
  apply session_insert_fresh in Hins as [_ Hst1].
  destruct (messages_create client _).
  - destruct (wait_loop _ _ _ _ _ _); [|discriminate].
    intros [= _ <-] k r. rewrite Hst1, lookup_insert.
    case_decide; [intros [= <-]|]; auto.
  - intros H. assert (st' = st) as -> by (injection H as _ <-; exact Hdel).
    auto.
Qed.

(** C9. The handler compares the stored [phone_number] with the sender
    stripped of its [whatsapp:] prefix, while [permissions__approve] stores
    [APPROVAL_PHONE] as configured. When the configured address carries the
    prefix, every row a call adds carries it too, and every reply of the
    channel to such a request is answered "Request not found" and leaves
    the table as it was. *)
Theorem prefixed_approval_phone_is_never_found
    (cfg : Config) (phone : string) :
  APPROVAL_PHONE cfg = Some phone →
  Py.startswith phone "whatsapp:" = true →
  (∀ env fuel tool_name input reason st st' res k r,
     permissions__approve cfg env fuel tool_name input reason st
     = Some (res, st') →
     st !! k = None → st' !! k = Some r →
     phone_number r = phone)
  ∧ ∀ clk form st short_id response_ response_text r,
      channel_sender (default "" (From form)) →
      parse_reply form = Decided short_id response_ response_text →
      st !! short_id = Some r →
      phone_number r = phone →
      twilio_webhook cfg clk form st
      = (Return (error_reason "Request not found"), st).
Proof.
  intros Hcfg Hprefix. split.
  - intros env fuel tool_name input reason st st' res k r Hrun Hnew Hr.
    destruct (approve_rows _ _ _ _ _ _ _ _ _ _ Hcfg Hrun k r Hr) as [E | ->];
      [congruence|reflexivity].
  - intros clk form st short_id response_ response_text r Hsender Hp Hr Hphone.
    eapply webhook_no_row; [eassumption|].
    eapply select_other_row; [eassumption|].
    intros E. apply prefixed_has_colon in Hprefix.
    apply from_phone_channel in Hsender.
    rewrite <- E, Hphone in Hsender. congruence.
Qed.

Lemma prefixed_approval_phone_is_never_found_witness :
  phone_number
    (new_request (Scenario.env ∅) "whatsapp:+15551234567" "*Tool:* Edit")
  = "whatsapp:+15551234567"
  ∧ twilio_webhook Scenario.prefixed_config (Scenario.at_second 10)
      (Scenario.button_reply "approve_abc12345") Scenario.prefixed_store
    = (Return (error_reason "Request not found"), Scenario.prefixed_store).
Proof.
  destruct (prefixed_approval_phone_is_never_found Scenario.prefixed_config
              "whatsapp:+15551234567" eq_refl eq_refl) as [H1 H2].
  split.
  - apply (H1 (Scenario.env Scenario.approved_store) 1%nat "Edit" [] "" ∅
              Scenario.prefixed_store (Return approved_result) "abc12345");
      reflexivity.
  - eapply (H2 _ _ _ "abc12345" "approved" "Approve").
    + exists "+15551234567". split; [reflexivity|]. right. reflexivity.
    + reflexivity.
    + reflexivity.
    + reflexivity.
Defined.

(** The sender has to be one the channel writes: [replace] removes every
    occurrence of the prefix, and what is left of a sender built for the
    purpose can close up to a prefixed address again. *)
Remark nested_prefix_sender :
  from_phone "whatsapp:whatswhatsapp:app:+15551234567" = "whatsapp:+15551234567".
Proof. reflexivity. Qed.

(** ** The wait loop *)

(** One iteration: either it falls through, or it returns one of the three
    outcomes of lines 157-167. *)
Lemma poll_cases (t : Tick) (short_id : string) (expires : Z) :
  match poll t short_id expires with
  | None => unresolved t short_id ∧ check_time t ≤ expires
  | Some res =>
      (∃ cur, seen t !! short_id = Some cur
              ∧ status cur = "approved" ∧ res = approved_result)
      ∨ (∃ cur, seen t !! short_id = Some cur
                ∧ status cur ≠ "pending" ∧ status cur ≠ "approved"
                ∧ res = denied_result)
      ∨ (unresolved t short_id ∧ expires < check_time t
         ∧ res = expired_result)
  end.
Proof.
  unfold poll, select_by_id, unresolved.
  destruct (seen t !! short_id) as [cur|].
  - destruct (String.eqb_spec (status cur) "pending") as [Hp|Hp]; simpl.
    + destruct (Z.gtb_spec (check_time t) expires).
      * right. right. auto with lia.
      * auto with lia.
    + destruct (String.eqb_spec (status cur) "approved") as [Ha|Ha].
      * left. eauto.
      * right. left. eauto.
  - destruct (Z.gtb_spec (check_time t) expires).
    + right. right. auto with lia.
    + auto with lia.
Qed.

(** The two ways through the [while] test, one unrolling each. *)
Lemma wait_loop_budget_spent (fuel : nat) (tk : nat → Tick) (k : nat)
    (start_time expires : Z) (short_id : string) :
  seconds max_wait_time ≤ guard_time (tk k) - start_time →
  wait_loop (S fuel) tk k start_time expires short_id = Some timed_out_result.
Proof.
  intros H. simpl. unfold total_seconds_lt.
  destruct (Z.ltb_spec (guard_time (tk k) - start_time) (seconds max_wait_time));
    [lia|reflexivity].
Qed.

Lemma wait_loop_iteration (fuel : nat) (tk : nat → Tick) (k : nat)
    (start_time expires : Z) (short_id : string) :
  guard_time (tk k) - start_time < seconds max_wait_time →
  wait_loop (S fuel) tk k start_time expires short_id
  = match poll (tk k) short_id expires with
    | Some res => Some res
    | None => wait_loop fuel tk (S k) start_time expires short_id
    end.
Proof.
  intros H. simpl. unfold total_seconds_lt.
  destruct (Z.ltb_spec (guard_time (tk k) - start_time) (seconds max_wait_time));
    [reflexivity|lia].
Qed.

Section WaitLoop.
Variables (tk : nat → Tick) (start_time expires : Z) (short_id : string).
Hypothesis clock : clock_advances start_time tk.

(** By its [k]-th test the loop has slept [k] times. *)
Lemma guard_time_lower_bound (k : nat) :
  start_time + seconds check_interval * Z.of_nat k ≤ guard_time (tk k).
Proof.
  destruct clock as [H0 Hk]. induction k as [|k IH].
  - unfold seconds, check_interval. lia.
  - destruct (Hk k) as [H1 H2]. unfold seconds, check_interval in *. lia.
Qed.

(** After 150 sleeps the budget is spent. *)
Lemma budget_spent_at_150 :
  seconds max_wait_time ≤ guard_time (tk 150) - start_time.
Proof.
  pose proof (guard_time_lower_bound 150) as H.
  unfold seconds, check_interval, max_wait_time in *. lia.
Qed.

(** From iteration [k] on, with [m] iterations to go before the 150th. *)
Lemma wait_loop_from (m k : nat) :
  (k + m = 150)%nat →
  ∃ res n,
    (k ≤ n ≤ 150)%nat
    ∧ (∀ fuel, (n - k < fuel)%nat →
         wait_loop fuel tk k start_time expires short_id = Some res)
    ∧ (∀ j, (k ≤ j < n)%nat →
         keeps_waiting tk start_time expires short_id j)
    ∧ ends_with (tk n) start_time expires short_id res.
Proof.
  revert k. induction m as [|m IH]; intros k Hk.
  { replace k with 150%nat by lia.
    exists timed_out_result, 150%nat. pose proof budget_spent_at_150 as Hb.
    split; [lia|]. split; [|split].
    - intros [|fuel] Hf; [lia|]. apply wait_loop_budget_spent, Hb.
    - intros j Hj. lia.
    - left. auto. }
  destruct (Z.lt_ge_cases (guard_time (tk k) - start_time)
              (seconds max_wait_time)) as [Hin|Hout].
  2: { exists timed_out_result, k. split; [lia|]. split; [|split].
       - intros [|fuel] Hf; [lia|]. apply wait_loop_budget_spent, Hout.
       - intros j Hj. lia.
       - left. auto. }
  pose proof (poll_cases (tk k) short_id expires) as Hpoll.
  destruct (poll (tk k) short_id expires) as [res|] eqn:Epoll.
  - exists res, k. split; [lia|]. split; [|split].
    + intros [|fuel] Hf; [lia|].
      rewrite wait_loop_iteration, Epoll by assumption. reflexivity.
    + intros j Hj. lia.
    + right. auto.
  - destruct (IH (S k)) as (res & n & Hn & Hrun & Hwait & Hend); [lia|].
    exists res, n. split; [lia|]. split; [|split].
    + intros [|fuel] Hf; [lia|].
      rewrite wait_loop_iteration, Epoll by assumption. apply Hrun. lia.
    + intros j Hj. destruct (decide (j = k)) as [->|Hne].
      * unfold keeps_waiting. tauto.
      * apply Hwait. lia.
    + exact Hend.
Qed.

End WaitLoop.

Lemma ends_with_outcome (t : Tick) (start_time expires : Z) (short_id : string)
    (res : pydict) :
  ends_with t start_time expires short_id res →
  res = approved_result ∨ res = denied_result
  ∨ res = expired_result ∨ res = timed_out_result.
Proof.
  intros [[_ ->] | [_ [(cur & _ & _ & ->) | [(cur & _ & _ & _ & ->) | (_ & _ & ->)]]]];
    auto.
Qed.

(** C10. With the channel configured, the record created and the
    notification sent, [permissions__approve] returns, and returns one of
    approved, denied, "Request expired" and "Request timed out", provided
    each sleep of the loop lets two seconds pass: the loop reads the table
    at most 150 times, goes on while the row is unresolved and unexpired,
    and ends with approved or denied when it finds the row resolved, with
    "Request expired" when its clock is past [expires_at], and with
    "Request timed out" when 300 seconds have gone by. *)
Theorem approve_returns
    (cfg : Config) (env : Env) (tool_name : string)
    (input : list (string * InputValue)) (reason : string) (st st1 : Store)
    (client : Client) (c : ascii) (p : string) :
  let phone := String c p in
  let request := format_request tool_name input reason in
  let approval := new_request env phone request in
  twilio_client cfg = Some client →
  APPROVAL_PHONE cfg = Some phone →
  session_insert st approval = Return st1 →
  messages_create client (approval_message cfg phone request (id approval))
  = Return tt →
  clock_advances (time_started env) (ticks env) →
  ∃ res n,
    (n ≤ 150)%nat
    ∧ (∀ fuel, (n < fuel)%nat →
         permissions__approve cfg env fuel tool_name input reason st
         = Some (Return res, st1))
    ∧ (res = approved_result ∨ res = denied_result
       ∨ res = expired_result ∨ res = timed_out_result)
    ∧ (∀ k, (k < n)%nat →
         keeps_waiting (ticks env) (time_started env) (expires_at approval)
           (id approval) k)
    ∧ ends_with (ticks env n) (time_started env) (expires_at approval)
        (id approval) res.
Proof.
  intros phone request approval Hclient Hphone Hins Hsend Hclock.
  destruct (wait_loop_from (ticks env) (time_started env) (expires_at approval)
              (id approval) Hclock 150 0 eq_refl)
    as (res & n & Hn & Hrun & Hwait & Hend).
  exists res, n. split; [lia|]. split; [|split; [|split]].
  - intros fuel Hf. subst phone request approval.
    unfold permissions__approve. rewrite Hclient, Hphone. cbv zeta.
    rewrite Hins, Hsend, Hrun by lia. reflexivity.
  - eapply ends_with_outcome, Hend.
  - intros k Hk. apply Hwait. lia.
  - exact Hend.
Qed.

Lemma approve_returns_witness :
  ∃ res n,
    (n ≤ 150)%nat
    ∧ (∀ fuel, (n < fuel)%nat →
         permissions__approve (Scenario.config (Some Scenario.accepting))
           (Scenario.env Scenario.approved_store) fuel "Edit" [] "" ∅
         = Some (Return res, Scenario.store))
    ∧ (res = approved_result ∨ res = denied_result
       ∨ res = expired_result ∨ res = timed_out_result)
    ∧ (∀ k, (k < n)%nat →
         keeps_waiting (Scenario.steady Scenario.approved_store) Scenario.t0
           (Scenario.t0 + validity_window) "abc12345" k)
    ∧ ends_with (Scenario.steady Scenario.approved_store n) Scenario.t0
        (Scenario.t0 + validity_window) "abc12345" res.
Proof.
  apply (approve_returns (Scenario.config (Some Scenario.accepting))
           (Scenario.env Scenario.approved_store) "Edit" [] "" ∅ Scenario.store
           Scenario.accepting "+" "15551234567").
  - reflexivity.
  - reflexivity.
  - reflexivity.
  - reflexivity.
  - split.
    + simpl. lia.
    + intros k. simpl. unfold seconds, check_interval. lia.
Defined.

(** ** Typed replies and the case of the id *)

Lemma char_upper_not_lower (c : ascii) : Py.is_lower (Py.char_upper c) = false.
Proof. destruct c as [[] [] [] [] [] [] [] []]; reflexivity. Qed.

Lemma continuation_not_lower (c : ascii) :
  Py.is_continuation c = true → Py.is_lower c = false.
Proof. destruct c as [[] [] [] [] [] [] [] []]; (discriminate || reflexivity). Qed.

Lemma opening_not_lower (c : ascii) (n : nat) :
  Py.continuation_bytes c = S n → Py.is_lower c = false.
Proof. destruct c as [[] [] [] [] [] [] [] []]; (discriminate || reflexivity). Qed.

(** No entry of the table yields an ASCII lower-case letter. *)
Lemma upper_table_no_lower :
  forallb (λ kv, Py.all_chars (λ c, negb (Py.is_lower c)) kv.2) Py.upper_table
  = true.
Proof. vm_compute. reflexivity. Qed.

Lemma assoc_forallb (p : string → bool) (key : string)
    (table : list (string * string)) (v : string) :
  forallb (λ kv, p kv.2) table = true →
  Py.assoc key table = Some v → p v = true.
Proof.
  induction table as [|[k w] table IH]; [discriminate|].
  simpl. intros [Hw Ht]%andb_prop.
  destruct (String.eqb k key); [intros [= <-]; exact Hw|apply IH, Ht].
Qed.

Lemma upper_char_no_lower (t : string) :
  Py.all_chars (λ c, negb (Py.is_lower c)) t = true →
  Py.all_chars (λ c, negb (Py.is_lower c)) (Py.upper_char t) = true.
Proof.
  intros Ht. unfold Py.upper_char.
  destruct (Py.assoc t Py.upper_table) as [u|] eqn:E; [|exact Ht].
  exact (assoc_forallb _ _ _ _ upper_table_no_lower E).
Qed.

Lemma upper_go_no_lower (cur : string) (need : nat) (s : string) :
  Py.all_chars (λ c, negb (Py.is_lower c)) cur = true →
  Py.all_chars (λ c, negb (Py.is_lower c)) (Py.upper_go cur need s) = true.
Proof.
  revert cur need. induction s as [|c s IH]; intros cur need Hcur; [exact Hcur|].
  cbn [Py.upper_go].
  destruct (Nat.ltb 0 need && Py.is_continuation c) eqn:Hcont.
  - apply andb_prop in Hcont as [_ Hc]. apply continuation_not_lower in Hc.
    assert (Hnext : Py.all_chars (λ c, negb (Py.is_lower c)) (cur +:+ String c "")
                    = true).
    { rewrite PyFacts.all_chars_app, Hcur. simpl. rewrite Hc. reflexivity. }
    destruct (Nat.eqb need 1); [|apply IH, Hnext].
    rewrite PyFacts.all_chars_app, upper_char_no_lower by assumption.
    apply IH. reflexivity.
  - rewrite PyFacts.all_chars_app, Hcur.
    destruct (Py.continuation_bytes c) as [|n] eqn:Hn.
    + simpl. rewrite char_upper_not_lower. apply IH. reflexivity.
    + apply IH. simpl. rewrite (opening_not_lower c n Hn). reflexivity.
Qed.

Lemma upper_has_no_lower (s : string) :
  Py.all_chars (λ c, negb (Py.is_lower c)) (Py.upper s) = true.
Proof. apply upper_go_no_lower. reflexivity. Qed.

Section KeptCharacters.
Variable keep : ascii → bool.

Lemma all_chars_replace_go (old : string) (skip : nat) (s : string) :
  Py.all_chars keep s = true →
  Py.all_chars keep (Py.replace_go old "" skip s) = true.
Proof.
  revert skip. induction s as [|c s IH]; intros skip H; [reflexivity|].
  simpl in H. apply andb_prop in H as [Hc Hs].
  destruct skip as [|skip]; simpl.
  - destruct (Py.startswith (String c s) old).
    + apply IH, Hs.
    + simpl. rewrite Hc. apply IH, Hs.
  - apply IH, Hs.
Qed.

Lemma all_chars_lstrip (s : string) :
  Py.all_chars keep s = true → Py.all_chars keep (Py.lstrip s) = true.
Proof.
  assert (H : ∀ n s, (String.length s ≤ n)%nat →
                Py.all_chars keep s = true →
                Py.all_chars keep (Py.lstrip s) = true);
    [|apply (H (String.length s)); lia].
  clear s. induction n as [|n IH]; intros s Hn Hs.
  { destruct s; [reflexivity|simpl in Hn; lia]. }
  destruct s as [|a s1]; [reflexivity|].
  cbn [Py.lstrip]. simpl in Hn, Hs. apply andb_prop in Hs as [Ha H1].
  destruct (Py.is_space a); [apply IH; [lia|exact H1]|].
  assert (Hs : Py.all_chars keep (String a s1) = true)
    by (simpl; rewrite Ha; exact H1).
  destruct s1 as [|b s2]; [exact Hs|].
  simpl in Hn, H1. apply andb_prop in H1 as [Hb H2].
  destruct (Py.is_space2 a b); [apply IH; [lia|exact H2]|].
  destruct s2 as [|c s3]; [exact Hs|].
  simpl in Hn, H2. apply andb_prop in H2 as [Hc H3].
  destruct (Py.is_space3 a b c); [apply IH; [lia|exact H3]|exact Hs].
Qed.

Lemma all_chars_rstrip (s : string) :
  Py.all_chars keep s = true → Py.all_chars keep (Py.rstrip s) = true.
Proof.
  induction s as [|c s IH]; [reflexivity|].
  intros H. simpl in H. apply andb_prop in H as [Hc Hs]. specialize (IH Hs).
  cbn [Py.rstrip]. cbv zeta.
  destruct (Py.is_space_char (String c (Py.rstrip s))); [reflexivity|].
  simpl. rewrite Hc. exact IH.
Qed.

Lemma all_chars_strip (s : string) :
  Py.all_chars keep s = true → Py.all_chars keep (Py.strip s) = true.
Proof. intros H. apply all_chars_rstrip, all_chars_lstrip, H. Qed.

End KeptCharacters.

(** The id a typed reply names has gone through [upper()]: it holds no
    lower-case letter. *)
Lemma parse_text_id_upper (Body_ short_id response_ response_text : string) :
  parse_text Body_ = Decided short_id response_ response_text →
  Py.all_chars (λ c, negb (Py.is_lower c)) short_id = true.
Proof.
  unfold parse_text, Py.replace.
  pose proof (upper_has_no_lower (Py.strip Body_)) as Hu.
  destruct (Py.startswith _ "APPROVE ");
    [|destruct (Py.startswith _ "DENY "); [|discriminate]].
  all: intros [= <- _ _].
  all: apply all_chars_strip, all_chars_replace_go, Hu.
Qed.

(** Hence a typed reply leaves every row whose id holds a lower-case
    letter as it is, whatever it says and whoever sends it. *)
Lemma typed_reply_skips_lowercase_ids
    (cfg : Config) (clk : WebhookClock) (form : Form) (st : Store)
    (k : string) :
  store_invariant st →
  Py.truthy (ButtonPayload form) = false →
  Py.truthy (ListId form) = false →
  Py.all_chars (λ c, negb (Py.is_lower c)) k = false →
  (twilio_webhook cfg clk form st).2 !! k = st !! k.
Proof.
  intros Hinv Hb Hl Hk.
  destruct (webhook_store cfg clk form st)
    as [-> | (sid & resp & txt & r & Hp & Hr & _ & _ & _ & ->)]; [reflexivity|].
  unfold session_update. simpl. destruct (Hinv _ _ Hr) as [-> _].
  apply lookup_insert_ne. intros <-.
  assert (Hu : Py.all_chars (λ c, negb (Py.is_lower c)) sid = true);
    [|congruence].
  unfold parse_reply in Hp.
  destruct (status_callback form); [discriminate|].
  destruct (negb (Py.truthy (From form))); [discriminate|].
  destruct (falsy_cases _ Hb) as [Eb | Eb];
    destruct (falsy_cases _ Hl) as [El | El];
    rewrite Eb, El in Hp.
  all: destruct (Body form) as [[|c b]|]; try discriminate.
  all: eapply parse_text_id_upper, Hp.
Qed.

(** C1, on the code. The request [abc12345] is pending and unexpired and
    its approver types "approve abc12345". The parser upper-cases the whole
    body, so the id it looks up is [ABC12345]: the handler answers "Request
    not found", the row stays pending, and the poll two seconds later finds
    nothing to return. *)
Theorem typed_reply_misses_lowercase_id :
  parse_reply (Scenario.text_reply "approve abc12345")
  = Decided "ABC12345" "approved" "APPROVE ABC12345"
  ∧ twilio_webhook (Scenario.config (Some Scenario.accepting))
      (Scenario.at_second 10) (Scenario.text_reply "approve abc12345")
      Scenario.store
    = (Return (error_reason "Request not found"), Scenario.store)
  ∧ status <$> Scenario.store !! "abc12345" = Some "pending"
  ∧ poll (Scenario.steady Scenario.store 6) "abc12345"
      (expires_at Scenario.request)
    = None.
Proof. repeat split. Qed.

(** The typed reply does work for an id without letters. *)
Example typed_reply_reaches_digit_id :
  twilio_webhook (Scenario.config (Some Scenario.accepting))
    (Scenario.at_second 10) (Scenario.text_reply " approve 40912277 ")
    Scenario.digits_store
  = (Return (success "40912277-6789-4abc-8def-0123456789ab" "approved"),
     {[ "40912277" :=
          resolve Scenario.digits_request "approved" "APPROVE 40912277"
            (Scenario.t0 + seconds 10) ]}).
Proof. reflexivity. Qed.

(** ** The confirmation message *)

(** C8, on the code. The approver presses the button in time and the send
    of the confirmation raises: the decision is committed, and the
    exception leaves the handler in place of the success response. *)
Theorem failed_confirmation_escapes :
  twilio_webhook (Scenario.config (Some Scenario.failing))
    (Scenario.at_second 10) (Scenario.button_reply "approve_abc12345")
    Scenario.store
  = (Raise "HTTP 429 error: Unable to create record", Scenario.approved_store)
  ∧ twilio_webhook (Scenario.config (Some Scenario.accepting))
      (Scenario.at_second 10) (Scenario.button_reply "approve_abc12345")
      Scenario.store
    = (Return (success "abc12345-6789-4abc-8def-0123456789ab" "approved"),
       Scenario.approved_store).
Proof. split; reflexivity. Qed.

(** * Further properties *)

(** ** The entry point before the wait *)

(** X4. Without a Twilio client, or without an approver's number, the call
    returns an error dict at once and writes nothing; the missing client is
    reported first. *)
Theorem unconfigured_call_is_refused
    (cfg : Config) (env : Env) (fuel : nat) (tool_name : string)
    (input : list (string * InputValue)) (reason : string) (st : Store) :
  twilio_client cfg = None ∨ Py.truthy (APPROVAL_PHONE cfg) = false →
  permissions__approve cfg env fuel tool_name input reason st
  = Some (Return [("error",
                   PStr (match twilio_client cfg with
                         | None => "Twilio not configured"
                         | Some _ =>
                             "APPROVAL_PHONE not configured in environment variables"
                         end))],
          st).
Proof.
  intros H. unfold permissions__approve.
  destruct (twilio_client cfg) as [client|]; [|reflexivity].
  destruct H as [H|H]; [discriminate|].
  destruct (APPROVAL_PHONE cfg) as [[|c p]|]; try reflexivity.
  discriminate.
Qed.

Lemma unconfigured_call_is_refused_witness :
  permissions__approve Cases.no_phone (Scenario.env ∅) 0 "Edit" [] ""
    Scenario.store
  = Some (Return [("error",
                   PStr "APPROVAL_PHONE not configured in environment variables")],
          Scenario.store).
Proof.
  apply (unconfigured_call_is_refused Cases.no_phone (Scenario.env ∅) 0
           "Edit" [] "" Scenario.store).
  right. reflexivity.
Defined.

(** X5. When the short id drawn for a new request is already a key of the
    table, the commit raises: the exception leaves the call before any
    message is sent, and the table, the older row included, is as it
    was. *)
Theorem colliding_id_raises
    (cfg : Config) (env : Env) (fuel : nat) (tool_name : string)
    (input : list (string * InputValue)) (reason : string) (st : Store)
    (client : Client) (older : ApprovalRequest) :
  twilio_client cfg = Some client →
  Py.truthy (APPROVAL_PHONE cfg) = true →
  st !! Py.take 8 (uuid4 env) = Some older →
  ∃ e, permissions__approve cfg env fuel tool_name input reason st
       = Some (Raise e, st).
Proof.
  intros Hclient Hphone Hold. unfold permissions__approve.
  rewrite Hclient. destruct (APPROVAL_PHONE cfg) as [[|c p]|]; try discriminate.
  cbv zeta. unfold session_insert. simpl id. rewrite Hold. eauto.
Qed.

Lemma colliding_id_raises_witness :
  ∃ e, permissions__approve (Scenario.config (Some Scenario.accepting))
         (Scenario.env ∅) 0 "Edit" [] "" Scenario.approved_store
       = Some (Raise e, Scenario.approved_store).
Proof.
  apply (colliding_id_raises _ _ _ _ _ _ _ Scenario.accepting
           Scenario.approved_request); reflexivity.
Defined.

(** X6. Whatever a call does (refuse, raise, roll back or wait), every
    row that was in the table before it is still there, unchanged. *)
Theorem call_keeps_existing_rows
    (cfg : Config) (env : Env) (fuel : nat) (tool_name : string)
    (input : list (string * InputValue)) (reason : string)
    (st st' : Store) (res : result pydict) (k : string) (r : ApprovalRequest) :
  permissions__approve cfg env fuel tool_name input reason st = Some (res, st') →
  st !! k = Some r →
  st' !! k = Some r.
Proof.
  unfold permissions__approve.
  destruct (twilio_client cfg) as [client|]; [|intros [= _ <-]; auto].
  destruct (APPROVAL_PHONE cfg) as [[|c p]|]; try (intros [= _ <-]; auto).
  cbv zeta.
  destruct (session_insert st _) as [st1|e] eqn:Hins; [|intros [= _ <-]; auto].
  pose proof (insert_then_delete _ _ _ Hins) as Hdel.
  apply session_insert_fresh in Hins as [Hfresh Hst1].
  destruct (messages_create client _).
  - destruct (wait_loop _ _ _ _ _ _); [|discriminate].
    intros [= _ <-] Hr. rewrite Hst1. rewrite lookup_insert_ne; [exact Hr|].
    intros E. rewrite E in Hfresh. congruence.
  - intros H Hr. assert (st' = st) as -> by (injection H as _ <-; exact Hdel).
    exact Hr.
Qed.

Lemma call_keeps_existing_rows_witness :
  (<["abc12345" := Scenario.request]> Scenario.digits_store) !! "40912277"
  = Some Scenario.digits_request.
Proof.
  apply (call_keeps_existing_rows (Scenario.config (Some Scenario.accepting))
           (Scenario.env Scenario.approved_store) 1 "Edit" [] ""
           Scenario.digits_store
           (<["abc12345" := Scenario.request]> Scenario.digits_store)
           (Return approved_result) "40912277" Scenario.digits_request);
    reflexivity.
Defined.

(** ** What the handler writes *)

(** The answers the parser gives on its own are never a success. *)
Lemma parse_reply_respond (form : Form) (content : pydict) :
  parse_reply form = Respond content →
  ∃ word rest, content = ("status", PStr word) :: rest
               ∧ (word = "ok" ∨ word = "error" ∨ word = "ignored").
Proof.
  unfold parse_reply, parse_text, ignored.
  destruct (status_callback form); [intros [= <-]; eauto 6|].
  destruct (negb (Py.truthy (From form))); [intros [= <-]; eauto 6|].
  destruct (ButtonPayload form) as [[|c p]|];
    [| destruct (Py.split "_" (String c p)) as [|a [|b [|? ?]]];
       try (intros [= <-]; eauto 6);
       destruct (is_action a); [discriminate|intros [= <-]; eauto 6] |].
  all: destruct (ListId form) as [[|c l]|];
    [| destruct (Py.split ":" (String c l)) as [|a [|b [|? ?]]];
       try (intros [= <-]; eauto 6);
       destruct (is_action a); [discriminate|intros [= <-]; eauto 6] |].
  all: destruct (Body form) as [[|c b]|]; try (intros [= <-]; eauto 6).
  all: destruct (Py.startswith _ "APPROVE "); [discriminate|].
  all: destruct (Py.startswith _ "DENY "); [discriminate|].
  all: intros [= <-]; eauto 6.
Qed.

(** The handler's outcomes, with the response of each. *)
Lemma webhook_outcome (cfg : Config) (clk : WebhookClock) (form : Form) (st : Store) :
  (∃ word rest,
     twilio_webhook cfg clk form st = (Return (("status", PStr word) :: rest), st)
     ∧ (word = "ok" ∨ word = "error" ∨ word = "ignored"))
  ∨ ∃ short_id response_ response_text r,
      parse_reply form = Decided short_id response_ response_text
      ∧ st !! short_id = Some r
      ∧ phone_number r = from_phone (default "" (From form))
      ∧ status r = "pending"
      ∧ (response_ = "approved" ∨ response_ = "denied")
      ∧ time_checked clk ≤ expires_at r
      ∧ twilio_webhook cfg clk form st
        = (match twilio_client cfg with
           | Some client =>
               match messages_create client
                       (confirmation_message form short_id response_) with
               | Raise e => Raise e
               | Return _ => Return (success (request_id r) response_)
               end
           | None => Return (success (request_id r) response_)
           end,
           session_update st
             (resolve r response_ response_text (time_responded clk))).
Proof.
  destruct (parse_reply form) as [content|short_id response_ response_text] eqn:Hp.
  { left. destruct (parse_reply_respond _ _ Hp) as (word & rest & -> & Hw).
    exists word, rest. split; [|exact Hw].
    unfold twilio_webhook. rewrite Hp. reflexivity. }
  destruct (select_by_id_phone st short_id (from_phone (default "" (From form))))
    as [r|] eqn:Hsel.
  2: { left. exists "error", [("reason", PStr "Request not found")].
       split; [|auto]. eapply webhook_no_row; eassumption. }
  assert (Hr : st !! short_id = Some r
               ∧ phone_number r = from_phone (default "" (From form))).
  { unfold select_by_id_phone in Hsel.
    destruct (st !! short_id) as [r'|]; [|discriminate].
    destruct (decide _); [|discriminate]. split; congruence. }
  destruct Hr as [Hr Hphone].
  destruct (decide (status r = "pending")) as [Hs|Hs].
  2: { left. exists "error", [("reason", PStr "Request already processed")].
       split; [|auto]. eapply webhook_not_pending; eassumption. }
  destruct (Z.le_gt_cases (time_checked clk) (expires_at r)) as [Ht|Ht].
  2: { left. exists "error", [("reason", PStr "Request expired")].
       split; [|auto]. eapply webhook_late; eassumption. }
  right. exists short_id, response_, response_text, r.
  repeat split; try assumption.
  - eapply parse_reply_response, Hp.
  - eapply webhook_commits; eassumption.
Qed.

(** X7. The handler never adds a row and never removes one, and in the rows
    it finds it writes [status], [response] and [responded_at] only: the
    ids, the description, the requester, the phone number and both
    timestamps of creation stay as they were. *)
Theorem webhook_keeps_rows
    (cfg : Config) (clk : WebhookClock) (form : Form) (st : Store) (k : string) :
  store_invariant st →
  match st !! k, (twilio_webhook cfg clk form st).2 !! k with
  | Some r, Some r' => same_identity r r'
  | None, None => True
  | _, _ => False
  end.
Proof.
  intros Hinv.
  assert (Hsame : ∀ r, same_identity r r) by (intros r; repeat split).
  destruct (webhook_store cfg clk form st)
    as [-> | (sid & resp & txt & r & _ & Hr & _ & _ & _ & ->)].
  { destruct (st !! k); auto. }
  unfold session_update. simpl. destruct (Hinv _ _ Hr) as [-> _].
  rewrite lookup_insert. case_decide as Hk.
  - subst k. rewrite Hr. repeat split.
  - destruct (st !! k); auto.
Qed.

Lemma webhook_keeps_rows_witness :
  same_identity Scenario.request Scenario.approved_request.
Proof.
  apply (webhook_keeps_rows (Scenario.config None) (Scenario.at_second 10)
           (Scenario.button_reply "approve_abc12345") Scenario.store
           "abc12345").
  apply reachable_invariant, scenario_store_reachable.
Defined.

(** X8. What is recorded does not depend on the Twilio client: with no
    client, with one whose send succeeds and with one whose send raises the
    handler leaves the same table. And when it records nothing, its answer
    does not depend on the client either: no confirmation is attempted for
    a callback that is ignored or refused. *)
Theorem record_is_independent_of_client
    (cfg cfg' : Config) (clk : WebhookClock) (form : Form) (st : Store) :
  store_invariant st →
  (twilio_webhook cfg' clk form st).2 = (twilio_webhook cfg clk form st).2
  ∧ ((twilio_webhook cfg clk form st).2 = st →
     twilio_webhook cfg' clk form st = twilio_webhook cfg clk form st).
Proof.
  intros Hinv. unfold twilio_webhook.
  destruct (parse_reply form) as [content|sid resp txt] eqn:Hp; [auto|].
  destruct (select_by_id_phone st sid _) as [r|] eqn:Hsel; [|auto].
  destruct (String.eqb_spec (status r) "pending") as [Hs|Hs]; [|auto].
  simpl. destruct (time_checked clk >? expires_at r); [auto|].
  assert (Hwritten : session_update st (resolve r resp txt (time_responded clk))
                     ≠ st).
  { intros H.
    assert (Hr : st !! sid = Some r).
    { unfold select_by_id_phone in Hsel.
      destruct (st !! sid) as [r'|]; [|discriminate].
      destruct (decide _); congruence. }
    assert (Hl : st !! sid = Some (resolve r resp txt (time_responded clk))).
    { rewrite <- H at 1. unfold session_update. simpl.
      destruct (Hinv _ _ Hr) as [-> _]. apply lookup_insert_eq. }
    rewrite Hr in Hl. injection Hl as Hl.
    apply (f_equal status) in Hl. simpl in Hl.
    destruct (parse_reply_response _ _ _ _ Hp); congruence. }
  split.
  - destruct (twilio_client cfg') as [cl'|];
      [destruct (messages_create cl' _)|];
      (destruct (twilio_client cfg) as [cl|];
         [destruct (messages_create cl _)|]); reflexivity.
  - destruct (twilio_client cfg) as [cl|];
      [destruct (messages_create cl _)|]; simpl; intros H; contradiction.
Qed.

Lemma record_is_independent_of_client_witness :
  (twilio_webhook (Scenario.config (Some Scenario.failing))
     (Scenario.at_second 10) (Scenario.button_reply "approve_abc12345")
     Scenario.store).2
  = (twilio_webhook (Scenario.config None)
       (Scenario.at_second 10) (Scenario.button_reply "approve_abc12345")
       Scenario.store).2
  ∧ twilio_webhook (Scenario.config (Some Scenario.failing))
      (Scenario.at_second 10) (Scenario.intruder_reply "approve_abc12345")
      Scenario.store
    = twilio_webhook (Scenario.config None)
        (Scenario.at_second 10) (Scenario.intruder_reply "approve_abc12345")
        Scenario.store.
Proof.
  assert (Hinv : store_invariant Scenario.store)
    by apply reachable_invariant, scenario_store_reachable.
  split.
  - apply (record_is_independent_of_client (Scenario.config None)
             (Scenario.config (Some Scenario.failing))), Hinv.
  - apply (record_is_independent_of_client (Scenario.config None)
             (Scenario.config (Some Scenario.failing))
             (Scenario.at_second 10)
             (Scenario.intruder_reply "approve_abc12345") Scenario.store Hinv).
    reflexivity.
Defined.

(** ** From the button to the poll *)

Lemma parse_button_encoded (a : Action) (cid : string) (form : Form) :
  status_callback form = false →
  Py.truthy (From form) = true →
  Py.has_char "_" cid = false →
  parse_reply (set_ButtonPayload (Some (encode_button a cid)) form)
  = Decided cid (decision a)
      (Py.or_else (ButtonText form) (encode_button a cid)).
Proof.
  intros Hstatus Hfrom Hcid.
  assert (E : ∃ c p, encode_button a cid = String c p) by (destruct a; eauto).
  destruct E as (c & p & E).
  rewrite (parse_reply_button _ c p); [|assumption..|simpl; congruence].
  rewrite <- E. unfold encode_button.
  change ("_" +:+ cid) with (String "_" cid).
  rewrite split_encoded by auto.
  rewrite token_is_action, response_of_token. reflexivity.
Qed.

(** X9. A press of the approve or deny button for a pending request, sent
    from the stored number while the handler's clock has not passed
    [expires_at], is recorded: the row gets the decision, the button text
    and the time, every other row stays, and unless the confirmation send
    raises the answer is the success response with the long id. *)
Theorem button_press_is_recorded
    (cfg : Config) (clk : WebhookClock) (form : Form) (st : Store)
    (a : Action) (cid : string) (r : ApprovalRequest) :
  let pressed := set_ButtonPayload (Some (encode_button a cid)) form in
  let recorded :=
    resolve r (decision a)
      (Py.or_else (ButtonText form) (encode_button a cid))
      (time_responded clk) in
  status_callback form = false →
  Py.truthy (From form) = true →
  Py.has_char "_" cid = false →
  st !! cid = Some r →
  id r = cid →
  phone_number r = from_phone (default "" (From form)) →
  status r = "pending" →
  time_checked clk ≤ expires_at r →
  (twilio_webhook cfg clk pressed st).2 = <[cid := recorded]> st
  ∧ ((∀ client e, twilio_client cfg = Some client →
        messages_create client (confirmation_message pressed cid (decision a))
        ≠ Raise e) →
     (twilio_webhook cfg clk pressed st).1
     = Return (success (request_id r) (decision a))).
Proof.
  intros pressed recorded Hstatus Hfrom Hcid Hr Hid Hphone Hs Ht.
  pose proof (parse_button_encoded a cid form Hstatus Hfrom Hcid) as Hp.
  fold pressed in Hp.
  assert (Hsel : select_by_id_phone st cid
                   (from_phone (default "" (From pressed))) = Some r)
    by (apply select_own_row; assumption).
  rewrite (webhook_commits cfg clk pressed st _ _ _ Hp r Hsel Hs Ht).
  split.
  - simpl. unfold session_update. simpl. rewrite Hid. reflexivity.
  - intros Hsend. simpl.
    destruct (twilio_client cfg) as [client|]; [|reflexivity].
    destruct (messages_create client _) eqn:E; [reflexivity|].
    exfalso. eapply Hsend; [reflexivity|exact E].
Qed.

Lemma button_press_is_recorded_witness :
  (twilio_webhook (Scenario.config (Some Scenario.accepting))
     (Scenario.at_second 10) (Scenario.button_reply "deny_abc12345")
     Scenario.store).2
  = <["abc12345" :=
        resolve Scenario.request "denied" "Approve" (Scenario.t0 + seconds 10)]>
      Scenario.store
  ∧ (twilio_webhook (Scenario.config (Some Scenario.accepting))
       (Scenario.at_second 10) (Scenario.button_reply "deny_abc12345")
       Scenario.store).1
    = Return (success "abc12345-6789-4abc-8def-0123456789ab" "denied").
Proof.
  destruct (button_press_is_recorded (Scenario.config (Some Scenario.accepting))
              (Scenario.at_second 10) (Scenario.button_reply "approve_abc12345")
              Scenario.store Deny "abc12345" Scenario.request)
    as [H1 H2]; try reflexivity.
  - vm_compute. discriminate.
  - split; [exact H1|]. apply H2.
    intros client e [= <-]. discriminate.
Defined.

(** X10. Once the handler has answered with the success response, its
    decision is what every later poll of that request returns, also a poll
    that comes after [expires_at]: approved for approved, denied for
    denied. *)
Theorem recorded_decision_reaches_poll
    (cfg : Config) (clk : WebhookClock) (form : Form) (st st' : Store)
    (long_id response_ : string) :
  store_invariant st →
  twilio_webhook cfg clk form st = (Return (success long_id response_), st') →
  ∃ short_id r,
    st' !! short_id = Some r
    ∧ request_id r = long_id
    ∧ status r = response_
    ∧ ∀ t expires, seen t = st' →
        poll t short_id expires = Some (outcome_of response_).
Proof.
  intros Hinv E.
  destruct (webhook_outcome cfg clk form st)
    as [(word & rest & E' & Hw)
       | (sid & resp & txt & r & Hp & Hr & _ & Hs & Hresp & _ & E')];
    rewrite E in E'.
  { exfalso. injection E' as <- _. destruct Hw as [Hw|[Hw|Hw]]; discriminate. }
  assert (Hst' : st' = <[sid := resolve r resp txt (time_responded clk)]> st).
  { injection E' as _ ->. unfold session_update. simpl.
    destruct (Hinv _ _ Hr) as [-> _]. reflexivity. }
  assert (Hres : long_id = request_id r ∧ response_ = resp).
  { injection E' as E1 _.
    destruct (twilio_client cfg) as [cl|];
      [destruct (messages_create cl _); [|discriminate]|];
      unfold success in E1; split; congruence. }
  destruct Hres as [-> ->].
  exists sid, (resolve r resp txt (time_responded clk)).
  rewrite Hst', lookup_insert_eq. repeat split.
  intros t expires Hseen. unfold poll, select_by_id, outcome_of.
  rewrite Hseen, lookup_insert_eq. simpl.
  destruct Hresp as [-> | ->]; reflexivity.
Qed.

Lemma recorded_decision_reaches_poll_witness :
  ∃ short_id r,
    Scenario.approved_store !! short_id = Some r
    ∧ request_id r = "abc12345-6789-4abc-8def-0123456789ab"
    ∧ status r = "approved"
    ∧ ∀ t expires, seen t = Scenario.approved_store →
        poll t short_id expires = Some (outcome_of "approved").
Proof.
  apply (recorded_decision_reaches_poll
           (Scenario.config (Some Scenario.accepting)) (Scenario.at_second 10)
           (Scenario.button_reply "approve_abc12345") Scenario.store).
  - apply reachable_invariant, scenario_store_reachable.
  - reflexivity.
Defined.

(** ** The budget and the validity window *)

(** The loop answers "timed out" only from its [while] test. *)
Lemma wait_loop_timed_out (fuel : nat) (tk : nat → Tick) (k : nat)
    (start_time expires : Z) (short_id : string) :
  wait_loop fuel tk k start_time expires short_id = Some timed_out_result →
  ∃ n, (k ≤ n)%nat
       ∧ seconds max_wait_time ≤ guard_time (tk n) - start_time.
Proof.
  revert k. induction fuel as [|fuel IH]; intros k; [discriminate|].
  simpl. unfold total_seconds_lt.
  destruct (Z.ltb_spec (guard_time (tk k) - start_time) (seconds max_wait_time))
    as [Hin|Hout].
  - pose proof (poll_cases (tk k) short_id expires) as Hpoll.
    destruct (poll (tk k) short_id expires) as [res|].
    + intros [= ->]. exfalso.
      destruct Hpoll as [(? & _ & _ & H) | [(? & _ & _ & _ & H) | (_ & _ & H)]];
        discriminate.
    + intros H. destruct (IH _ H) as (n & Hn & Hb). exists n. split; [lia|exact Hb].
  - intros _. exists k. split; [lia|exact Hout].
Qed.

(** X11. The call answers "Request timed out" only when its clock, read in
    the [while] test, is at or past the request's [expires_at], provided
    the clock did not run backwards between the computation of
    [expires_at] and the start of the loop: the 300-second budget never
    ends a wait before the 5-minute window has. *)
Theorem timed_out_only_after_expiry
    (cfg : Config) (env : Env) (fuel : nat) (tool_name : string)
    (input : list (string * InputValue)) (reason : string) (st st' : Store) :
  time_requested env ≤ time_started env →
  permissions__approve cfg env fuel tool_name input reason st
  = Some (Return timed_out_result, st') →
  ∃ n, time_requested env + validity_window ≤ guard_time (ticks env n).
Proof.
  intros Hclock. unfold permissions__approve.
  destruct (twilio_client cfg) as [client|]; [|discriminate].
  destruct (APPROVAL_PHONE cfg) as [[|c p]|]; try discriminate.
  cbv zeta. destruct (session_insert st _) as [st1|e]; [|discriminate].
  destruct (messages_create client _); [|discriminate].
  destruct (wait_loop _ _ _ _ _ _) as [res|] eqn:E; [|discriminate].
  intros [= -> _].
  apply wait_loop_timed_out in E as (n & _ & Hb).
  exists n. unfold validity_window, max_wait_time, seconds in *. lia.
Qed.

Lemma timed_out_only_after_expiry_witness :
  ∃ n, Scenario.t0 + validity_window
       ≤ guard_time (Scenario.steady Scenario.store n).
Proof.
  apply (timed_out_only_after_expiry (Scenario.config (Some Scenario.accepting))
           (Scenario.env Scenario.store) 151 "Edit" [] "" ∅ Scenario.store).
  - simpl. lia.
  - vm_compute. reflexivity.
Defined.

(** ** The two forms of the approver's address *)

(** X12. For a configured number without a colon, the address the
    notification goes to carries the channel prefix, and both that address
    and the bare number are brought back to the stored number by the
    handler: the reply of the notified approver passes the sender test. *)
Theorem notified_address_matches_stored (phone : string) :
  Py.has_char ":" phone = false →
  to_number phone = "whatsapp:" +:+ phone
  ∧ from_phone (to_number phone) = phone
  ∧ from_phone phone = phone.
Proof.
  intros Hphone.
  assert (Hbare : Py.startswith phone "whatsapp:" = false)
    by (apply (PyFacts.startswith_absent ":"); [reflexivity|assumption]).
  unfold to_number, from_phone. rewrite Hbare. repeat split.
  rewrite PyFacts.startswith_app_true. unfold Py.replace.
  rewrite PyFacts.replace_go_here.
  apply (PyFacts.replace_go_absent ":"); [reflexivity|assumption].
Qed.

Lemma notified_address_matches_stored_witness :
  to_number Scenario.approver = "whatsapp:+15551234567"
  ∧ from_phone (to_number Scenario.approver) = Scenario.approver
  ∧ from_phone Scenario.approver = Scenario.approver.
Proof.
  apply (notified_address_matches_stored Scenario.approver). reflexivity.
Defined.

(** ** Keys of the table *)

Lemma request_id_free (st : Store) (rid : string) (k : string) (r : ApprovalRequest) :
  request_id_taken st rid = false → st !! k = Some r → request_id r ≠ rid.
Proof.
  unfold request_id_taken. intros H Hr E.
  apply bool_decide_eq_false in H. apply H. eauto.
Qed.

Lemma step_keys (st st' : Store) :
  step st st' → keys_invariant st → keys_invariant st'.
Proof.
  intros Hstep [Hrow Huniq].
  destruct Hstep as [env phone request st st' H|k st|cfg clk form st].
  - unfold session_insert in H.
    destruct (st !! id (new_request env phone request)) eqn:E; [discriminate|].
    destruct (request_id_taken st _) eqn:Efree; [discriminate|].
    injection H as <-. split.
    + intros k r. rewrite lookup_insert. case_decide as Hk.
      * intros [= <-]. repeat split. exact Hk.
      * apply Hrow.
    + intros k1 k2 r1 r2. rewrite !lookup_insert.
      case_decide as H1; case_decide as H2.
      * congruence.
      * intros [= <-] H Hid. exfalso.
        eapply request_id_free; [exact Efree|exact H|]. auto.
      * intros H [= <-] Hid. exfalso.
        eapply request_id_free; [exact Efree|exact H|]. auto.
      * apply Huniq.
  - unfold session_delete. destruct (st !! k); [|split; assumption]. split.
    + intros k' r. rewrite lookup_delete. case_decide; [discriminate|apply Hrow].
    + intros k1 k2 r1 r2. rewrite !lookup_delete.
      repeat case_decide; try discriminate. apply Huniq.
  - destruct (webhook_store cfg clk form st)
      as [-> | (sid & resp & txt & r & _ & Hr & _ & _ & _ & ->)];
      [split; assumption|].
    unfold session_update. simpl. destruct (Hrow _ _ Hr) as (Hid & Hshort & Hreq).
    rewrite Hid. split.
    + intros k r'. rewrite lookup_insert. case_decide as Hk.
      * intros [= <-]. simpl. subst k. auto.
      * apply Hrow.
    + intros k1 k2 r1 r2. rewrite !lookup_insert.
      case_decide as H1; case_decide as H2.
      * congruence.
      * intros [= <-] H Hrid. simpl in Hrid. subst k1.
        eapply Huniq; eassumption.
      * intros H [= <-] Hrid. simpl in Hrid. subst k2.
        eapply Huniq; eassumption.
      * apply Huniq.
Qed.

(** X13. In every table the two entry points can produce, each row is
    stored under its short id, the short id is the first eight characters
    of the long one, the requester is "Claude", and no two rows have the
    same long id. *)
Theorem reachable_keys (st : Store) : reachable st → keys_invariant st.
Proof.
  unfold reachable. intros H.
  apply (rtc_ind_r (R := step) (λ st, keys_invariant st) ∅); [| |exact H].
  - split.
    + intros k r. rewrite lookup_empty. discriminate.
    + intros k1 k2 r1 r2. rewrite lookup_empty. discriminate.
  - intros y z _ Hstep IH. eapply step_keys; eassumption.
Qed.

Lemma reachable_keys_witness : keys_invariant Scenario.store.
Proof. apply (reachable_keys Scenario.store), scenario_store_reachable. Defined.

(** ** What the parser accepts *)

Lemma split_nonempty (sep : ascii) (s : string) : Py.split sep s ≠ [].
Proof.
  destruct s as [|c s]; simpl; [discriminate|].
  destruct (Ascii.eqb c sep); [discriminate|].
  destruct (Py.split sep s); discriminate.
Qed.

Lemma split_single (sep : ascii) (s y : string) :
  Py.split sep s = [y] → s = y ∧ Py.has_char sep y = false.
Proof.
  revert y. induction s as [|c s IH]; intros y; simpl.
  - intros [= <-]. auto.
  - destruct (Ascii.eqb c sep) eqn:Hc.
    + intros [= _ H]. destruct (split_nonempty _ _ H).
    + destruct (Py.split sep s) as [|p ps] eqn:E.
      * destruct (split_nonempty sep s E).
      * intros [= <- ->]. destruct (IH p eq_refl) as [-> Hp].
        simpl. rewrite Hc, Hp. auto.
Qed.

(** Two parts come from exactly one separator. *)
Lemma split_pair (sep : ascii) (s x y : string) :
  Py.split sep s = [x; y] →
  s = x +:+ String sep y
  ∧ Py.has_char sep x = false ∧ Py.has_char sep y = false.
Proof.
  revert x. induction s as [|c s IH]; intros x; simpl; [discriminate|].
  destruct (Ascii.eqb_spec c sep) as [->|Hc].
  - intros [= <- H]. apply split_single in H as [-> Hy]. auto.
  - destruct (Py.split sep s) as [|p ps]; [discriminate|].
    intros [= <- ->]. destruct (IH p eq_refl) as (-> & Hp & Hy).
    simpl. apply Ascii.eqb_neq in Hc. rewrite Hc, Hp. auto.
Qed.

Lemma action_is_token (action : string) :
  is_action action = true →
  ∃ a, action = token a ∧ response_of action = decision a.
Proof.
  unfold is_action, response_of.
  destruct (String.eqb_spec action "approve") as [->|_].
  - exists Approve. auto.
  - destruct (String.eqb_spec action "deny") as [->|_]; [|discriminate].
    exists Deny. auto.
Qed.

(** X14. Whatever the parser decodes has one of the three shapes, and the
    first field present decides. A button payload is decoded only if it is
    [approve_<id>] or [deny_<id>] with no further underscore; failing a
    button payload, a list selection only if it is [approve:<id>] or
    [deny:<id>] with no further colon; failing both, a body only if,
    trimmed and upper-cased, it starts with [APPROVE ] or [DENY ].
    Anything else, an unknown action included, is never taken for a
    decision. *)
Theorem decoded_reply_has_a_shape
    (form : Form) (short_id response_ response_text : string) :
  parse_reply form = Decided short_id response_ response_text →
  status_callback form = false
  ∧ Py.truthy (From form) = true
  ∧ (button_shape form short_id response_ response_text
     ∨ list_shape form short_id response_ response_text
     ∨ text_shape form short_id response_ response_text).
Proof.
  unfold parse_reply, button_shape, list_shape, text_shape.
  destruct (status_callback form); [discriminate|].
  destruct (Py.truthy (From form)); [|discriminate]. cbv [negb].
  intros H. split; [reflexivity|]. split; [reflexivity|].
  assert (Hstruct : ∀ (sep : ascii) (payload : string) text,
    match Py.split sep payload with
    | [action; sid] =>
        if is_action action
        then Decided sid (response_of action) (text action sid)
        else Respond (ignored "")
    | _ => Respond (ignored "")
    end = Decided short_id response_ response_text →
    ∃ a, payload = token a +:+ String sep short_id
         ∧ Py.has_char sep short_id = false
         ∧ response_ = decision a
         ∧ response_text = text (token a) short_id).
  { intros sep payload text.
    destruct (Py.split sep payload) as [|action [|sid [|? ?]]] eqn:E;
      try discriminate.
    destruct (is_action action) eqn:Ha; [|discriminate].
    intros [= -> <- <-].
    apply split_pair in E as (-> & _ & Hsid).
    apply action_is_token in Ha as (a & -> & ->). eauto. }
  destruct (ButtonPayload form) as [[|c p]|] eqn:Eb.
  2: { left.
       destruct (Hstruct "_"%char (String c p)
                   (λ action sid, Py.or_else (ButtonText form)
                                    (action +:+ "_" +:+ sid)))
         as (a & -> & Hsid & -> & ->).
       { destruct (Py.split "_" (String c p)) as [|action [|sid [|? ?]]];
           try discriminate H.
         destruct (is_action action); [exact H|discriminate H]. }
       exists a. destruct a; auto. }
  all: right; destruct (ListId form) as [[|c l]|] eqn:El.
  2, 5: left; split; [reflexivity|];
    destruct (Hstruct ":"%char (String c l) (λ action sid, action +:+ ":" +:+ sid))
      as (a & -> & Hsid & -> & ->);
    [ destruct (Py.split ":" (String c l)) as [|action [|sid [|? ?]]];
        try discriminate H;
      destruct (is_action action); [exact H|discriminate H]
    | exists a; destruct a; auto ].
  all: right; split; [reflexivity|]; split; [reflexivity|].
  all: destruct (Body form) as [[|c b]|]; try discriminate.
  all: unfold parse_text in H.
  all: destruct (Py.startswith _ "APPROVE ") eqn:Ea;
    [ injection H as <- <- <-; exists Approve, (String c b); auto |].
  all: destruct (Py.startswith _ "DENY ") eqn:Ed; [|discriminate].
  all: injection H as <- <- <-; exists Deny, (String c b); auto.
Qed.

Lemma decoded_reply_has_a_shape_witness :
  status_callback (Cases.list_reply "deny:abc12345") = false
  ∧ Py.truthy (From (Cases.list_reply "deny:abc12345")) = true
  ∧ (button_shape (Cases.list_reply "deny:abc12345")
       "abc12345" "denied" "deny:abc12345"
     ∨ list_shape (Cases.list_reply "deny:abc12345")
         "abc12345" "denied" "deny:abc12345"
     ∨ text_shape (Cases.list_reply "deny:abc12345")
         "abc12345" "denied" "deny:abc12345").
Proof.
  apply (decoded_reply_has_a_shape (Cases.list_reply "deny:abc12345")
           "abc12345" "denied" "deny:abc12345").
  reflexivity.
Defined.

(** ** Letter case and margins of a typed reply *)

Lemma is_space_char_upper (c : ascii) :
  Py.is_space (Py.char_upper c) = Py.is_space c.
Proof. destruct c as [[] [] [] [] [] [] [] []]; reflexivity. Qed.

Lemma char_upper_ascii (c : ascii) :
  Py.is_ascii c = true → Py.is_ascii (Py.char_upper c) = true.
Proof. destruct c as [[] [] [] [] [] [] [] []]; (discriminate || reflexivity). Qed.

Lemma blank_char_ascii (c : ascii) : Py.is_space c = true → Py.is_ascii c = true.
Proof. destruct c as [[] [] [] [] [] [] [] []]; (discriminate || reflexivity). Qed.

Lemma ascii_second_not_space2 (a b : ascii) :
  Py.is_ascii b = true → Py.is_space2 a b = false.
Proof.
  destruct b as [[] [] [] [] [] [] [] []]; try discriminate;
    intros _; unfold Py.is_space2; simpl; apply andb_false_r.
Qed.

Lemma ascii_third_not_space3 (a b c : ascii) :
  Py.is_ascii c = true → Py.is_space3 a b c = false.
Proof.
  destruct c as [[] [] [] [] [] [] [] []]; try discriminate;
    intros _; unfold Py.is_space3; simpl;
    rewrite !andb_false_r; reflexivity.
Qed.

Lemma ascii_second_not_space3 (a b c : ascii) :
  Py.is_ascii b = true → Py.is_space3 a b c = false.
Proof.
  destruct b as [[] [] [] [] [] [] [] []]; try discriminate;
    intros _; unfold Py.is_space3; simpl;
    rewrite !andb_false_r; reflexivity.
Qed.

(** On ASCII text the two strips go one byte at a time. *)
Lemma lstrip_ascii_cons (a : ascii) (s : string) :
  Py.is_ascii a = true →
  Py.lstrip (String a s) = if Py.is_space a then Py.lstrip s else String a s.
Proof.
  intros Ha. destruct (Py.is_space a) eqn:E.
  - cbn [Py.lstrip]. rewrite E. reflexivity.
  - apply PyFacts.lstrip_id; assumption.
Qed.

Lemma rstrip_ascii_cons (c : ascii) (s : string) :
  Py.is_ascii c = true →
  Py.rstrip (String c s)
  = match Py.rstrip s with
    | "" => if Py.is_space c then "" else String c ""
    | r => String c r
    end.
Proof.
  intros Hc. cbn [Py.rstrip]. cbv zeta.
  destruct (Py.rstrip s) as [|d r]; [reflexivity|].
  rewrite PyFacts.ascii_head_not_space; [reflexivity|assumption|discriminate].
Qed.

Lemma upper_ascii (s : string) :
  Py.all_chars Py.is_ascii s = true → Py.all_chars Py.is_ascii (Py.upper s) = true.
Proof.
  induction s as [|c s IH]; [reflexivity|].
  intros H. simpl in H. apply andb_prop in H as [Hc Hs].
  rewrite PyFacts.upper_ascii_cons by assumption.
  simpl. rewrite char_upper_ascii, IH by assumption. reflexivity.
Qed.

Lemma lstrip_upper (s : string) :
  Py.all_chars Py.is_ascii s = true →
  Py.lstrip (Py.upper s) = Py.upper (Py.lstrip s).
Proof.
  induction s as [|c s IH]; [reflexivity|].
  intros H. simpl in H. apply andb_prop in H as [Hc Hs].
  rewrite PyFacts.upper_ascii_cons by assumption.
  rewrite !lstrip_ascii_cons by auto using char_upper_ascii.
  rewrite is_space_char_upper.
  destruct (Py.is_space c); [apply IH, Hs|].
  rewrite PyFacts.upper_ascii_cons by assumption. reflexivity.
Qed.

Lemma rstrip_upper (s : string) :
  Py.all_chars Py.is_ascii s = true →
  Py.rstrip (Py.upper s) = Py.upper (Py.rstrip s).
Proof.
  induction s as [|c s IH]; [reflexivity|].
  intros H. simpl in H. apply andb_prop in H as [Hc Hs].
  rewrite PyFacts.upper_ascii_cons by assumption.
  rewrite !rstrip_ascii_cons by auto using char_upper_ascii.
  rewrite (IH Hs), is_space_char_upper.
  pose proof (all_chars_rstrip Py.is_ascii s Hs) as Hr.
  destruct (Py.rstrip s) as [|d r].
  - change (Py.upper "") with "".
    destruct (Py.is_space c); [reflexivity|].
    rewrite PyFacts.upper_ascii_cons by assumption. reflexivity.
  - simpl in Hr. apply andb_prop in Hr as [Hd _].
    rewrite (PyFacts.upper_ascii_cons d) by assumption.
    rewrite (PyFacts.upper_ascii_cons c) by assumption.
    rewrite (PyFacts.upper_ascii_cons d) by assumption. reflexivity.
Qed.

Lemma strip_upper (s : string) :
  Py.all_chars Py.is_ascii s = true →
  Py.strip (Py.upper s) = Py.upper (Py.strip s).
Proof.
  intros Hs. unfold Py.strip. rewrite lstrip_upper by assumption.
  apply rstrip_upper, all_chars_lstrip, Hs.
Qed.

Lemma rstrip_blank (w : string) : blank w → Py.rstrip w = "".
Proof.
  unfold blank. induction w as [|c w IH]; [reflexivity|].
  intros H. simpl in H. apply andb_prop in H as [Hc Hw].
  cbn [Py.rstrip]. rewrite (IH Hw). simpl. rewrite Hc. reflexivity.
Qed.

Lemma lstrip_blank (w : string) : blank w → Py.lstrip w = "".
Proof.
  unfold blank. induction w as [|c w IH]; [reflexivity|].
  intros H. simpl in H. apply andb_prop in H as [Hc Hw].
  cbn [Py.lstrip]. rewrite Hc. apply IH, Hw.
Qed.

Lemma lstrip_blank_app (w s : string) : blank w → Py.lstrip (w +:+ s) = Py.lstrip s.
Proof.
  unfold blank. induction w as [|c w IH]; [reflexivity|].
  intros H. simpl in H. apply andb_prop in H as [Hc Hw].
  rewrite PyFacts.app_cons. cbn [Py.lstrip]. rewrite Hc. apply IH, Hw.
Qed.

Lemma rstrip_app_blank (s w : string) : blank w → Py.rstrip (s +:+ w) = Py.rstrip s.
Proof.
  intros Hw. induction s as [|c s IH]; [apply rstrip_blank, Hw|].
  rewrite PyFacts.app_cons. cbn [Py.rstrip]. rewrite IH. reflexivity.
Qed.

(** A blank tail cannot complete a white-space character of several
    bytes, so it is stripped from the right alone. *)
Lemma strip_app_blank (s w : string) : blank w → Py.strip (s +:+ w) = Py.strip s.
Proof.
  intros Hw. unfold Py.strip.
  assert (H : ∀ n s, (String.length s ≤ n)%nat →
                Py.rstrip (Py.lstrip (s +:+ w)) = Py.rstrip (Py.lstrip s));
    [|apply (H (String.length s)); lia].
  clear s. induction n as [|n IH]; intros s Hn.
  { destruct s; [|simpl in Hn; lia].
    change ("" +:+ w) with w. rewrite lstrip_blank by assumption. reflexivity. }
  destruct s as [|a s1].
  { change ("" +:+ w) with w. rewrite lstrip_blank by assumption. reflexivity. }
  assert (Hhead : ∀ b w', w = String b w' → Py.is_ascii b = true).
  { intros b w' ->. unfold blank in Hw. simpl in Hw.
    apply andb_prop in Hw as [Hb _]. apply blank_char_ascii, Hb. }
  simpl in Hn. rewrite PyFacts.app_cons. cbn [Py.lstrip].
  destruct (Py.is_space a) eqn:Ea; [apply IH; lia|].
  destruct s1 as [|b s2].
  { change ("" +:+ w) with w. destruct w as [|b w']; [reflexivity|].
    assert (Hb : Py.is_ascii b = true) by (eapply Hhead; eauto).
    rewrite ascii_second_not_space2 by assumption.
    destruct w' as [|c w'']; [|rewrite ascii_second_not_space3 by assumption];
      exact (rstrip_app_blank (String a "") _ Hw). }
  simpl in Hn. rewrite PyFacts.app_cons.
  destruct (Py.is_space2 a b) eqn:Eab; [apply IH; lia|].
  destruct s2 as [|c s3].
  { change ("" +:+ w) with w. destruct w as [|c w']; [reflexivity|].
    assert (Hc : Py.is_ascii c = true) by (eapply Hhead; eauto).
    rewrite ascii_third_not_space3 by assumption.
    exact (rstrip_app_blank (String a (String b "")) _ Hw). }
  simpl in Hn. rewrite PyFacts.app_cons.
  destruct (Py.is_space3 a b c) eqn:Eabc; [apply IH; lia|].
  exact (rstrip_app_blank (String a (String b (String c s3))) _ Hw).
Qed.

(** X15. A typed reply is read without regard to ASCII letter case and to
    ASCII white space around it: two ASCII bodies with the same upper-case
    form are decoded alike, and blanks, tabs and line breaks before and
    after a body change nothing. *)
Theorem typed_reply_ignores_case_and_margins :
  (∀ b1 b2,
     Py.all_chars Py.is_ascii b1 = true → Py.all_chars Py.is_ascii b2 = true →
     Py.upper b1 = Py.upper b2 → parse_text b1 = parse_text b2)
  ∧ (∀ w1 b w2, blank w1 → blank w2 →
       parse_text (w1 +:+ b +:+ w2) = parse_text b).
Proof.
  split.
  - intros b1 b2 H1 H2 E. unfold parse_text.
    rewrite <- !strip_upper, E by assumption. reflexivity.
  - intros w1 b w2 H1 H2. unfold parse_text.
    assert (Py.strip (w1 +:+ b +:+ w2) = Py.strip b) as ->; [|reflexivity].
    rewrite <- (strip_app_blank b w2 H2).
    unfold Py.strip. rewrite lstrip_blank_app by assumption. reflexivity.
Qed.

Lemma typed_reply_ignores_case_and_margins_witness :
  parse_text "Approve 40912277" = parse_text "aPPROVE 40912277"
  ∧ parse_text ("  " +:+ "deny 40912277" +:+ Py.nl) = parse_text "deny 40912277".
Proof.
  destruct typed_reply_ignores_case_and_margins as [H1 H2]. split.
  - apply H1; vm_compute; reflexivity.
  - apply H2; vm_compute; reflexivity.
Defined.

(** ** The description shown to the approver *)

Lemma len_take (n : nat) (s : string) :
  Py.len (Py.take n s) = Nat.min n (Py.len s).
Proof.
  revert n. induction s as [|c s IH]; intros n; [destruct n; reflexivity|].
  simpl. destruct (Py.is_continuation c) eqn:Ec.
  - simpl. rewrite Ec. apply IH.
  - destruct n as [|n]; [reflexivity|]. simpl. rewrite Ec, IH. reflexivity.
Qed.

Lemma len_app (s t : string) : Py.len (s +:+ t) = (Py.len s + Py.len t)%nat.
Proof.
  induction s as [|c s IH]; [reflexivity|].
  rewrite PyFacts.app_cons. simpl. rewrite IH.
  destruct (Py.is_continuation c); reflexivity.
Qed.

(** X16. In the list of parameters a string value of at most 50 characters
    is shown whole, and a longer one as its first 50 characters followed by
    three dots: never more than 53 characters of a string value reach the
    approver. Values that are not strings are shown as they print. *)
Theorem long_values_are_cut (key : string) (value : InputValue) :
  ∃ text,
    format_param (key, value) = "  • " +:+ key +:+ ": " +:+ text
    ∧ match value with
      | VStr s =>
          (Py.len text ≤ 53)%nat
          ∧ ((Py.len s ≤ 50)%nat → text = s)
          ∧ ((50 < Py.len s)%nat →
             text = Py.take 50 s +:+ "..." ∧ Py.len text = 53%nat)
      | VOther printed => text = printed
      end.
Proof.
  unfold format_param. simpl.
  destruct value as [s|printed]; [|eauto].
  destruct (Nat.ltb_spec 50 (Py.len s)) as [Hlong|Hshort].
  - exists (Py.take 50 s +:+ "..."). split; [reflexivity|].
    assert (Hlen : Py.len (Py.take 50 s +:+ "...") = 53%nat).
    { rewrite len_app, len_take. change (Py.len "...") with 3%nat. lia. }
    split; [lia|]. split; [lia|auto].
  - exists s. split; [reflexivity|]. split; [lia|]. split; [auto|lia].
Qed.

Lemma long_values_are_cut_witness :
  format_param ("file_path", VStr "src/approval_server.py")
  = "  • file_path: src/approval_server.py".
Proof.
  destruct (long_values_are_cut "file_path" (VStr "src/approval_server.py"))
    as (text & E & _ & Hshort & _).
  rewrite E, Hshort; [reflexivity|]. vm_compute. lia.
Defined.

(** ** The [.env] file *)

Lemma app_assoc_s (s t u : string) : (s +:+ t) +:+ u = s +:+ t +:+ u.
Proof.
  induction s as [|c s IH]; [reflexivity|].
  rewrite !PyFacts.app_cons, IH. reflexivity.
Qed.

Lemma app_empty_r (s : string) : s +:+ "" = s.
Proof.
  induction s as [|c s IH]; [reflexivity|].
  rewrite PyFacts.app_cons, IH. reflexivity.
Qed.

Lemma writelines_cons (line : string) (rest : list string) :
  writelines (line :: rest) = line +:+ writelines rest.
Proof. reflexivity. Qed.

Lemma writelines_app (l1 l2 : list string) :
  writelines (l1 ++ l2) = writelines l1 +:+ writelines l2.
Proof.
  induction l1 as [|line l1 IH]; [reflexivity|].
  simpl app. rewrite !writelines_cons, IH, app_assoc_s. reflexivity.
Qed.

(** Writing back what was read gives the text again. *)
Lemma writelines_readlines (s : string) : writelines (readlines s) = s.
Proof.
  induction s as [|c s IH]; [reflexivity|].
  simpl. destruct (Ascii.eqb c "010").
  - rewrite writelines_cons, IH. reflexivity.
  - destruct (readlines s) as [|line rest].
    + simpl in IH. subst s. reflexivity.
    + rewrite writelines_cons in *. rewrite PyFacts.app_cons, IH. reflexivity.
Qed.

Lemma readlines_nil (s : string) : readlines s = [] → s = "".
Proof.
  intros H. rewrite <- (writelines_readlines s), H. reflexivity.
Qed.

(** Reading a line with its break, and a last line without. *)
Lemma readlines_terminated (t rest : string) :
  Py.has_char "010" t = false →
  readlines ((t +:+ Py.nl) +:+ rest) = (t +:+ Py.nl) :: readlines rest.
Proof.
  intros Ht. induction t as [|c t IH]; [reflexivity|].
  simpl in Ht. apply orb_false_elim in Ht as [Hc Ht].
  rewrite !PyFacts.app_cons. simpl. rewrite Hc, (IH Ht). reflexivity.
Qed.

Lemma readlines_open (line : string) :
  open_line line → readlines line = [line].
Proof.
  intros [Hne Hnl]. induction line as [|c t IH]; [contradiction|].
  simpl in Hnl. apply orb_false_elim in Hnl as [Hc Ht].
  simpl. rewrite Hc. destruct t as [|d t]; [reflexivity|].
  rewrite IH by (discriminate || assumption). reflexivity.
Qed.

Lemma readlines_writelines (lines : list string) :
  well_split lines → readlines (writelines lines) = lines.
Proof.
  induction lines as [|line rest IH]; [reflexivity|].
  destruct rest as [|next rest].
  - intros [(t & -> & Ht) | Hopen].
    + rewrite writelines_cons, readlines_terminated by assumption. reflexivity.
    + rewrite writelines_cons. change (writelines []) with "".
      rewrite app_empty_r. apply readlines_open, Hopen.
  - intros [(t & -> & Ht) Hrest].
    rewrite writelines_cons, readlines_terminated by assumption.
    rewrite (IH Hrest). reflexivity.
Qed.

Lemma terminated_cons (c : ascii) (line : string) :
  Ascii.eqb c "010" = false → terminated line → terminated (String c line).
Proof.
  intros Hc (t & -> & Ht). exists (String c t). split; [reflexivity|].
  simpl. rewrite Hc, Ht. reflexivity.
Qed.

Lemma readlines_well_split (s : string) : well_split (readlines s).
Proof.
  induction s as [|c s IH]; [exact I|].
  simpl. destruct (Ascii.eqb c "010") eqn:Hc.
  - assert (Hnl : terminated (String c "")).
    { apply Ascii.eqb_eq in Hc as ->. exists "". auto. }
    destruct (readlines s); simpl; auto.
  - destruct (readlines s) as [|line rest].
    + right. split; [discriminate|]. simpl. rewrite Hc. reflexivity.
    + destruct rest as [|next rest].
      * destruct IH as [Ht | [Hne Hnl]].
        -- left. apply terminated_cons; assumption.
        -- right. split; [discriminate|]. simpl. rewrite Hc, Hnl. reflexivity.
      * destruct IH as [Ht Hrest]. split; [|exact Hrest].
        apply terminated_cons; assumption.
Qed.

(** A text ending in a line break has nothing but terminated lines. *)
Lemma readlines_all_terminated (s : string) :
  Forall terminated (readlines (s +:+ Py.nl)).
Proof.
  induction s as [|c s IH].
  - apply Forall_cons. split; [|constructor]. exists "". auto.
  - rewrite PyFacts.app_cons. simpl. destruct (Ascii.eqb c "010") eqn:Hc.
    + apply Forall_cons. split; [|exact IH].
      apply Ascii.eqb_eq in Hc as ->. exists "". auto.
    + destruct (readlines (s +:+ Py.nl)) as [|line rest] eqn:E.
      * apply readlines_nil in E. destruct s; discriminate.
      * apply Forall_cons in IH as [Hl Hrest]. apply Forall_cons.
        split; [|exact Hrest]. apply terminated_cons; assumption.
Qed.

Lemma well_split_terminated (lines : list string) (new : string) :
  Forall terminated lines → terminated new → well_split (lines ++ [new]).
Proof.
  intros Hl Hn. induction Hl as [|line rest Hline Hrest IH]; [left; exact Hn|].
  simpl app. destruct (rest ++ [new]) eqn:E; [destruct rest; discriminate|].
  split; assumption.
Qed.

Lemma well_split_replace (pre post : list string) (old new : string) :
  well_split (pre ++ old :: post) → terminated new →
  well_split (pre ++ new :: post).
Proof.
  intros H Hn. induction pre as [|line pre IH].
  - simpl in *. destruct post as [|next post]; [left; exact Hn|].
    destruct H as [_ H]. split; assumption.
  - simpl app in *.
    destruct (pre ++ old :: post) eqn:E1; [destruct pre; discriminate|].
    destruct (pre ++ new :: post) eqn:E2; [destruct pre; discriminate|].
    destruct H as [Hl H]. split; [exact Hl|]. apply IH, H.
Qed.

(** The loop, by what it finds. *)
Lemma replace_first_found (template_sid : string) (pre post : list string)
    (old : string) :
  Forall (λ line, ¬ has_key line) pre → has_key old →
  replace_first template_sid (pre ++ old :: post)
  = Some (pre ++ content_sid_line template_sid :: post).
Proof.
  intros Hpre Hold. induction Hpre as [|line pre Hline Hpre IH].
  - simpl app. cbn [replace_first]. unfold has_key in Hold.
    rewrite Hold. reflexivity.
  - simpl app. cbn [replace_first]. unfold has_key in Hline.
    destruct (Py.startswith line content_sid_key); [contradiction|].
    rewrite IH. reflexivity.
Qed.

Lemma replace_first_absent (template_sid : string) (lines : list string) :
  Forall (λ line, ¬ has_key line) lines →
  replace_first template_sid lines = None.
Proof.
  intros H. induction H as [|line rest Hline Hrest IH]; [reflexivity|].
  cbn [replace_first]. unfold has_key in Hline.
  destruct (Py.startswith line content_sid_key); [contradiction|].
  rewrite IH. reflexivity.
Qed.

Lemma replace_first_cases (template_sid : string) (lines : list string) :
  (Forall (λ line, ¬ has_key line) lines)
  ∨ ∃ pre old post,
      lines = pre ++ old :: post
      ∧ Forall (λ line, ¬ has_key line) pre ∧ has_key old.
Proof.
  induction lines as [|line rest IH]; [left; constructor|].
  destruct (Py.startswith line content_sid_key) eqn:E.
  - right. exists [], line, rest.
    split; [reflexivity|]. split; [constructor|exact E].
  - destruct IH as [IH | (pre & old & post & -> & Hpre & Hold)].
    + left. constructor; [|exact IH]. unfold has_key. congruence.
    + right. exists (line :: pre), old, post.
      split; [reflexivity|]. split; [|exact Hold].
      constructor; [|exact Hpre]. unfold has_key. congruence.
Qed.

(** X17. When some line of the file starts with [TWILIO_CONTENT_SID=], the
    first such line is overwritten with the new setting and its line break;
    every line before it and every line after it, later lines with the
    same key included, is written back as it was read. *)
Theorem update_overwrites_first_key_line
    (template_sid content : string) (pre post : list string) (old : string) :
  readlines (universal_newlines content) = pre ++ old :: post →
  Forall (λ line, ¬ has_key line) pre →
  has_key old →
  update_env_file template_sid (Some content)
  = (true,
     Some (writelines pre +:+ content_sid_line template_sid
           +:+ writelines post)).
Proof.
  intros Hlines Hpre Hold. unfold update_env_file, updated_lines.
  rewrite Hlines, replace_first_found by assumption.
  rewrite writelines_app, writelines_cons. reflexivity.
Qed.

(** X18. When no line starts with the key, the new setting is written
    after the text as it was read, whatever that text ends in: after a last
    line without a line break the setting continues that line. *)
Theorem update_appends_the_setting (template_sid content : string) :
  Forall (λ line, ¬ has_key line) (readlines (universal_newlines content)) →
  update_env_file template_sid (Some content)
  = (true,
     Some (universal_newlines content +:+ content_sid_line template_sid)).
Proof.
  intros H. unfold update_env_file, updated_lines.
  rewrite replace_first_absent by assumption.
  rewrite writelines_app, writelines_readlines.
  rewrite writelines_cons. change (writelines []) with "".
  rewrite app_empty_r. reflexivity.
Qed.


Lemma update_overwrites_first_key_line_witness :
  update_env_file "HXnew" (Some Cases.env_with_key)
  = (true,
     Some ("TWILIO_ACCOUNT_SID=AC0123" +:+ Py.nl
           +:+ "TWILIO_CONTENT_SID=HXnew" +:+ Py.nl
           +:+ "APPROVAL_PHONE=+15551234567" +:+ Py.nl)).
Proof.
  rewrite (update_overwrites_first_key_line "HXnew" Cases.env_with_key
           ["TWILIO_ACCOUNT_SID=AC0123" +:+ Py.nl]
           ["APPROVAL_PHONE=+15551234567" +:+ Py.nl]
           ("TWILIO_CONTENT_SID=HXold" +:+ Py.nl)).
  - vm_compute. reflexivity.
  - vm_compute. reflexivity.
  - repeat constructor. intros H. vm_compute in H. discriminate H.
  - vm_compute. reflexivity.
Defined.

Lemma update_appends_the_setting_witness :
  update_env_file "HXnew" (Some Cases.env_without_key)
  = (true,
     Some ("TWILIO_ACCOUNT_SID=AC0123" +:+ Py.nl
           +:+ "APPROVAL_PHONE=+15551234567TWILIO_CONTENT_SID=HXnew"
           +:+ Py.nl)).
Proof.
  rewrite (update_appends_the_setting "HXnew" Cases.env_without_key).
  - vm_compute. reflexivity.
  - vm_compute. repeat constructor; intros H; discriminate H.
Defined.

(** ** Running the script again *)

Lemma universal_newlines_clean (s : string) :
  Py.has_char "013" (universal_newlines s) = false.
Proof.
  assert (H : ∀ n s, (String.length s ≤ n)%nat →
                     Py.has_char "013" (universal_newlines s) = false);
    [|apply (H (String.length s)); lia].
  clear s. induction n as [|n IH]; intros s Hn.
  { destruct s; [reflexivity|simpl in Hn; lia]. }
  destruct s as [|c s]; [reflexivity|]. simpl in Hn.
  cbn [universal_newlines]. destruct (Ascii.eqb c "013") eqn:Hc.
  - destruct s as [|d s]; [reflexivity|].
    assert (Hrest : Py.has_char "013" (String "010" (universal_newlines s))
                    = false)
      by (cbn [Py.has_char]; rewrite IH by (simpl in Hn; lia); reflexivity).
    assert (Hall : Py.has_char "013"
                     (String "010" (universal_newlines (String d s))) = false)
      by (cbn [Py.has_char]; rewrite IH by lia; reflexivity).
    destruct d as [[] [] [] [] [] [] [] []]; first [exact Hrest | exact Hall].
  - cbn [Py.has_char]. rewrite Hc, IH by lia. reflexivity.
Qed.

Lemma universal_newlines_id (s : string) :
  Py.has_char "013" s = false → universal_newlines s = s.
Proof.
  induction s as [|c s IH]; [reflexivity|].
  intros H. cbn [Py.has_char] in H. apply orb_false_elim in H as [Hc Hs].
  cbn [universal_newlines]. rewrite Hc, (IH Hs). reflexivity.
Qed.

Lemma content_sid_line_terminated (template_sid : string) :
  Py.has_char "010" template_sid = false →
  terminated (content_sid_line template_sid).
Proof.
  intros H. exists (content_sid_key +:+ template_sid). split.
  - unfold content_sid_line. rewrite app_assoc_s. reflexivity.
  - rewrite PyFacts.has_char_app, H. reflexivity.
Qed.

Lemma content_sid_line_has_key (template_sid : string) :
  has_key (content_sid_line template_sid).
Proof. apply PyFacts.startswith_app_true. Qed.

Lemma content_sid_line_clean (template_sid : string) :
  Py.has_char "013" template_sid = false →
  Py.has_char "013" (content_sid_line template_sid) = false.
Proof.
  intros H. unfold content_sid_line.
  rewrite !PyFacts.has_char_app, H. reflexivity.
Qed.

(** A text whose lines are as [readlines] yields them, with the key on a
    line of its own, is left as it is by the update. *)
Lemma update_fixed_point (template_sid : string) (pre post : list string) :
  well_split (pre ++ content_sid_line template_sid :: post) →
  Forall (λ line, ¬ has_key line) pre →
  Py.has_char "013"
    (writelines (pre ++ content_sid_line template_sid :: post)) = false →
  update_env_file template_sid
    (Some (writelines (pre ++ content_sid_line template_sid :: post)))
  = (true, Some (writelines (pre ++ content_sid_line template_sid :: post))).
Proof.
  intros Hsplit Hpre Hclean. unfold update_env_file, updated_lines.
  rewrite universal_newlines_id by assumption.
  rewrite readlines_writelines by assumption.
  rewrite replace_first_found
    by (assumption || apply content_sid_line_has_key).
  reflexivity.
Qed.

(** X19. Running the update a second time with the same SID changes
    nothing, provided the SID holds no line break and the file either had a
    line with the key or ended in a line break (or was empty). *)
Theorem update_twice_is_update_once (template_sid content content' : string) :
  one_line template_sid →
  Exists has_key (readlines (universal_newlines content))
  ∨ ends_in_newline content →
  update_env_file template_sid (Some content) = (true, Some content') →
  update_env_file template_sid (Some content') = (true, Some content').
Proof.
  intros [Hnl Hcr] Hfile Hfirst.
  pose proof (universal_newlines_clean content) as Hclean.
  pose proof (readlines_well_split (universal_newlines content)) as Hsplit.
  rewrite <- (writelines_readlines (universal_newlines content)) in Hclean.
  unfold update_env_file, updated_lines in Hfirst.
  destruct (replace_first_cases template_sid
              (readlines (universal_newlines content)))
    as [Habsent | (pre & old & post & Hlines & Hpre & Hold)].
  - destruct Hfile as [Hkey | Hend].
    { exfalso. apply Exists_exists in Hkey as (line & Hin & Hkey).
      rewrite Forall_forall in Habsent. exact (Habsent line Hin Hkey). }
    rewrite (replace_first_absent _ _ Habsent) in Hfirst.
    injection Hfirst as <-.
    assert (Hterm : Forall terminated (readlines (universal_newlines content))).
    { destruct Hend as [-> | (s & ->)];
        [constructor|apply readlines_all_terminated]. }
    apply (update_fixed_point template_sid _ []).
    + apply well_split_terminated;
        [assumption|apply content_sid_line_terminated, Hnl].
    + exact Habsent.
    + rewrite writelines_app, PyFacts.has_char_app, Hclean.
      rewrite writelines_cons. change (writelines []) with "".
      rewrite app_empty_r. apply content_sid_line_clean, Hcr.
  - rewrite Hlines in Hfirst, Hclean, Hsplit.
    rewrite (replace_first_found _ _ _ _ Hpre Hold) in Hfirst.
    injection Hfirst as <-.
    apply update_fixed_point.
    + eapply well_split_replace;
        [exact Hsplit|apply content_sid_line_terminated, Hnl].
    + exact Hpre.
    + rewrite writelines_app, writelines_cons, !PyFacts.has_char_app in Hclean.
      apply orb_false_elim in Hclean as [H1 H2].
      apply orb_false_elim in H2 as [_ H3].
      rewrite writelines_app, writelines_cons, !PyFacts.has_char_app.
      rewrite H1, H3, (content_sid_line_clean _ Hcr). reflexivity.
Qed.

Lemma update_twice_is_update_once_witness :
  update_env_file "HXnew"
    (Some ("TWILIO_ACCOUNT_SID=AC0123" +:+ Py.nl
           +:+ "TWILIO_CONTENT_SID=HXnew" +:+ Py.nl
           +:+ "APPROVAL_PHONE=+15551234567" +:+ Py.nl))
  = (true,
     Some ("TWILIO_ACCOUNT_SID=AC0123" +:+ Py.nl
           +:+ "TWILIO_CONTENT_SID=HXnew" +:+ Py.nl
           +:+ "APPROVAL_PHONE=+15551234567" +:+ Py.nl)).
Proof.
  apply (update_twice_is_update_once "HXnew" Cases.env_with_key).
  - split; vm_compute; reflexivity.
  - left. vm_compute. apply Exists_cons_tl, Exists_cons_hd. reflexivity.
  - vm_compute. reflexivity.
Defined.

(** Without a final line break the first run extends the last line, no line
    starts with the key afterwards, and a second run writes the setting
    once more. *)
Example open_last_line_is_extended_again :
  update_env_file "HXnew" (Some Cases.env_without_key)
  = (true,
     Some ("TWILIO_ACCOUNT_SID=AC0123" +:+ Py.nl
           +:+ "APPROVAL_PHONE=+15551234567TWILIO_CONTENT_SID=HXnew"
           +:+ Py.nl))
  ∧ update_env_file "HXnew"
      (Some ("TWILIO_ACCOUNT_SID=AC0123" +:+ Py.nl
             +:+ "APPROVAL_PHONE=+15551234567TWILIO_CONTENT_SID=HXnew"
             +:+ Py.nl))
    = (true,
       Some ("TWILIO_ACCOUNT_SID=AC0123" +:+ Py.nl
             +:+ "APPROVAL_PHONE=+15551234567TWILIO_CONTENT_SID=HXnew"
             +:+ Py.nl +:+ "TWILIO_CONTENT_SID=HXnew" +:+ Py.nl)).
Proof. split; vm_compute; reflexivity. Qed.
